(** * AI Newsletter server: the batch research aggregator

    A shallow embedding of the research tools of [main.py]
    ([rate_limit], [safe_api_call], [search_arxiv_papers],
    [fetch_github_trending], [search_product_hunt], [fetch_twitter_trends]
    and [fetch_all_research]) and the properties of the aggregator
    specification that are settled on it.

    Conventions of the embedding.
    - Python [int] is [Z]; [str] is [string]; a list is a [list].
    - [time.time()] floats are exact rationals ([Q]): the arithmetic of the
      limiter is the one of the source, without rounding.
    - A naive [datetime] is its number of microseconds since
      0001-01-01T00:00:00, a [timedelta] a number of microseconds.
    - Effects (clock, sleeping, the closure cell of each limiter, the
      logger, the network) are threaded through a [World]; a raised Python
      exception is the [Raise] outcome of the monad [M].
    - Only subclasses of [Exception] are modelled; [KeyboardInterrupt] and
      [SystemExit] are outside the model.
    - [@mcp.tool()] registers the function and hands it back unchanged.
    - Provider payloads are typed: a field that the code reads with
      [d[k]] or [d.get(k)] is an [option] (absent key), and a present field
      has the JSON type the provider documents.

    The editing tools ([create_newsletter_draft],
    [organize_content_sections], [validate_newsletter_content]), the
    startup check [validate_config] and the Google tools
    ([get_google_service], [fetch_past_newsletters], [scan_gmail_feedback],
    [save_to_drive]) are embedded after the research tools.
    - The dictionaries the editing tools are given are untyped: they are
      [Value]s, and a lookup, a slice or a [len] on a value of the wrong
      type raises as in Python.
    - The Google client library is outside the program: building a service
      and each call on it are answers of a [Google] record, and time passes
      at each of them. *)

From Stdlib Require Import ZArith QArith Qround List String Ascii Bool Lia Lqa.
From Stdlib Require Import Qminmax Permutation Sorted DecimalString.
Import ListNotations.

Local Open Scope string_scope.
Local Open Scope list_scope.
Local Open Scope Z_scope.

(** ** Python exceptions *)

Inductive ExnClass : Type :=
| RequestsTimeout            (* requests.Timeout and its subclasses *)
| RequestsRequestException   (* any other requests.RequestException *)
| PyException.               (* any other subclass of Exception *)

Record Exn : Type := mkExn { exn_class : ExnClass; exn_str : string }.

(** [isinstance e c], along requests.Timeout <: requests.RequestException
    <: Exception. *)
Definition isinstance (e : Exn) (c : ExnClass) : bool :=
  match c, exn_class e with
  | PyException, _ => true
  | RequestsRequestException, RequestsTimeout => true
  | RequestsRequestException, RequestsRequestException => true
  | RequestsTimeout, RequestsTimeout => true
  | _, _ => false
  end.

Definition KeyError (k : string) : Exn :=
  mkExn PyException ("'" ++ k ++ "'")%string.
Definition OverflowError (m : string) : Exn := mkExn PyException m.
Definition ZeroDivisionError : Exn :=
  mkExn PyException "float division by zero".

(** ** Requests sent to the outside *)

Inductive Param : Type := PStr (s : string) | PInt (n : Z).

Inductive Request : Type :=
| ArxivSearch (query : string) (max_results : Z) (sort_by : string)
| HttpGet (url : string) (params : list (string * Param))
          (headers : list (string * string)) (timeout : Z)
| HttpPost (url : string) (json : list (string * string))
           (headers : list (string * string)) (timeout : Z).

(** ** The world *)

(** One closure cell [last_called] per decorated function. *)
Inductive Limiter : Type := L_arxiv | L_github | L_product_hunt | L_twitter.

Definition Limiter_eqb (a b : Limiter) : bool :=
  match a, b with
  | L_arxiv, L_arxiv | L_github, L_github
  | L_product_hunt, L_product_hunt | L_twitter, L_twitter => true
  | _, _ => false
  end.

Record World : Type := mkWorld {
  clock : Q;                    (* what time.time() reads, in seconds *)
  drift : list Q;               (* time that passes at each later effect *)
  last_called : Limiter -> Q;   (* last_called[0] of each limiter *)
  slept : list Q;               (* arguments of time.sleep, oldest first *)
  network : list Request;       (* requests issued, oldest first *)
  logged : list string          (* logger lines, oldest first *)
}.

(** Time passes at every effect: the next drift is added to the clock. *)
Definition tick (w : World) : World :=
  match drift w with
  | [] => w
  | d :: ds => mkWorld (clock w + d)%Q ds (last_called w) (slept w)
                       (network w) (logged w)
  end.

(** The clock never goes back and [time.sleep] sleeps at least what it is
    asked: every drift is non-negative. *)
Definition steady (w : World) : Prop := Forall (fun d => (0 <= d)%Q) (drift w).

(** ** The monad of effects *)

Inductive Outcome (A : Type) : Type :=
| Ret (a : A)
| Raise (e : Exn).
Arguments Ret {A} a.
Arguments Raise {A} e.

Definition M (A : Type) : Type := World -> Outcome A * World.

Definition ret {A} (a : A) : M A := fun w => (Ret a, w).
Definition raise {A} (e : Exn) : M A := fun w => (Raise e, w).
Definition bind {A B} (m : M A) (k : A -> M B) : M B :=
  fun w => match m w with
           | (Ret a, w') => k a w'
           | (Raise e, w') => (Raise e, w')
           end.

(** [try: m  except Exception as e: h e] *)
Definition try_except {A} (m : M A) (h : Exn -> M A) : M A :=
  fun w => match m w with
           | (Ret a, w') => (Ret a, w')
           | (Raise e, w') => h e w'
           end.

Declare Scope py_scope.
Delimit Scope py_scope with py.
Notation "x <- m ;; k" := (bind m (fun x => k))
  (at level 61, m at next level, right associativity) : py_scope.
Notation "m ;;; k" := (bind m (fun _ => k))
  (at level 61, right associativity) : py_scope.
Local Open Scope py_scope.

(** ** Primitive effects *)

Definition time_time : M Q :=
  fun w => let w' := tick w in (Ret (clock w'), w').

Definition time_sleep (secs : Q) : M unit :=
  fun w => (Ret tt,
            tick (mkWorld (clock w + secs)%Q (drift w) (last_called w)
                          (slept w ++ [secs]) (network w) (logged w))).

Definition get_last_called (l : Limiter) : M Q :=
  fun w => (Ret (last_called w l), w).

Definition set_last_called (l : Limiter) (t : Q) : M unit :=
  fun w => (Ret tt,
            mkWorld (clock w) (drift w)
                    (fun l' => if Limiter_eqb l l' then t else last_called w l')
                    (slept w) (network w) (logged w)).

Definition logger (line : string) : M unit :=
  fun w => (Ret tt,
            mkWorld (clock w) (drift w) (last_called w) (slept w)
                    (network w) (logged w ++ [line])).

(** Issue a request: it is recorded, and time passes. *)
Definition send (r : Request) : M unit :=
  fun w => (Ret tt,
            tick (mkWorld (clock w) (drift w) (last_called w) (slept w)
                          (network w ++ [r]) (logged w))).

(** ** [rate_limit] *)

(** The first lines of [wrapper] in [rate_limit]: everything before the
    call of the decorated function. *)
Definition acquire (calls_per_minute : Z) (l : Limiter) : M unit :=
  now <- time_time ;;
  last <- get_last_called l ;;
  let elapsed := (now - last)%Q in
  if calls_per_minute =? 0 then raise ZeroDivisionError
  else
    let wait_time := (60 / inject_Z calls_per_minute - elapsed)%Q in
    (if Qlt_le_dec 0 wait_time then time_sleep wait_time else ret tt) ;;;
    now' <- time_time ;;
    set_last_called l now'.

Definition rate_limit {A} (calls_per_minute : Z) (l : Limiter) (func : M A)
  : M A :=
  acquire calls_per_minute l ;;; func.

(** ** [safe_api_call] *)

(** What the wrapper needs of a tool's result type: the dictionary
    [{"status": "error", "message": m}] is one of its values. *)
Class ToolDict (R : Type) : Type := { error_dict : string -> R }.

Definition safe_api_call {R} `{ToolDict R} (name : string) (func : M R) : M R :=
  try_except func (fun e =>
    if isinstance e RequestsTimeout then
      logger (name ++ ": Request timeout")%string ;;;
      ret (error_dict "Request timeout")
    else if isinstance e RequestsRequestException then
      logger (name ++ ": Request failed - " ++ exn_str e)%string ;;;
      ret (error_dict ("Request failed: " ++ exn_str e)%string)
    else
      logger (name ++ ": Unexpected error - " ++ exn_str e)%string ;;;
      ret (error_dict ("Unexpected error: " ++ exn_str e)%string)).

(** ** Tool results *)

(** The dictionary a source adapter returns: [{"status": "success", ...}]
    with the adapter's own keys, or [{"status": "error", "message": m}]. *)
Inductive Reply (S : Type) : Type :=
| Success (payload : S)
| Error (message : string).
Arguments Success {S} payload.
Arguments Error {S} message.

Definition status {S} (r : Reply S) : string :=
  match r with
  | Success _ => "success"
  | Error _ => "error"
  end.

#[global] Instance Reply_ToolDict (S : Type) : ToolDict (Reply S) :=
  {| error_dict := Error |}.

(** ** Small Python helpers *)

Definition string_of_Z (n : Z) : string := NilZero.string_of_int (Z.to_int n).

Definition len {A} (l : list A) : Z := Z.of_nat (List.length l).

(** [s[:n]] for [0 <= n]. *)
Definition str_prefix (n : nat) (s : string) : string := String.substring 0 n s.

(** [sep.join(parts)] *)
Fixpoint join (sep : string) (parts : list string) : string :=
  match parts with
  | [] => ""
  | [p] => p
  | p :: rest => (p ++ sep ++ join sep rest)%string
  end.

(** Truthiness of an optional string setting: [None] and [""] are false. *)
Definition truthy (s : option string) : bool :=
  match s with
  | None => false
  | Some EmptyString => false
  | Some _ => true
  end.

Definition or_default {A} (o : option A) (d : A) : A :=
  match o with Some a => a | None => d end.

(** [d[k]] on a key that may be absent. *)
Definition getitem {A} (k : string) (o : option A) : M A :=
  match o with
  | Some a => ret a
  | None => raise (KeyError k)
  end.

(** A [for] loop that builds a list by [append]. *)
Fixpoint for_each {A B} (f : A -> M B) (l : list A) : M (list B) :=
  match l with
  | [] => ret []
  | a :: rest => b <- f a ;; bs <- for_each f rest ;; ret (b :: bs)
  end.

(** Dictionaries with string keys, in insertion order. *)
Fixpoint dict_set {V} (k : string) (v : V) (d : list (string * V))
  : list (string * V) :=
  match d with
  | [] => [(k, v)]
  | (k', v') :: rest =>
      if String.eqb k k' then (k, v) :: rest else (k', v') :: dict_set k v rest
  end.

Fixpoint dict_get {V} (k : string) (d : list (string * V)) : option V :=
  match d with
  | [] => None
  | (k', v') :: rest => if String.eqb k k' then Some v' else dict_get k rest
  end.

(** [l.sort(key=key, reverse=True)]: descending, and stable (elements
    with equal keys keep their order). *)
Fixpoint insert_desc {A} (key : A -> Z) (x : A) (l : list A) : list A :=
  match l with
  | [] => [x]
  | y :: rest =>
      if key y <=? key x then x :: y :: rest
      else y :: insert_desc key x rest
  end.

Fixpoint sort_desc {A} (key : A -> Z) (l : list A) : list A :=
  match l with
  | [] => []
  | x :: rest => insert_desc key x (sort_desc key rest)
  end.

(** ** Dates *)

Definition US_PER_DAY : Z := 86400 * 1000000.
(** 1970-01-01 and 9999-12-31T23:59:59.999999 *)
Definition EPOCH : Z := 719162 * US_PER_DAY.
Definition DATETIME_MAX : Z := 3652059 * US_PER_DAY - 1.

Definition in_datetime_range (t : Z) : bool := (0 <=? t) && (t <=? DATETIME_MAX).

(** [timedelta(days=days)] *)
Definition timedelta_days (days : Z) : M Z :=
  if Z.abs days <=? 999999999 then ret (days * US_PER_DAY)
  else raise (OverflowError ("days=" ++ string_of_Z days
                             ++ "; must have magnitude <= 999999999")%string).

(** [dt - td] *)
Definition datetime_sub (dt td : Z) : M Z :=
  if in_datetime_range (dt - td) then ret (dt - td)
  else raise (OverflowError "date value out of range").

(** ** Provider payloads and normalised items *)

Record ArxivResult : Type := mkArxivResult {
  ar_title : string;
  ar_authors : list string;
  ar_summary : string;
  ar_published : Z;             (* published.replace(tzinfo=None) *)
  ar_entry_id : string;
  ar_pdf_url : string;
  ar_categories : list string
}.

Record Paper : Type := mkPaper {
  paper_title : string;
  paper_authors : list string;
  paper_summary : string;
  paper_published : string;
  paper_url : string;
  paper_pdf_url : string;
  paper_categories : list string
}.

Record PapersOk : Type := mkPapersOk {
  papers_count : Z;
  papers : list Paper;
  papers_query : string
}.

Record GithubItem : Type := mkGithubItem {
  gi_name : option string;
  gi_full_name : option string;
  gi_description : option string;
  gi_stargazers_count : option Z;
  gi_forks_count : option Z;
  gi_html_url : option string;
  gi_language : option string;
  gi_topics : option (list string);
  gi_created_at : option string
}.

Record GithubData : Type := mkGithubData { gd_items : option (list GithubItem) }.

Record Repo : Type := mkRepo {
  repo_name : string;
  repo_full_name : string;
  repo_description : string;
  repo_stars : Z;
  repo_forks : Z;
  repo_url : string;
  repo_language : string;
  repo_topics : list string;
  repo_created_at : string
}.

Record ReposOk : Type := mkReposOk {
  repos_count : Z;
  repositories : list Repo;
  repos_timeframe : string
}.

Record PHNode : Type := mkPHNode {
  pn_name : option string;
  pn_tagline : option string;
  pn_description : option string;   (* absent or null: None *)
  pn_votesCount : option Z;
  pn_url : option string;
  pn_createdAt : option string
}.

Record PHEdge : Type := mkPHEdge { pe_node : option PHNode }.

(** [data.get("data", {}).get("posts", {}).get("edges", [])]: the edges,
    or [None] when one of the three keys is absent. *)
Record PHData : Type := mkPHData { pd_edges : option (list PHEdge) }.

Record Product : Type := mkProduct {
  product_name : string;
  product_tagline : string;
  product_description : string;
  product_votes : Z;
  product_url : string;
  product_launch_date : string
}.

Record ProductsOk : Type := mkProductsOk {
  products_count : Z;
  products : list Product
}.

Record Metrics : Type := mkMetrics {
  like_count : option Z;
  retweet_count : option Z;
  reply_count : option Z
}.

Record RawTweet : Type := mkRawTweet {
  rt_id : option string;
  rt_text : option string;
  rt_author_id : option string;
  rt_created_at : option string;
  rt_public_metrics : option Metrics
}.

Record RawUser : Type := mkRawUser {
  ru_id : option string;
  ru_username : option string;
  ru_name : option string
}.

(** [data.get("data", [])] and [data.get("includes", {}).get("users", [])] *)
Record TwitterData : Type := mkTwitterData {
  td_data : option (list RawTweet);
  td_users : option (list RawUser)
}.

Record Tweet : Type := mkTweet {
  tweet_text : string;
  tweet_author : string;
  tweet_author_name : string;
  tweet_likes : Z;
  tweet_retweets : Z;
  tweet_replies : Z;
  tweet_created_at : string;
  tweet_url : string
}.

Record TweetsOk : Type := mkTweetsOk {
  tweets_count : Z;
  trending_tweets : list Tweet
}.

(** ** The transport *)

Record Response (P : Type) : Type := mkResponse {
  status_code : Z;
  http_error : string;      (* str() of what raise_for_status would raise *)
  json_body : Exn + P       (* response.json(): decoding may fail *)
}.
Arguments mkResponse {P}.
Arguments status_code {P}.
Arguments http_error {P}.
Arguments json_body {P}.

(** What a call of the transport does: it raises, or hands back a
    response. *)
Definition Wire (P : Type) : Type := (Exn + Response P)%type.

(** The class [Config], the clock's timezone, [strftime("%Y-%m-%d")] and the
    providers. *)
Record Env : Type := mkEnv {
  GITHUB_TOKEN : option string;
  PRODUCT_HUNT_API_KEY : option string;
  TWITTER_BEARER_TOKEN : option string;
  utc_offset : Z;
  strftime_ymd : Z -> string;
  (* what search.results() yields, and the exception that ends it, if any *)
  arxiv_api : Request -> list ArxivResult * option Exn;
  github_api : Request -> Wire GithubData;
  product_hunt_api : Request -> Wire PHData;
  twitter_api : Request -> Wire TwitterData
}.

(** [requests.get] / [requests.post], [response.raise_for_status()] and
    [response.json()]. *)
Definition request {P} (api : Request -> Wire P) (req : Request)
  : M (Response P) :=
  send req ;;;
  match api req with
  | inl e => raise e
  | inr response => ret response
  end.

Definition raise_for_status {P} (response : Response P) : M unit :=
  if (400 <=? status_code response) && (status_code response <? 600)
  then raise (mkExn RequestsRequestException (http_error response))
  else ret tt.

Definition response_json {P} (response : Response P) : M P :=
  match json_body response with
  | inl e => raise e
  | inr data => ret data
  end.

Definition lift_outcome {A} (o : Outcome A) : M A := fun w => (o, w).

Definition dquote : string := String (ascii_of_nat 34) EmptyString.

(** ** The source adapters *)

Section Adapters.

Variable E : Env.

(** [datetime.now()] *)
Definition datetime_now : M Z :=
  fun w =>
    let w' := tick w in
    let t := Qfloor (clock w' * 1000000) + EPOCH + utc_offset E in
    if in_datetime_range t then (Ret t, w')
    else (Raise (mkExn PyException "year is out of range"), w').

(** *** Papers *)

Definition paper_of (result : ArxivResult) : Paper :=
  {| paper_title := ar_title result;
     paper_authors := firstn 3 (ar_authors result);
     paper_summary :=
       if 400 <? len (list_ascii_of_string (ar_summary result))
       then (str_prefix 400 (ar_summary result) ++ "...")%string
       else ar_summary result;
     paper_published := strftime_ymd E (ar_published result);
     paper_url := ar_entry_id result;
     paper_pdf_url := ar_pdf_url result;
     paper_categories := firstn 3 (ar_categories result) |}.

(** The [for result in search.results()] loop; [tail] is the exception
    that ends the iteration, when the provider fails part-way. *)
Fixpoint collect_papers (date_threshold max_results : Z)
         (results : list ArxivResult) (tail : option Exn)
         (papers : list Paper) : Outcome (list Paper) :=
  match results with
  | [] => match tail with
          | Some e => Raise e
          | None => Ret papers
          end
  | result :: rest =>
      if date_threshold <=? ar_published result then
        let papers' := papers ++ [paper_of result] in
        if max_results <=? len papers' then Ret papers'
        else collect_papers date_threshold max_results rest tail papers'
      else collect_papers date_threshold max_results rest tail papers
  end.

Definition arxiv_request (query : string) (max_results : Z) : Request :=
  ArxivSearch query (max_results * 2) "SubmittedDate".

Definition search_arxiv_papers_body (query : string) (max_results days_back : Z)
  : M (Reply PapersOk) :=
  now <- datetime_now ;;
  delta <- timedelta_days days_back ;;
  date_threshold <- datetime_sub now delta ;;
  let search := arxiv_request query max_results in
  send search ;;;
  papers <- lift_outcome
              (collect_papers date_threshold max_results
                 (fst (arxiv_api E search)) (snd (arxiv_api E search)) []) ;;
  logger ("Found " ++ string_of_Z (len papers)
          ++ " relevant papers on arXiv")%string ;;;
  ret (Success {| papers_count := len papers;
                  papers := papers;
                  papers_query := query |}).

Definition search_arxiv_papers (query : string) (max_results days_back : Z)
  : M (Reply PapersOk) :=
  safe_api_call "search_arxiv_papers"
    (rate_limit 30 L_arxiv (search_arxiv_papers_body query max_results days_back)).

(** *** Trending repositories *)

Definition repo_of (item : GithubItem) : M Repo :=
  name <- getitem "name" (gi_name item) ;;
  full_name <- getitem "full_name" (gi_full_name item) ;;
  stars <- getitem "stargazers_count" (gi_stargazers_count item) ;;
  forks <- getitem "forks_count" (gi_forks_count item) ;;
  url <- getitem "html_url" (gi_html_url item) ;;
  created_at <- getitem "created_at" (gi_created_at item) ;;
  ret {| repo_name := name;
         repo_full_name := full_name;
         repo_description :=
           or_default (gi_description item) "No description available";
         repo_stars := stars;
         repo_forks := forks;
         repo_url := url;
         repo_language := or_default (gi_language item) "N/A";
         repo_topics := firstn 5 (or_default (gi_topics item) []);
         repo_created_at := created_at |}.

Definition timeframe_days (timeframe : string) : Z :=
  if String.eqb timeframe "daily" then 1
  else if String.eqb timeframe "weekly" then 7
  else 30.

Definition github_request (language date topic : string) : Request :=
  HttpGet "https://api.github.com/search/repositories"
    [("q", PStr ("language:" ++ language ++ " created:>" ++ date
                 ++ " topic:" ++ topic)%string);
     ("sort", PStr "stars");
     ("order", PStr "desc");
     ("per_page", PInt 10)]
    (("Accept", "application/vnd.github.v3+json")
     :: (if truthy (GITHUB_TOKEN E)
         then [("Authorization",
                ("token " ++ or_default (GITHUB_TOKEN E) "")%string)]
         else []))
    15.

Definition fetch_github_trending_body (language timeframe topic : string)
  : M (Reply ReposOk) :=
  now <- datetime_now ;;
  delta <- timedelta_days (timeframe_days timeframe) ;;
  since <- datetime_sub now delta ;;
  let date := strftime_ymd E since in
  response <- request (github_api E) (github_request language date topic) ;;
  raise_for_status response ;;;
  data <- response_json response ;;
  repos <- for_each repo_of (or_default (gd_items data) []) ;;
  logger ("Found " ++ string_of_Z (len repos)
          ++ " trending GitHub repositories")%string ;;;
  ret (Success {| repos_count := len repos;
                  repositories := repos;
                  repos_timeframe := timeframe |}).

Definition fetch_github_trending (language timeframe topic : string)
  : M (Reply ReposOk) :=
  safe_api_call "fetch_github_trending"
    (rate_limit 30 L_github (fetch_github_trending_body language timeframe topic)).

(** *** Product launches *)

Definition product_of (edge : PHEdge) : M Product :=
  node <- getitem "node" (pe_node edge) ;;
  name <- getitem "name" (pn_name node) ;;
  tagline <- getitem "tagline" (pn_tagline node) ;;
  votes <- getitem "votesCount" (pn_votesCount node) ;;
  url <- getitem "url" (pn_url node) ;;
  launch_date <- getitem "createdAt" (pn_createdAt node) ;;
  ret {| product_name := name;
         product_tagline := tagline;
         product_description :=
           str_prefix 200 (or_default (pn_description node) "");
         product_votes := votes;
         product_url := url;
         product_launch_date := launch_date |}.

(** The GraphQL query, [%d] filled in with [limit]. *)
Definition product_hunt_query (limit : Z) : string :=
  ("
    query {
      posts(order: VOTES, topic: " ++ dquote ++ "artificial-intelligence"
   ++ dquote ++ ", first: " ++ string_of_Z limit ++ ") {
        edges {
          node {
            name
            tagline
            description
            votesCount
            url
            createdAt
            topics {
              edges {
                node {
                  name
                }
              }
            }
          }
        }
      }
    }
    ")%string.

Definition product_hunt_request (limit : Z) : Request :=
  HttpPost "https://api.producthunt.com/v2/api/graphql"
    [("query", product_hunt_query limit)]
    [("Authorization",
      ("Bearer " ++ or_default (PRODUCT_HUNT_API_KEY E) "")%string);
     ("Content-Type", "application/json")]
    15.

Definition search_product_hunt_body (days_back limit : Z)
  : M (Reply ProductsOk) :=
  if negb (truthy (PRODUCT_HUNT_API_KEY E)) then
    ret (Error "Product Hunt API key not configured. Set PRODUCT_HUNT_API_KEY environment variable.")
  else
    response <- request (product_hunt_api E) (product_hunt_request limit) ;;
    raise_for_status response ;;;
    data <- response_json response ;;
    products <- for_each product_of (or_default (pd_edges data) []) ;;
    logger ("Found " ++ string_of_Z (len products)
            ++ " AI products on Product Hunt")%string ;;;
    ret (Success {| products_count := len products;
                    products := products |}).

Definition search_product_hunt (days_back limit : Z) : M (Reply ProductsOk) :=
  safe_api_call "search_product_hunt"
    (rate_limit 20 L_product_hunt (search_product_hunt_body days_back limit)).

(** *** Social posts *)

Definition no_metrics : Metrics := mkMetrics None None None.
Definition no_user : RawUser := mkRawUser None None None.

(** [{user["id"]: user for user in ...}] *)
Fixpoint users_by_id (users : list RawUser) (acc : list (string * RawUser))
  : M (list (string * RawUser)) :=
  match users with
  | [] => ret acc
  | user :: rest =>
      id <- getitem "id" (ru_id user) ;;
      users_by_id rest (dict_set id user acc)
  end.

Definition tweet_of (users : list (string * RawUser)) (tweet : RawTweet)
  : M Tweet :=
  let metrics := or_default (rt_public_metrics tweet) no_metrics in
  author_id <- getitem "author_id" (rt_author_id tweet) ;;
  let author := or_default (dict_get author_id users) no_user in
  text <- getitem "text" (rt_text tweet) ;;
  created_at <- getitem "created_at" (rt_created_at tweet) ;;
  id <- getitem "id" (rt_id tweet) ;;
  ret {| tweet_text := str_prefix 280 text;
         tweet_author := ("@" ++ or_default (ru_username author) "unknown")%string;
         tweet_author_name := or_default (ru_name author) "Unknown";
         tweet_likes := or_default (like_count metrics) 0;
         tweet_retweets := or_default (retweet_count metrics) 0;
         tweet_replies := or_default (reply_count metrics) 0;
         tweet_created_at := created_at;
         tweet_url := ("https://twitter.com/"
                       ++ or_default (ru_username author) "i"
                       ++ "/status/" ++ id)%string |}.

(** [metrics.get("like_count", 0) >= min_likes] *)
Definition enough_likes (min_likes : Z) (tweet : RawTweet) : bool :=
  min_likes <=?
    or_default (like_count (or_default (rt_public_metrics tweet) no_metrics)) 0.

(** The [for tweet in data.get("data", [])] loop. *)
Fixpoint collect_tweets (users : list (string * RawUser)) (min_likes : Z)
         (data : list RawTweet) (tweets : list Tweet) : M (list Tweet) :=
  match data with
  | [] => ret tweets
  | tweet :: rest =>
      if enough_likes min_likes tweet then
        t <- tweet_of users tweet ;;
        collect_tweets users min_likes rest (tweets ++ [t])
      else collect_tweets users min_likes rest tweets
  end.

(** The sort key [x["likes"] + x["retweets"] * 2]. *)
Definition engagement (x : Tweet) : Z := tweet_likes x + tweet_retweets x * 2.

Definition default_hashtags : list string :=
  ["AI"; "MachineLearning"; "LLM"; "ChatGPT"; "GenerativeAI"].

Definition twitter_request (hashtags : option (list string)) : Request :=
  let hashtag_query :=
    join " OR " (map (fun tag => ("#" ++ tag)%string)
                     (or_default hashtags default_hashtags)) in
  HttpGet "https://api.twitter.com/2/tweets/search/recent"
    [("query", PStr ("(" ++ hashtag_query ++ ") -is:retweet lang:en")%string);
     ("max_results", PInt 100);
     ("tweet.fields", PStr "public_metrics,created_at,author_id");
     ("expansions", PStr "author_id");
     ("user.fields", PStr "username,name")]
    [("Authorization",
      ("Bearer " ++ or_default (TWITTER_BEARER_TOKEN E) "")%string)]
    15.

Definition fetch_twitter_trends_body (hashtags : option (list string))
           (min_likes days_back : Z) : M (Reply TweetsOk) :=
  if negb (truthy (TWITTER_BEARER_TOKEN E)) then
    ret (Error "Twitter API token not configured. Set TWITTER_BEARER_TOKEN environment variable.")
  else
    response <- request (twitter_api E) (twitter_request hashtags) ;;
    raise_for_status response ;;;
    data <- response_json response ;;
    users <- users_by_id (or_default (td_users data) []) [] ;;
    tweets <- collect_tweets users min_likes (or_default (td_data data) []) [] ;;
    let tweets := sort_desc engagement tweets in
    logger ("Found " ++ string_of_Z (len tweets)
            ++ " trending AI tweets")%string ;;;
    ret (Success {| tweets_count := len tweets;
                    trending_tweets := firstn 10 tweets |}).

Definition fetch_twitter_trends (hashtags : option (list string))
           (min_likes days_back : Z) : M (Reply TweetsOk) :=
  safe_api_call "fetch_twitter_trends"
    (rate_limit 15 L_twitter (fetch_twitter_trends_body hashtags min_likes days_back)).

(** ** The aggregator *)

Inductive Items : Type :=
| PaperItems (l : list Paper)
| RepoItems (l : list Repo)
| ProductItems (l : list Product)
| TweetItems (l : list Tweet).

Definition ConfigDict : Type := list (string * Z).

Record BatchDict : Type := mkBatchDict {
  batch_status : string;
  research_data : list (string * Items);
  errors : list string;
  sources_fetched : Z;
  batch_config : ConfigDict
}.

(** What [fetch_all_research] returns: its own dictionary, or the error
    dictionary of [safe_api_call]. *)
Inductive BatchReply : Type :=
| Batch (b : BatchDict)
| BatchError (message : string).

#[global] Instance BatchReply_ToolDict : ToolDict BatchReply :=
  {| error_dict := BatchError |}.

Definition default_config : ConfigDict :=
  [("days_back", 7); ("max_papers", 10); ("max_repos", 10); ("max_products", 10)].

(** [config.get(key, default)] *)
Definition config_get (config : ConfigDict) (key : string) (default : Z) : Z :=
  or_default (dict_get key config) default.

(** One [try: ... except Exception as e: ...] block of the batch: call the
    adapter, file its items under [key] or its failure under [label]. *)
Definition attempt {S} (label key : string) (adapter : M (Reply S))
           (items : S -> Items)
           (acc : list (string * Items) * list string)
  : M (list (string * Items) * list string) :=
  try_except
    (result <- adapter ;;
     match result with
     | Success ok => ret (dict_set key (items ok) (fst acc), snd acc)
     | Error message =>
         ret (fst acc, snd acc ++ [(label ++ ": " ++ message)%string])
     end)
    (fun e => ret (fst acc, snd acc ++ [(label ++ ": " ++ exn_str e)%string])).

Definition fetch_all_research_body (config : option ConfigDict) : M BatchReply :=
  let config := or_default config default_config in
  logger "Starting batch research fetch..." ;;;
  acc <- attempt "Papers" "papers"
           (search_arxiv_papers "artificial intelligence"
              (config_get config "max_papers" 10)
              (config_get config "days_back" 7))
           (fun ok => PaperItems (papers ok)) ([], []) ;;
  acc <- attempt "Repos" "repositories"
           (fetch_github_trending "python" "weekly" "artificial-intelligence")
           (fun ok => RepoItems (repositories ok)) acc ;;
  acc <- (if truthy (PRODUCT_HUNT_API_KEY E) then
            attempt "Products" "products"
              (search_product_hunt (config_get config "days_back" 7)
                 (config_get config "max_products" 10))
              (fun ok => ProductItems (products ok)) acc
          else ret acc) ;;
  acc <- (if truthy (TWITTER_BEARER_TOKEN E) then
            attempt "Tweets" "tweets"
              (fetch_twitter_trends None 100 (config_get config "days_back" 7))
              (fun ok => TweetItems (trending_tweets ok)) acc
          else ret acc) ;;
  let results := fst acc in
  let errors := snd acc in
  logger ("Batch fetch complete: " ++ string_of_Z (len results)
          ++ " sources, " ++ string_of_Z (len errors) ++ " errors")%string ;;;
  ret (Batch {| batch_status := match errors with
                                | [] => "success"
                                | _ :: _ => "partial"
                                end;
                research_data := results;
                errors := errors;
                sources_fetched := len results;
                batch_config := config |}).

Definition fetch_all_research (config : option ConfigDict) : M BatchReply :=
  safe_api_call "fetch_all_research" (fetch_all_research_body config).

End Adapters.

(** * Vocabulary of the properties *)

(** The deficit [acquire] computes in world [w]: the spacing [60/C] minus
    the time elapsed since the last admitted call. *)
Definition deficit (calls_per_minute : Z) (l : Limiter) (w : World) : Q :=
  (60 / inject_Z calls_per_minute - (clock (tick w) - last_called w l))%Q.

Definition total_slept (w : World) : Q := fold_right Qplus 0%Q (slept w).

(** A decorated function cannot reach the closure cell of its own limiter,
    and it does not turn the clock back. *)
Definition keeps_limiter {A} (l : Limiter) (func : M A) : Prop :=
  forall v o v', func v = (o, v') ->
    last_called v' l = last_called v l /\ (steady v -> steady v').

(** The message [safe_api_call] reports for a caught exception. *)
Definition failure_message (e : Exn) : string :=
  if isinstance e RequestsTimeout then "Request timeout"
  else if isinstance e RequestsRequestException
       then ("Request failed: " ++ exn_str e)%string
       else ("Unexpected error: " ++ exn_str e)%string.

(** A source's entry of [research_data] holds at least one item. *)
Definition nonempty_items (entry : string * Items) : bool :=
  match snd entry with
  | PaperItems l => negb (Nat.eqb (List.length l) 0)
  | RepoItems l => negb (Nat.eqb (List.length l) 0)
  | ProductItems l => negb (Nat.eqb (List.length l) 0)
  | TweetItems l => negb (Nat.eqb (List.length l) 0)
  end.

(** What one source contributes to the batch: its entry of
    [research_data], or its line of [errors]. *)
Definition verdict {S} (label key : string) (items : S -> Items)
           (o : Outcome (Reply S)) : (string * Items) + string :=
  match o with
  | Ret (Success ok) => inl (key, items ok)
  | Ret (Error message) => inr (label ++ ": " ++ message)%string
  | Raise e => inr (label ++ ": " ++ exn_str e)%string
  end.

Fixpoint lefts {A B} (l : list (A + B)) : list A :=
  match l with
  | [] => []
  | inl a :: rest => a :: lefts rest
  | inr _ :: rest => lefts rest
  end.

Fixpoint rights {A B} (l : list (A + B)) : list B :=
  match l with
  | [] => []
  | inl _ :: rest => rights rest
  | inr b :: rest => b :: rights rest
  end.

(** Descending order of a key. *)
Definition descending {A} (key : A -> Z) (l : list A) : Prop :=
  StronglySorted (fun a b => key b <= key a) l.

(** The configured sources, run one after the other from world [w] as
    [fetch_all_research] calls them: what each contributes, and the world
    the last one leaves. *)
Definition source_runs (E : Env) (config : option ConfigDict) (w : World)
  : list ((string * Items) + string) * World :=
  let cfg := or_default config default_config in
  let w0 := snd (logger "Starting batch research fetch..." w) in
  let r1 := search_arxiv_papers E "artificial intelligence"
              (config_get cfg "max_papers" 10) (config_get cfg "days_back" 7) w0 in
  let r2 := fetch_github_trending E "python" "weekly" "artificial-intelligence"
              (snd r1) in
  let r3 := search_product_hunt E (config_get cfg "days_back" 7)
              (config_get cfg "max_products" 10) (snd r2) in
  let w3 := if truthy (PRODUCT_HUNT_API_KEY E) then snd r3 else snd r2 in
  let r4 := fetch_twitter_trends E None 100 (config_get cfg "days_back" 7) w3 in
  let w4 := if truthy (TWITTER_BEARER_TOKEN E) then snd r4 else w3 in
  ([verdict "Papers" "papers" (fun ok => PaperItems (papers ok)) (fst r1);
    verdict "Repos" "repositories" (fun ok => RepoItems (repositories ok)) (fst r2)]
   ++ (if truthy (PRODUCT_HUNT_API_KEY E)
       then [verdict "Products" "products"
               (fun ok => ProductItems (products ok)) (fst r3)]
       else [])
   ++ (if truthy (TWITTER_BEARER_TOKEN E)
       then [verdict "Tweets" "tweets"
               (fun ok => TweetItems (trending_tweets ok)) (fst r4)]
       else []),
   w4).

(** The dictionary [fetch_all_research] builds from the contributions. *)
Definition batch_of (vs : list ((string * Items) + string)) (cfg : ConfigDict)
  : BatchDict :=
  {| batch_status := match rights vs with
                     | [] => "success"
                     | _ :: _ => "partial"
                     end;
     research_data := lefts vs;
     errors := rights vs;
     sources_fetched := len (lefts vs);
     batch_config := cfg |}.

(** Filing one contribution into [(results, errors)]. *)
Definition file (acc : list (string * Items) * list string)
           (v : (string * Items) + string)
  : list (string * Items) * list string :=
  match v with
  | inl entry => (dict_set (fst entry) (snd entry) (fst acc), snd acc)
  | inr line => (fst acc, snd acc ++ [line])
  end.

Definition batch_log (vs : list ((string * Items) + string)) : string :=
  ("Batch fetch complete: " ++ string_of_Z (len (lefts vs))
   ++ " sources, " ++ string_of_Z (len (rights vs)) ++ " errors")%string.

(** * Sample providers and worlds *)

Definition recent : Z := EPOCH + 1699990000 * 1000000.
Definition long_ago : Z := EPOCH + 1600000000 * 1000000.

Definition paper_at (published : Z) : ArxivResult :=
  mkArxivResult "A paper" ["Ada"; "Bob"; "Cy"; "Di"] "Summary." published
    "http://arxiv.org/abs/1" "http://arxiv.org/pdf/1" ["cs.AI"].

Definition repo_item (name : string) : GithubItem :=
  mkGithubItem (Some name) (Some ("org/" ++ name)%string) None (Some 42)
    (Some 7) (Some ("https://github.com/org/" ++ name)%string) (Some "Python")
    (Some ["ai"]) (Some "2023-11-10T00:00:00Z").

Definition product_edge : PHEdge :=
  mkPHEdge (Some (mkPHNode (Some "Tool") (Some "A tool") None (Some 120)
                           (Some "https://www.producthunt.com/posts/tool")
                           (Some "2023-11-12T00:00:00Z"))).

Definition post (id : string) (likes reshares : Z) : RawTweet :=
  mkRawTweet (Some id) (Some "hello") (Some "u1") (Some "2023-11-13T00:00:00Z")
    (Some (mkMetrics (Some likes) (Some reshares) (Some 0))).

Definition ok_response {P} (data : P) : Wire P :=
  inr (mkResponse 200 "" (inr data)).

Definition timed_out : Exn := mkExn RequestsTimeout "Read timed out.".

Definition sample_env (product_hunt_key twitter_token : option string)
           (arxiv : list ArxivResult * option Exn)
           (github : Wire GithubData) (product_hunt : Wire PHData)
           (twitter : Wire TwitterData) : Env :=
  mkEnv None product_hunt_key twitter_token 0 (fun _ => "2023-11-14")
        (fun _ => arxiv) (fun _ => github) (fun _ => product_hunt)
        (fun _ => twitter).

Definition three_posts : TwitterData :=
  mkTwitterData (Some [post "1" 50 9; post "2" 150 1; post "3" 300 0])
                (Some [mkRawUser (Some "u1") (Some "ada") (Some "Ada")]).

(** Every source answers. *)
Definition env_all_up : Env :=
  sample_env (Some "ph-key") (Some "tw-token") ([paper_at recent], None)
    (ok_response (mkGithubData (Some [repo_item "a"])))
    (ok_response (mkPHData (Some [product_edge])))
    (ok_response three_posts).

(** The code host times out, the other three sources answer. *)
Definition env_github_down : Env :=
  sample_env (Some "ph-key") (Some "tw-token") ([paper_at recent], None)
    (inl timed_out)
    (ok_response (mkPHData (Some [product_edge])))
    (ok_response three_posts).

(** The paper search times out on its first page. *)
Definition env_arxiv_down : Env :=
  sample_env None None ([], Some timed_out)
    (ok_response (mkGithubData (Some [repo_item "a"])))
    (inl timed_out) (inl timed_out).

(** No optional credential, and the two other sources answer with
    nothing to report. *)
Definition env_quiet : Env :=
  sample_env None None ([], None)
    (ok_response (mkGithubData (Some [])))
    (inl timed_out) (inl timed_out).

(** The code host offers four repositories. *)
Definition env_four_repos : Env :=
  sample_env None None ([], None)
    (ok_response (mkGithubData
       (Some [repo_item "a"; repo_item "b"; repo_item "c"; repo_item "d"])))
    (inl timed_out) (inl timed_out).

Definition sample_world : World :=
  mkWorld 1700000000 [(1 # 10)%Q; 0%Q; (2 # 10)%Q] (fun _ => 0%Q) [] [] [].

(** A world where every limiter admitted a call one second ago. *)
Definition busy_world : World :=
  mkWorld 1000 [(1 # 10)%Q; 0%Q; (2 # 10)%Q] (fun _ => 999%Q) [] [] [].

(** A computation that sends nothing to the network. *)
Definition quiet {A} (m : M A) : Prop :=
  forall w, network (snd (m w)) = network w.

(** How a call of the HTTP transport fails with exception [e] on request
    [req]: the transport raises [e] (a timeout, a connection error), the
    response has a 4xx or 5xx status and [raise_for_status] raises [e], or
    the payload cannot be decoded and [response.json()] raises [e]. *)
Definition wire_failure {P} (api : Request -> Wire P) (req : Request) (e : Exn)
  : Prop :=
  match api req with
  | inl e' => e = e'
  | inr response =>
      if (400 <=? status_code response) && (status_code response <? 600)
      then e = mkExn RequestsRequestException (http_error response)
      else json_body response = inl e
  end.

(** The paper provider fails with [e] before it yields anything. *)
Definition arxiv_failure (E : Env) (req : Request) (e : Exn) : Prop :=
  arxiv_api E req = ([], Some e).

(** A body that sends at most one request, and raises [e] when that
    request fails with [e]. *)
Definition one_request {A} (fails : Request -> Exn -> Prop) (body : M A) : Prop :=
  forall wa o w1,
    body wa = (o, w1) ->
    network w1 = network wa
    \/ exists req, network w1 = network wa ++ [req]
                   /\ forall e, fails req e -> o = Raise e.

(** A computation whose outcome does not depend on the world, and that
    leaves the world as it is. *)
Definition stateless {A} (m : M A) : Prop := exists o, forall w, m w = (o, w).

(** The like count the adapter reads off a post. *)
Definition likes_of (tweet : RawTweet) : Z :=
  or_default (like_count (or_default (rt_public_metrics tweet) no_metrics)) 0.

(** [t] is the normalised form of the post [p]. *)
Definition normalises (users : list (string * RawUser)) (p : RawTweet) (t : Tweet)
  : Prop :=
  forall v, tweet_of users p v = (Ret t, v).

Definition twelve_posts : TwitterData :=
  mkTwitterData
    (Some [post "1" 500 0; post "2" 110 0; post "3" 120 0; post "4" 20 0;
           post "5" 130 5; post "6" 140 0; post "7" 150 0; post "8" 160 0;
           post "9" 170 0; post "10" 180 0; post "11" 190 0; post "12" 200 0;
           post "13" 210 0])
    (Some [mkRawUser (Some "u1") (Some "ada") (Some "Ada")]).

Definition env_twelve_posts : Env :=
  sample_env None (Some "tw-token") ([], None)
    (ok_response (mkGithubData (Some [])))
    (inl timed_out) (ok_response twelve_posts).

(** A feed of 25 candidates of which 4 were published in the last week. *)
Definition feed_25 : list ArxivResult :=
  repeat (paper_at long_ago) 10 ++ [paper_at recent; paper_at recent]
  ++ repeat (paper_at long_ago) 11 ++ [paper_at recent; paper_at recent].

Definition env_feed_25 : Env :=
  sample_env None None (feed_25, None)
    (ok_response (mkGithubData (Some [])))
    (inl timed_out) (inl timed_out).


(** The number of sources [fetch_all_research] calls. *)
Definition configured_sources (E : Env) : Z :=
  2 + (if truthy (PRODUCT_HUNT_API_KEY E) then 1 else 0)
    + (if truthy (TWITTER_BEARER_TOKEN E) then 1 else 0).

(** A computation that sends at most one request. *)
Definition sends_at_most_one {A} (m : M A) : Prop :=
  forall v, exists sent,
    network (snd (m v)) = network v ++ sent /\ (List.length sent <= 1)%nat.


(** [product] is the normalised form of the provider's [edge]. *)
Definition product_from (edge : PHEdge) (product : Product) : Prop :=
  exists node,
    pe_node edge = Some node
    /\ pn_name node = Some (product_name product)
    /\ pn_tagline node = Some (product_tagline product)
    /\ pn_votesCount node = Some (product_votes product)
    /\ pn_url node = Some (product_url product)
    /\ pn_createdAt node = Some (product_launch_date product)
    /\ product_description product
       = str_prefix 200 (or_default (pn_description node) "").

(** [t] is the normalised form of the post [p], its author looked up in
    [users]. *)
Definition tweet_from (users : list (string * RawUser)) (p : RawTweet) (t : Tweet)
  : Prop :=
  exists author_id text id,
    rt_author_id p = Some author_id
    /\ rt_text p = Some text
    /\ rt_created_at p = Some (tweet_created_at t)
    /\ rt_id p = Some id
    /\ tweet_text t = str_prefix 280 text
    /\ tweet_likes t = likes_of p
    /\ tweet_author t
       = ("@" ++ or_default
                   (ru_username (or_default (dict_get author_id users) no_user))
                   "unknown")%string
    /\ tweet_author_name t
       = or_default (ru_name (or_default (dict_get author_id users) no_user))
                    "Unknown"
    /\ tweet_url t
       = ("https://twitter.com/"
          ++ or_default
               (ru_username (or_default (dict_get author_id users) no_user)) "i"
          ++ "/status/" ++ id)%string.

(** The users of a payload, keyed by id: a later user replaces an earlier
    one with the same id. *)
Definition user_table (users : list RawUser) (table : list (string * RawUser))
  : Prop :=
  forall v, users_by_id users [] v = (Ret table, v).

(** The user of [users] that a lookup of [id] finds: the last one that
    carries this id. *)
Definition last_user_with (id : string) (users : list RawUser) : option RawUser :=
  find (fun u => match ru_id u with
                 | Some i => String.eqb id i
                 | None => false
                 end)
       (rev users).

(** * The editing tools *)

(** ** Python values *)

(** The loosely typed dictionaries the editing tools pass around. *)
#[warnings="-register-all"] Inductive Value : Type :=
| VNone
| VBool (b : bool)
| VInt (n : Z)
| VStr (s : string)
| VList (items : list Value)
| VDict (entries : list (string * Value)).

Definition type_name (v : Value) : string :=
  match v with
  | VNone => "NoneType"
  | VBool _ => "bool"
  | VInt _ => "int"
  | VStr _ => "str"
  | VList _ => "list"
  | VDict _ => "dict"
  end.

Definition AttributeError (m : string) : Exn := mkExn PyException m.
Definition TypeError (m : string) : Exn := mkExn PyException m.

(** [v.get(k, default)] *)
Definition value_get (v : Value) (k : string) (default : Value) : M Value :=
  match v with
  | VDict d => ret (or_default (dict_get k d) default)
  | _ => raise (AttributeError ("'" ++ type_name v
                                ++ "' object has no attribute 'get'")%string)
  end.

(** [v[:n]]; on a dictionary the message is the one of CPython up to 3.11
    (later versions raise a [KeyError] instead). *)
Definition value_slice (n : nat) (v : Value) : M Value :=
  match v with
  | VList l => ret (VList (firstn n l))
  | VStr s => ret (VStr (str_prefix n s))
  | VDict _ => raise (TypeError "unhashable type: 'slice'")
  | _ => raise (TypeError ("'" ++ type_name v
                           ++ "' object is not subscriptable")%string)
  end.

(** [len(v)] *)
Definition value_len (v : Value) : M Z :=
  match v with
  | VList l => ret (len l)
  | VStr s => ret (Z.of_nat (String.length s))
  | VDict d => ret (len d)
  | _ => raise (TypeError ("object of type '" ++ type_name v
                           ++ "' has no len()")%string)
  end.

(** Truthiness: [None], [False], [0], [""], [[]] and [{}] are false. *)
Definition value_truthy (v : Value) : bool :=
  match v with
  | VNone => false
  | VBool b => b
  | VInt n => negb (n =? 0)
  | VStr s => negb (String.eqb s "")
  | VList l => negb (Nat.eqb (List.length l) 0)
  | VDict d => negb (Nat.eqb (List.length d) 0)
  end.

(** [isinstance(v, list)] *)
Definition is_list (v : Value) : bool :=
  match v with
  | VList _ => true
  | _ => false
  end.

(** ** The dictionaries of the adapters, as values *)

Definition paper_value (p : Paper) : Value :=
  VDict [("title", VStr (paper_title p));
         ("authors", VList (map VStr (paper_authors p)));
         ("summary", VStr (paper_summary p));
         ("published", VStr (paper_published p));
         ("url", VStr (paper_url p));
         ("pdf_url", VStr (paper_pdf_url p));
         ("categories", VList (map VStr (paper_categories p)))].

Definition repo_value (r : Repo) : Value :=
  VDict [("name", VStr (repo_name r));
         ("full_name", VStr (repo_full_name r));
         ("description", VStr (repo_description r));
         ("stars", VInt (repo_stars r));
         ("forks", VInt (repo_forks r));
         ("url", VStr (repo_url r));
         ("language", VStr (repo_language r));
         ("topics", VList (map VStr (repo_topics r)));
         ("created_at", VStr (repo_created_at r))].

Definition product_value (p : Product) : Value :=
  VDict [("name", VStr (product_name p));
         ("tagline", VStr (product_tagline p));
         ("description", VStr (product_description p));
         ("votes", VInt (product_votes p));
         ("url", VStr (product_url p));
         ("launch_date", VStr (product_launch_date p))].

Definition tweet_value (t : Tweet) : Value :=
  VDict [("text", VStr (tweet_text t));
         ("author", VStr (tweet_author t));
         ("author_name", VStr (tweet_author_name t));
         ("likes", VInt (tweet_likes t));
         ("retweets", VInt (tweet_retweets t));
         ("replies", VInt (tweet_replies t));
         ("created_at", VStr (tweet_created_at t));
         ("url", VStr (tweet_url t))].

Definition items_value (items : Items) : Value :=
  match items with
  | PaperItems l => VList (map paper_value l)
  | RepoItems l => VList (map repo_value l)
  | ProductItems l => VList (map product_value l)
  | TweetItems l => VList (map tweet_value l)
  end.

(** [research_data] as the dictionary it is in Python. *)
Definition research_value (data : list (string * Items)) : list (string * Value) :=
  map (fun entry => (fst entry, items_value (snd entry))) data.

(** ** [create_newsletter_draft] *)

(** [strftime("%B %d, %Y")], [isoformat()] and [strftime("%Y/%m/%d")] of a
    [datetime]. *)
Record DateFormats : Type := mkDateFormats {
  strftime_long : Z -> string;
  isoformat : Z -> string;
  strftime_slash : Z -> string
}.

Definition create_newsletter_draft (E : Env) (F : DateFormats)
           (research_content : list (string * Value)) (issue_number : Z)
  : M (Reply Value) :=
  try_except
    (now <- datetime_now E ;;
     top_papers <- value_slice 5
                     (or_default (dict_get "papers" research_content) (VList [])) ;;
     github_repos <- value_slice 5
                       (or_default (dict_get "repositories" research_content)
                                   (VList [])) ;;
     ai_products <- value_slice 3
                      (or_default (dict_get "products" research_content)
                                  (VList [])) ;;
     tweets <- value_slice 3
                 (or_default (dict_get "tweets" research_content) (VList [])) ;;
     now' <- datetime_now E ;;
     let draft :=
       VDict
         [("metadata",
           VDict [("issue_number", VInt issue_number);
                  ("date", VStr (strftime_long F now));
                  ("title", VStr ("CampusX AI Newsletter #"
                                  ++ string_of_Z issue_number)%string)]);
          ("sections",
           VDict [("big_story",
                   VDict [("title", VStr ""); ("content", VStr "");
                          ("source", VStr "")]);
                  ("quick_updates", VList []);
                  ("top_papers", top_papers);
                  ("github_repos", github_repos);
                  ("tutorials",
                   or_default (dict_get "tutorials" research_content) (VList []));
                  ("ai_products", ai_products);
                  ("tweets", tweets);
                  ("closing_notes", VStr "")]);
          ("status", VStr "draft");
          ("created_at", VStr (isoformat F now'))] in
     logger ("Created newsletter draft #" ++ string_of_Z issue_number)%string ;;;
     ret (Success draft))
    (fun e =>
       logger ("Failed to create draft: " ++ exn_str e)%string ;;;
       ret (Error (exn_str e))).

(** ** [organize_content_sections] *)

Record Organized : Type := mkOrganized {
  org_sections : list (string * Value);
  org_total_items : Z;
  org_sections_count : Z
}.

Definition default_priorities : list string :=
  ["big_story"; "papers"; "products"; "repositories"; "tweets"].

(** The [for priority in priorities] loop. *)
Fixpoint organize_loop (raw_content : list (string * Value))
         (priorities : list string) (organized : Organized) : Organized :=
  match priorities with
  | [] => organized
  | priority :: rest =>
      match dict_get priority raw_content with
      | Some v =>
          organize_loop raw_content rest
            {| org_sections := dict_set priority v (org_sections organized);
               org_total_items :=
                 (if is_list v
                  then org_total_items organized
                       + match v with VList l => len l | _ => 0 end
                  else org_total_items organized);
               org_sections_count := org_sections_count organized + 1 |}
      | None => organize_loop raw_content rest organized
      end
  end.

Definition organize_content_sections (raw_content : list (string * Value))
           (priorities : option (list string)) : M Organized :=
  let priorities := or_default priorities default_priorities in
  let organized := organize_loop raw_content priorities (mkOrganized [] 0 0) in
  logger ("Organized content into "
          ++ string_of_Z (org_sections_count organized) ++ " sections")%string ;;;
  ret organized.

(** ** [validate_newsletter_content] *)

Record Validation : Type := mkValidation {
  v_status : string;
  v_valid : bool;
  v_issues : list string;
  v_warnings : list string;
  v_sections_count : Z
}.

Definition validate_newsletter_content (draft_content : list (string * Value))
  : M Validation :=
  let sections := or_default (dict_get "sections" draft_content) (VDict []) in
  top_papers <- value_get sections "top_papers" (VList []) ;;
  n_papers <- value_len top_papers ;;
  let warnings :=
    if n_papers <? 3 then ["Less than 3 papers - consider adding more"] else [] in
  github_repos <- value_get sections "github_repos" (VList []) ;;
  n_repos <- value_len github_repos ;;
  let warnings :=
    if n_repos <? 3
    then warnings ++ ["Less than 3 GitHub repos - consider adding more"]
    else warnings in
  big_story <- value_get sections "big_story" (VDict []) ;;
  content <- value_get big_story "content" VNone ;;
  let issues :=
    if negb (value_truthy content) then ["Big story content is missing"] else [] in
  big_story <- value_get sections "big_story" (VDict []) ;;
  title <- value_get big_story "title" VNone ;;
  let issues :=
    if negb (value_truthy title)
    then issues ++ ["Big story title is missing"] else issues in
  let metadata := or_default (dict_get "metadata" draft_content) (VDict []) in
  issue_number <- value_get metadata "issue_number" VNone ;;
  let issues :=
    if negb (value_truthy issue_number)
    then issues ++ ["Issue number is missing"] else issues in
  logger ("Validation complete: " ++ string_of_Z (len issues) ++ " issues, "
          ++ string_of_Z (len warnings) ++ " warnings")%string ;;;
  n_sections <- value_len sections ;;
  ret {| v_status := match issues with [] => "success" | _ :: _ => "warning" end;
         v_valid := len issues =? 0;
         v_issues := issues;
         v_warnings := warnings;
         v_sections_count := n_sections |}.


(** ** Vocabulary of the editing tools *)

(** The entries of [raw_content] that a list of priorities selects, one per
    occurrence of a key that is present, in priority order. *)
Definition picked (raw_content : list (string * Value)) (priorities : list string)
  : list (string * Value) :=
  flat_map (fun k => match dict_get k raw_content with
                     | Some v => [(k, v)]
                     | None => []
                     end) priorities.

(** The number of items in the list-valued entries of a dictionary. *)
Definition items_in (d : list (string * Value)) : Z :=
  fold_right (fun entry acc =>
                match snd entry with
                | VList l => len l + acc
                | _ => acc
                end) 0 d.

Definition keys {V} (d : list (string * V)) : list string := map fst d.


(** What [research_content.get(k, [])] is. *)
Definition research_list (k : string) (research_content : list (string * Value))
  : Value :=
  or_default (dict_get k research_content) (VList []).

(** The values that [v[:n]] accepts: lists and strings. *)
Definition sliceable (v : Value) : bool :=
  match v with
  | VList _ | VStr _ => true
  | _ => false
  end.

(** The first [n] elements of a list, the first [n] characters of a string. *)
Definition prefix_of (n : nat) (v : Value) : Value :=
  match v with
  | VList l => VList (firstn n l)
  | VStr s => VStr (str_prefix n s)
  | _ => v
  end.

(** The values that [len] accepts, and their length. *)
Definition sized (v : Value) : bool :=
  match v with
  | VList _ | VStr _ | VDict _ => true
  | _ => false
  end.

Definition size (v : Value) : Z :=
  match v with
  | VList l => len l
  | VStr s => Z.of_nat (String.length s)
  | VDict d => len d
  | _ => 0
  end.

Definition is_dict (v : Value) : bool :=
  match v with
  | VDict _ => true
  | _ => false
  end.

(** The entry [k] of a dictionary value, [default] when it has none. *)
Definition entry (k : string) (default : Value) (v : Value) : Value :=
  match v with
  | VDict d => or_default (dict_get k d) default
  | _ => default
  end.

(** The parts of a draft that [validate_newsletter_content] reads. *)
Definition sections_of (draft_content : list (string * Value)) : Value :=
  or_default (dict_get "sections" draft_content) (VDict []).

Definition metadata_of (draft_content : list (string * Value)) : Value :=
  or_default (dict_get "metadata" draft_content) (VDict []).

Definition big_story_of (draft_content : list (string * Value)) : Value :=
  entry "big_story" (VDict []) (sections_of draft_content).

(** A draft on which no lookup or [len] of the validation can fail. *)
Definition well_formed_draft (draft_content : list (string * Value)) : bool :=
  is_dict (sections_of draft_content)
  && sized (entry "top_papers" (VList []) (sections_of draft_content))
  && sized (entry "github_repos" (VList []) (sections_of draft_content))
  && is_dict (big_story_of draft_content)
  && is_dict (metadata_of draft_content).

(** The three fields whose absence is an issue. *)
Definition has_content (draft_content : list (string * Value)) : bool :=
  value_truthy (entry "content" VNone (big_story_of draft_content)).

Definition has_title (draft_content : list (string * Value)) : bool :=
  value_truthy (entry "title" VNone (big_story_of draft_content)).

Definition has_issue_number (draft_content : list (string * Value)) : bool :=
  value_truthy (entry "issue_number" VNone (metadata_of draft_content)).

(** The section [k] of a draft. *)
Definition section_of (draft : Value) (k : string) : option Value :=
  match draft with
  | VDict d =>
      match dict_get "sections" d with
      | Some (VDict s) => dict_get k s
      | _ => None
      end
  | _ => None
  end.

Definition last_logged (w : World) : option string :=
  match rev (logged w) with
  | line :: _ => Some line
  | [] => None
  end.

(** The world after one more log line. *)
Definition log_line (w : World) (line : string) : World :=
  mkWorld (clock w) (drift w) (last_called w) (slept w) (network w)
          (logged w ++ [line]).


(** The items a batch holds for each source, none when the source is not
    in [research_data]. *)
Definition papers_in (data : list (string * Items)) : list Paper :=
  match dict_get "papers" data with
  | Some (PaperItems l) => l
  | _ => []
  end.

Definition repositories_in (data : list (string * Items)) : list Repo :=
  match dict_get "repositories" data with
  | Some (RepoItems l) => l
  | _ => []
  end.

Definition products_in (data : list (string * Items)) : list Product :=
  match dict_get "products" data with
  | Some (ProductItems l) => l
  | _ => []
  end.

Definition tweets_in (data : list (string * Items)) : list Tweet :=
  match dict_get "tweets" data with
  | Some (TweetItems l) => l
  | _ => []
  end.

(** An entry of [research_data] under the key of its own source. *)
Definition typed_entry (entry : string * Items) : Prop :=
  match snd entry with
  | PaperItems _ => fst entry = "papers"
  | RepoItems _ => fst entry = "repositories"
  | ProductItems _ => fst entry = "products"
  | TweetItems _ => fst entry = "tweets"
  end.

Definition sample_formats : DateFormats :=
  mkDateFormats (fun _ => "November 14, 2023") (fun _ => "2023-11-14T22:13:20")
                (fun _ => "2023/11/07").


(** * Startup *)

(** The settings of [Config] that the source adapters do not read. *)
Record GoogleConfig : Type := mkGoogleConfig {
  GOOGLE_CLIENT_ID : option string;
  GOOGLE_CLIENT_SECRET : option string;
  GOOGLE_REFRESH_TOKEN : option string;
  NEWSLETTER_FOLDER_ID : option string
}.

(** [[key for key, value in settings.items() if not value]] *)
Definition missing (settings : list (string * option string)) : list string :=
  map fst (filter (fun setting => negb (truthy (snd setting))) settings).

Definition required_settings (G : GoogleConfig) : list (string * option string) :=
  [("GOOGLE_CLIENT_ID", GOOGLE_CLIENT_ID G);
   ("GOOGLE_CLIENT_SECRET", GOOGLE_CLIENT_SECRET G);
   ("GOOGLE_REFRESH_TOKEN", GOOGLE_REFRESH_TOKEN G)].

Definition optional_settings (G : GoogleConfig) (E : Env)
  : list (string * option string) :=
  [("NEWSLETTER_FOLDER_ID", NEWSLETTER_FOLDER_ID G);
   ("GITHUB_TOKEN", GITHUB_TOKEN E);
   ("PRODUCT_HUNT_API_KEY", PRODUCT_HUNT_API_KEY E);
   ("TWITTER_BEARER_TOKEN", TWITTER_BEARER_TOKEN E)].

Definition validate_config (G : GoogleConfig) (E : Env) : M bool :=
  let missing_required := missing (required_settings G) in
  let missing_optional := missing (optional_settings G E) in
  match missing_required with
  | _ :: _ =>
      logger ("Missing REQUIRED configuration: "
              ++ join ", " missing_required)%string ;;;
      logger "Google OAuth credentials are required for basic functionality" ;;;
      ret false
  | [] =>
      match missing_optional with
      | _ :: _ =>
          logger ("Missing optional configuration: "
                  ++ join ", " missing_optional)%string ;;;
          logger "Some features may be limited"
      | [] => ret tt
      end ;;;
      logger "Configuration validation complete" ;;;
      ret true
  end.


(** * The Google tools *)

(** ** The services *)

(** The calls the tools make on a built service. *)
Inductive GoogleCall : Type :=
| DriveFilesList (q : string) (pageSize : Z) (orderBy fields : string)
| DriveFilesCreate (name : string) (parents : list string) (mimeType : string)
                   (content : string) (media_mimetype : string)
                   (resumable : bool) (fields : string)
| GmailMessagesList (userId q : string) (maxResults : Z)
| GmailMessagesGet (userId id format : string).

(** What the calls answer, with the keys the tools read. *)
Record DriveFile : Type := mkDriveFile {
  df_id : option string;
  df_name : option string;
  df_createdTime : option string
}.

Record DriveListing : Type := mkDriveListing {
  dl_files : option (list DriveFile)
}.

Record CreatedFile : Type := mkCreatedFile {
  cf_id : option string;
  cf_webViewLink : option string
}.

Record MessageRef : Type := mkMessageRef { mr_id : option string }.

Record GmailListing : Type := mkGmailListing {
  gl_messages : option (list MessageRef)
}.

Record Header : Type := mkHeader {
  h_name : option string;
  h_value : option string
}.

Record GmailPayload : Type := mkGmailPayload {
  gp_headers : option (list Header)
}.

Record GmailMessage : Type := mkGmailMessage {
  gm_payload : option GmailPayload;
  gm_snippet : option string;
  gm_internalDate : option string
}.

(** The Google side: the credentials of [Config], what building a service
    does once the credentials are there (lines 94 to 107: [Credentials],
    the token refresh, [build]; [None] when it works), and what each call
    answers. *)
Record Google : Type := mkGoogle {
  google_config : GoogleConfig;
  build_service : string -> string -> option Exn;
  drive_files_list : GoogleCall -> Exn + DriveListing;
  drive_files_create : GoogleCall -> Exn + CreatedFile;
  gmail_messages_list : GoogleCall -> Exn + GmailListing;
  gmail_messages_get : GoogleCall -> Exn + GmailMessage
}.

(** A call that leaves the program: time passes, and it answers or raises. *)
Definition external {A} (answer : Exn + A) : M A :=
  fun w => match answer with
           | inl e => (Raise e, tick w)
           | inr a => (Ret a, tick w)
           end.

Definition ValueError (m : string) : Exn := mkExn PyException m.

Section GoogleTools.

Variable Gs : Google.
Variable E : Env.
Variable F : DateFormats.

(** ** [get_google_service] *)

Definition get_google_service (service_name version : string) : M unit :=
  try_except
    (if negb (truthy (GOOGLE_CLIENT_ID (google_config Gs))
              && truthy (GOOGLE_CLIENT_SECRET (google_config Gs))
              && truthy (GOOGLE_REFRESH_TOKEN (google_config Gs)))
     then raise (ValueError "Missing required Google OAuth credentials")
     else external (match build_service Gs service_name version with
                    | Some e => inl e
                    | None => inr tt
                    end))
    (fun e =>
       logger ("Failed to create Google service: " ++ exn_str e)%string ;;;
       raise e).

(** ** [fetch_past_newsletters] *)

Record Newsletter : Type := mkNewsletter {
  nl_id : string;
  nl_title : string;
  nl_date : string;
  nl_drive_link : string
}.

Record PastOk : Type := mkPastOk {
  past_count : Z;
  newsletters : list Newsletter
}.

Definition newsletter_of (file : DriveFile) : M Newsletter :=
  id <- getitem "id" (df_id file) ;;
  title <- getitem "name" (df_name file) ;;
  date <- getitem "createdTime" (df_createdTime file) ;;
  id' <- getitem "id" (df_id file) ;;
  ret {| nl_id := id;
         nl_title := title;
         nl_date := date;
         nl_drive_link :=
           ("https://drive.google.com/file/d/" ++ id' ++ "/view")%string |}.

(** [if folder_id is None: folder_id = Config.NEWSLETTER_FOLDER_ID] *)
Definition folder_or_configured (folder_id : option string) : option string :=
  match folder_id with
  | None => NEWSLETTER_FOLDER_ID (google_config Gs)
  | Some f => Some f
  end.

Definition past_newsletters_call (folder_id : string) (count : Z) : GoogleCall :=
  DriveFilesList ("'" ++ folder_id ++ "' in parents and mimeType='text/html'")
                 count "createdTime desc"
                 "files(id, name, createdTime, description)".

Definition fetch_past_newsletters_body (folder_id : option string) (count : Z)
  : M (Reply PastOk) :=
  let folder_id := folder_or_configured folder_id in
  if negb (truthy folder_id) then
    ret (Error "No folder ID provided. Set NEWSLETTER_FOLDER_ID environment variable.")
  else
    get_google_service "drive" "v3" ;;;
    results <- external (drive_files_list Gs
                           (past_newsletters_call (or_default folder_id "")
                                                  count)) ;;
    let files := or_default (dl_files results) [] in
    newsletters <- for_each newsletter_of files ;;
    logger ("Fetched " ++ string_of_Z (len newsletters)
            ++ " past newsletters")%string ;;;
    ret (Success {| past_count := len newsletters;
                    newsletters := newsletters |}).

Definition fetch_past_newsletters (folder_id : option string) (count : Z)
  : M (Reply PastOk) :=
  safe_api_call "fetch_past_newsletters"
                (fetch_past_newsletters_body folder_id count).

(** ** [scan_gmail_feedback] *)

Record Email : Type := mkEmail {
  em_subject : string;
  em_snippet : string;
  em_date : string
}.

Record FeedbackOk : Type := mkFeedbackOk {
  total_responses : Z;
  emails : list Email
}.

(** [next((h['value'] for h in headers if h['name'] == 'Subject'),
    'No Subject')] *)
Fixpoint subject_of (headers : list Header) : M string :=
  match headers with
  | [] => ret "No Subject"
  | h :: rest =>
      name <- getitem "name" (h_name h) ;;
      if String.eqb name "Subject" then getitem "value" (h_value h)
      else subject_of rest
  end.

Definition email_of (msg : MessageRef) : M Email :=
  id <- getitem "id" (mr_id msg) ;;
  message <- external (gmail_messages_get Gs (GmailMessagesGet "me" id "full")) ;;
  payload <- getitem "payload" (gm_payload message) ;;
  headers <- getitem "headers" (gp_headers payload) ;;
  subject <- subject_of headers ;;
  ret {| em_subject := subject;
         em_snippet := or_default (gm_snippet message) "";
         em_date := or_default (gm_internalDate message) "" |}.

Definition feedback_query (date_threshold : string)
           (keywords : option (list string)) : string :=
  let query := ("after:" ++ date_threshold
                ++ " subject:(newsletter OR feedback OR reply)")%string in
  match keywords with
  | Some (k :: ks) => (query ++ " (" ++ join " OR " (k :: ks) ++ ")")%string
  | _ => query
  end.

Definition scan_gmail_feedback_body (days_back : Z)
           (keywords : option (list string)) : M (Reply FeedbackOk) :=
  get_google_service "gmail" "v1" ;;;
  now <- datetime_now E ;;
  delta <- timedelta_days days_back ;;
  threshold <- datetime_sub now delta ;;
  let query := feedback_query (strftime_slash F threshold) keywords in
  results <- external (gmail_messages_list Gs (GmailMessagesList "me" query 50)) ;;
  let messages := or_default (gl_messages results) [] in
  emails <- for_each email_of (firstn 10 messages) ;;
  logger ("Scanned " ++ string_of_Z (len messages)
          ++ " feedback emails")%string ;;;
  ret (Success {| total_responses := len messages;
                  emails := emails |}).

Definition scan_gmail_feedback (days_back : Z) (keywords : option (list string))
  : M (Reply FeedbackOk) :=
  safe_api_call "scan_gmail_feedback" (scan_gmail_feedback_body days_back keywords).

(** ** [save_to_drive] *)

Record SavedOk : Type := mkSavedOk {
  saved_file_id : string;
  saved_url : string;
  saved_filename : string
}.

Definition save_to_drive_call (content filename folder_id : string) : GoogleCall :=
  DriveFilesCreate filename [folder_id] "text/html" content "text/html" true
                   "id, webViewLink".

Definition save_to_drive_body (content filename : string)
           (folder_id : option string) : M (Reply SavedOk) :=
  let folder_id := folder_or_configured folder_id in
  if negb (truthy folder_id) then
    ret (Error "No folder ID provided. Set NEWSLETTER_FOLDER_ID environment variable.")
  else
    get_google_service "drive" "v3" ;;;
    file <- external (drive_files_create Gs
                        (save_to_drive_call content filename
                                            (or_default folder_id ""))) ;;
    logger ("Saved newsletter to Drive: " ++ filename)%string ;;;
    id <- getitem "id" (cf_id file) ;;
    url <- getitem "webViewLink" (cf_webViewLink file) ;;
    ret (Success {| saved_file_id := id;
                    saved_url := url;
                    saved_filename := filename |}).

Definition save_to_drive (content filename : string) (folder_id : option string)
  : M (Reply SavedOk) :=
  safe_api_call "save_to_drive" (save_to_drive_body content filename folder_id).

End GoogleTools.


(** ** Vocabulary of the Google tools *)

(** [all([GOOGLE_CLIENT_ID, GOOGLE_CLIENT_SECRET, GOOGLE_REFRESH_TOKEN])] *)
Definition credentials_present (G : GoogleConfig) : bool :=
  truthy (GOOGLE_CLIENT_ID G) && truthy (GOOGLE_CLIENT_SECRET G)
  && truthy (GOOGLE_REFRESH_TOKEN G).

(** [n] is the entry made of the Drive file [file]. *)
Definition newsletter_from (file : DriveFile) (n : Newsletter) : Prop :=
  df_id file = Some (nl_id n)
  /\ df_name file = Some (nl_title n)
  /\ df_createdTime file = Some (nl_date n)
  /\ nl_drive_link n
     = ("https://drive.google.com/file/d/" ++ nl_id n ++ "/view")%string.

(** [em] is the entry made of the message that [msg] refers to. *)
Definition email_from (Gs : Google) (msg : MessageRef) (em : Email) : Prop :=
  exists id message,
    mr_id msg = Some id
    /\ gmail_messages_get Gs (GmailMessagesGet "me" id "full") = inr message
    /\ em_snippet em = or_default (gm_snippet message) ""
    /\ em_date em = or_default (gm_internalDate message) "".

Definition no_credentials : string := "Missing required Google OAuth credentials".

Definition sample_files : list DriveFile :=
  [mkDriveFile (Some "f1") (Some "Issue 12") (Some "2023-11-07T10:00:00Z");
   mkDriveFile (Some "f2") (Some "Issue 11") (Some "2023-10-31T10:00:00Z");
   mkDriveFile (Some "f3") (Some "Issue 10") (Some "2023-10-24T10:00:00Z")].

Definition sample_message : GmailMessage :=
  mkGmailMessage
    (Some (mkGmailPayload (Some [mkHeader (Some "From") (Some "a reader");
                                 mkHeader (Some "Subject") (Some "Re: newsletter")])))
    (Some "Loved it") None.

(** Twelve messages answer the search. *)
Definition sample_refs : list MessageRef :=
  map (fun id => mkMessageRef (Some id))
      ["m1"; "m2"; "m3"; "m4"; "m5"; "m6"; "m7"; "m8"; "m9"; "m10"; "m11"; "m12"].

(** A Google side where every call answers. *)
Definition sample_google (G : GoogleConfig) : Google :=
  mkGoogle G (fun _ _ => None)
           (fun _ => inr (mkDriveListing (Some sample_files)))
           (fun _ => inr (mkCreatedFile (Some "f9") (Some "https://drive/f9")))
           (fun _ => inr (mkGmailListing (Some sample_refs)))
           (fun _ => inr sample_message).

Definition with_credentials : GoogleConfig :=
  mkGoogleConfig (Some "client") (Some "secret") (Some "refresh") (Some "folder-1").

Definition without_secret : GoogleConfig :=
  mkGoogleConfig (Some "client") (Some "") (Some "refresh") (Some "folder-1").

(** * Properties *)

(** ** The clock *)

Lemma tick_clock (w : World) : steady w -> (clock w <= clock (tick w))%Q.
Proof.
  unfold steady, tick. destruct (drift w) as [|d ds]; intros H.
  - apply Qle_refl.
  - inversion H; subst. simpl. lra.
Qed.

Lemma tick_steady (w : World) : steady w -> steady (tick w).
Proof.
  unfold steady, tick. destruct (drift w) as [|d ds] eqn:D; intros H.
  - rewrite D. exact H.
  - simpl. inversion H; assumption.
Qed.

Lemma tick_last_called (w : World) : last_called (tick w) = last_called w.
Proof. unfold tick. destruct (drift w); reflexivity. Qed.

Lemma tick_slept (w : World) : slept (tick w) = slept w.
Proof. unfold tick. destruct (drift w); reflexivity. Qed.

Lemma tick_network (w : World) : network (tick w) = network w.
Proof. unfold tick. destruct (drift w); reflexivity. Qed.

Lemma tick_logged (w : World) : logged (tick w) = logged w.
Proof. unfold tick. destruct (drift w); reflexivity. Qed.

Lemma Limiter_eqb_refl (l : Limiter) : Limiter_eqb l l = true.
Proof. destruct l; reflexivity. Qed.

Lemma Limiter_eqb_neq (l l' : Limiter) : l <> l' -> Limiter_eqb l l' = false.
Proof. destruct l, l'; intros H; try reflexivity; congruence. Qed.

(** ** The rate limiter *)

Lemma fold_Qplus_app (l : list Q) (x : Q) :
  (fold_right Qplus 0 (l ++ [x]) == fold_right Qplus 0 l + x)%Q.
Proof.
  induction l as [|y l IH]; simpl.
  - lra.
  - rewrite IH. lra.
Qed.

(** What one run of [acquire] does. *)
Lemma acquire_run (C : Z) (l : Limiter) (w : World) :
  C <> 0 -> steady w ->
  exists w',
    acquire C l w = (Ret tt, w')
    /\ slept w' = slept w ++ (if Qlt_le_dec 0 (deficit C l w)
                              then [deficit C l w] else [])
    /\ (last_called w l + 60 / inject_Z C <= last_called w' l)%Q
    /\ (forall l', l' <> l -> last_called w' l' = last_called w l')
    /\ steady w'
    /\ (clock w <= clock w')%Q
    /\ network w' = network w
    /\ logged w' = logged w.
Proof.
  intros HC Hw.
  unfold acquire, bind, time_time, get_last_called, set_last_called, deficit.
  rewrite tick_last_called.
  destruct (Z.eqb_spec C 0) as [->|_]; [congruence|].
  pose proof (tick_clock w Hw) as H1.
  pose proof (tick_steady w Hw) as S1.
  pose proof (tick_slept w) as E1.
  pose proof (tick_network w) as E2.
  pose proof (tick_logged w) as E3.
  pose proof (tick_last_called w) as E4.
  set (w1 := tick w) in *.
  set (spacing := (60 / inject_Z C)%Q). clearbody spacing.
  destruct (Qlt_le_dec 0 (spacing - (clock w1 - last_called w l))) as [Hlt|Hle].
  - unfold time_sleep.
    set (wait := (spacing - (clock w1 - last_called w l))%Q) in *.
    set (w2 := mkWorld (clock w1 + wait) (drift w1) (last_called w1)
                       (slept w1 ++ [wait]) (network w1) (logged w1)).
    assert (S2 : steady w2) by exact S1.
    pose proof (tick_clock w2 S2) as H2.
    pose proof (tick_steady w2 S2) as S3.
    pose proof (tick_clock (tick w2) S3) as H3.
    pose proof (tick_steady (tick w2) S3) as S4.
    eexists. split; [reflexivity|]. simpl.
    rewrite Limiter_eqb_refl, !tick_slept, !tick_network, !tick_logged,
      !tick_last_called.
    assert (C2 : clock w2 = (clock w1 + wait)%Q) by reflexivity.
    assert (P2 : slept w2 = slept w1 ++ [wait]) by reflexivity.
    assert (N2 : network w2 = network w1) by reflexivity.
    assert (G2 : logged w2 = logged w1) by reflexivity.
    assert (L2 : last_called w2 = last_called w1) by reflexivity.
    clearbody w2. rewrite C2 in H2. rewrite P2, N2, G2, L2, E1, E2, E3, E4.
    unfold wait in *.
    repeat split; try assumption; try reflexivity.
    + lra.
    + intros l' Hl'. rewrite Limiter_eqb_neq by congruence. reflexivity.
    + lra.
  - unfold ret.
    pose proof (tick_clock w1 S1) as H2.
    pose proof (tick_steady w1 S1) as S2.
    eexists. split; [reflexivity|]. simpl.
    rewrite Limiter_eqb_refl, !tick_slept, !tick_network, !tick_logged,
      !tick_last_called.
    rewrite E1, E2, E3, E4, app_nil_r.
    repeat split; try assumption; try reflexivity.
    + lra.
    + intros l' Hl'. rewrite Limiter_eqb_neq by congruence. reflexivity.
    + lra.
Qed.

(** Two calls in a row of a rate-limited function. *)
Lemma rate_limit_twice {A} (C : Z) (l : Limiter) (func : M A) (w : World) :
  C <> 0 -> steady w -> keeps_limiter l func ->
  forall o1 w1 o2 w2,
    rate_limit C l func w = (o1, w1) ->
    rate_limit C l func w1 = (o2, w2) ->
    (last_called w1 l + 60 / inject_Z C <= last_called w2 l)%Q.
Proof.
  intros HC Hw Hf o1 w1 o2 w2 R1 R2.
  unfold rate_limit, bind in R1, R2.
  destruct (acquire_run C l w HC Hw) as (wa & Ea & _ & _ & _ & Sa & _).
  rewrite Ea in R1. destruct (Hf _ _ _ R1) as [K1 S1]. specialize (S1 Sa).
  destruct (acquire_run C l w1 HC S1) as (wb & Eb & _ & Hb & _).
  rewrite Eb in R2. destruct (Hf _ _ _ R2) as [K2 _].
  rewrite K2. exact Hb.
Qed.

Lemma Qmax_deficit (d : Q) :
  ((if Qlt_le_dec 0 d then d else 0) == Qmax 0 d)%Q.
Proof.
  destruct (Qlt_le_dec 0 d) as [H|H].
  - symmetry. apply Q.max_r. apply Qlt_le_weak. exact H.
  - symmetry. apply Q.max_l. exact H.
Qed.

(** C7. A limiter with a budget of [C] calls per minute ([C <> 0], so that
    [60/C] is defined) on a clock that does not go back: [acquire] returns,
    it has asked [time.sleep] for exactly [max(0, 60/C - elapsed)] seconds
    (no sleep at all when that deficit is zero or negative), and the time
    it records for the admitted call is at least [60/C] after the time
    recorded for the previous admitted call on the same limiter; hence two
    calls in a row of a function decorated with [rate_limit] are admitted
    at least [60/C] seconds apart. *)
Theorem acquire_spacing (C : Z) (l : Limiter) (w : World) :
  C <> 0 -> steady w ->
  (exists w',
      acquire C l w = (Ret tt, w')
      /\ slept w' = slept w ++ (if Qlt_le_dec 0 (deficit C l w)
                                then [deficit C l w] else [])
      /\ (total_slept w' == total_slept w + Qmax 0 (deficit C l w))%Q
      /\ (last_called w l + 60 / inject_Z C <= last_called w' l)%Q)
  /\ (forall (A : Type) (func : M A) o1 w1 o2 w2,
        keeps_limiter l func ->
        rate_limit C l func w = (o1, w1) ->
        rate_limit C l func w1 = (o2, w2) ->
        (last_called w1 l + 60 / inject_Z C <= last_called w2 l)%Q).
Proof.
  intros HC Hw. split.
  - destruct (acquire_run C l w HC Hw) as (w' & Ea & Hs & Hl & _).
    exists w'. repeat split; try assumption.
    unfold total_slept. rewrite Hs.
    rewrite <- Qmax_deficit.
    destruct (Qlt_le_dec 0 (deficit C l w)).
    + apply fold_Qplus_app.
    + rewrite app_nil_r. lra.
  - intros A func o1 w1 o2 w2 Hf R1 R2.
    exact (rate_limit_twice C l func w HC Hw Hf o1 w1 o2 w2 R1 R2).
Qed.

(** ** Running the monad *)

Lemma bind_inv {A B} (m : M A) (k : A -> M B) (w : World) o w' :
  bind m k w = (o, w') ->
  (exists a w1, m w = (Ret a, w1) /\ k a w1 = (o, w'))
  \/ (exists e, m w = (Raise e, w') /\ o = Raise e).
Proof.
  unfold bind. destruct (m w) as [[a|e] w1]; intros H.
  - left. eauto.
  - right. inversion H; subst. eauto.
Qed.

Lemma bind_ret_inv {A B} (m : M A) (k : A -> M B) (w : World) b w' :
  bind m k w = (Ret b, w') ->
  exists a w1, m w = (Ret a, w1) /\ k a w1 = (Ret b, w').
Proof.
  intros H. destruct (bind_inv m k w _ _ H) as [H1|(e & _ & H1)].
  - exact H1.
  - discriminate.
Qed.

Lemma bind_run {A B} (m : M A) (k : A -> M B) (w : World) a w1 :
  m w = (Ret a, w1) -> bind m k w = k a w1.
Proof. unfold bind. intros ->. reflexivity. Qed.

(** ** The error boundary *)

Section Boundary.

Context {R : Type} `{ToolDict R}.
Variable name : string.
Variable func : M R.

Lemma safe_api_call_ret (w : World) r w1 :
  func w = (Ret r, w1) -> safe_api_call name func w = (Ret r, w1).
Proof. unfold safe_api_call, try_except. intros ->. reflexivity. Qed.

Lemma safe_api_call_raise (w : World) e w1 :
  func w = (Raise e, w1) ->
  exists w',
    safe_api_call name func w = (Ret (error_dict (failure_message e)), w')
    /\ network w' = network w1.
Proof.
  unfold safe_api_call, try_except, failure_message. intros ->.
  destruct (isinstance e RequestsTimeout);
    [|destruct (isinstance e RequestsRequestException)];
    unfold bind, logger, ret; simpl; eauto.
Qed.

Lemma safe_api_call_total (w : World) :
  exists r w', safe_api_call name func w = (Ret r, w').
Proof.
  destruct (func w) as [[r|e] w1] eqn:Hf.
  - rewrite (safe_api_call_ret w r w1 Hf). eauto.
  - destruct (safe_api_call_raise w e w1 Hf) as (w' & -> & _). eauto.
Qed.

End Boundary.

Lemma safe_api_call_success {S} (name : string) (func : M (Reply S))
      (w : World) ok w' :
  safe_api_call name func w = (Ret (Success ok), w') ->
  func w = (Ret (Success ok), w').
Proof.
  destruct (func w) as [[r|e] w1] eqn:Hf; intros Hs.
  - rewrite (safe_api_call_ret name func w r w1 Hf) in Hs. exact Hs.
  - destruct (safe_api_call_raise name func w e w1 Hf) as (w2 & Hr & _).
    rewrite Hr in Hs. discriminate.
Qed.

(** [acquire] returns whenever the budget is not zero, and it does not
    touch the network. *)
Lemma acquire_total (C : Z) (l : Limiter) (w : World) :
  C <> 0 ->
  exists w', acquire C l w = (Ret tt, w') /\ network w' = network w.
Proof.
  intros HC.
  unfold acquire, bind, time_time, get_last_called, set_last_called.
  destruct (Z.eqb_spec C 0) as [->|_]; [congruence|].
  destruct (Qlt_le_dec 0 _); unfold time_sleep, ret;
    (eexists; split; [reflexivity|]); simpl;
    rewrite ?tick_network; simpl; rewrite ?tick_network; reflexivity.
Qed.

Lemma rate_limit_run {A} (C : Z) (l : Limiter) (func : M A) (w : World) :
  C <> 0 ->
  exists wa, acquire C l w = (Ret tt, wa)
             /\ network wa = network w
             /\ rate_limit C l func w = func wa.
Proof.
  intros HC. destruct (acquire_total C l w HC) as (wa & Ha & Hn).
  exists wa. repeat split; try assumption.
  unfold rate_limit. exact (bind_run _ (fun _ => func) _ _ _ Ha).
Qed.

(** ** Missing credentials *)

(** C6. With no Product Hunt key configured, [search_product_hunt] returns
    the error dictionary that names [PRODUCT_HUNT_API_KEY], and with no
    Twitter bearer token [fetch_twitter_trends] returns the one that names
    [TWITTER_BEARER_TOKEN]; in both cases the list of requests sent to the
    network is what it was before the call. *)
Theorem missing_credential_no_request (E : Env) (w : World) :
  (truthy (PRODUCT_HUNT_API_KEY E) = false ->
   forall days_back limit,
   exists w',
     search_product_hunt E days_back limit w
     = (Ret (Error "Product Hunt API key not configured. Set PRODUCT_HUNT_API_KEY environment variable."), w')
     /\ network w' = network w)
  /\ (truthy (TWITTER_BEARER_TOKEN E) = false ->
      forall hashtags min_likes days_back,
      exists w',
        fetch_twitter_trends E hashtags min_likes days_back w
        = (Ret (Error "Twitter API token not configured. Set TWITTER_BEARER_TOKEN environment variable."), w')
        /\ network w' = network w).
Proof.
  split.
  - intros Hk days_back limit.
    destruct (rate_limit_run 20 L_product_hunt
                (search_product_hunt_body E days_back limit) w ltac:(lia))
      as (wa & _ & Hn & Hr).
    exists wa. split; [|exact Hn].
    unfold search_product_hunt. apply safe_api_call_ret. rewrite Hr.
    unfold search_product_hunt_body. rewrite Hk. reflexivity.
  - intros Hk hashtags min_likes days_back.
    destruct (rate_limit_run 15 L_twitter
                (fetch_twitter_trends_body E hashtags min_likes days_back) w
                ltac:(lia))
      as (wa & _ & Hn & Hr).
    exists wa. split; [|exact Hn].
    unfold fetch_twitter_trends. apply safe_api_call_ret. rewrite Hr.
    unfold fetch_twitter_trends_body. rewrite Hk. reflexivity.
Qed.

(** ** The aggregator *)

Lemma attempt_run {S} (label key : string) (adapter : M (Reply S))
      (items : S -> Items) acc (w : World) :
  attempt label key adapter items acc w
  = (Ret (file acc (verdict label key items (fst (adapter w)))),
     snd (adapter w)).
Proof.
  unfold attempt, try_except, bind, verdict, file, ret.
  destruct (adapter w) as [[[ok|m]|e] w1]; reflexivity.
Qed.

Lemma verdict_key {S} (label key : string) (items : S -> Items) o entry :
  verdict label key items o = inl entry -> fst entry = key.
Proof.
  destruct o as [[ok|m]|e]; simpl; intros H; inversion H; reflexivity.
Qed.

Lemma dict_set_fresh {V} (k : string) (v : V) (d : list (string * V)) :
  ~ In k (map fst d) -> dict_set k v d = d ++ [(k, v)].
Proof.
  induction d as [|[k' v'] d IH]; simpl; intros Hn.
  - reflexivity.
  - destruct (String.eqb_spec k k') as [->|Hk].
    + exfalso. apply Hn. left. reflexivity.
    + rewrite IH; [reflexivity|]. intros Hin. apply Hn. right. exact Hin.
Qed.

(** Filing contributions whose keys are all different appends them. *)
Lemma file_fold (vs : list ((string * Items) + string)) :
  forall r e,
    NoDup (map fst r ++ map fst (lefts vs)) ->
    fold_left file vs (r, e) = (r ++ lefts vs, e ++ rights vs).
Proof.
  induction vs as [|[[k i]|line] vs IH]; intros r e Hnd; simpl.
  - rewrite !app_nil_r. reflexivity.
  - simpl in Hnd.
    rewrite dict_set_fresh.
    + unfold file at 1. simpl. rewrite IH.
      * rewrite <- app_assoc. reflexivity.
      * rewrite map_app, <- app_assoc. exact Hnd.
    + apply NoDup_remove_2 in Hnd. intros Hin. apply Hnd.
      apply in_or_app. left. exact Hin.
  - rewrite IH by exact Hnd. rewrite <- app_assoc. reflexivity.
Qed.

(** The batch over any four adapters: the steps of
    [fetch_all_research_body], with the adapters and the two credential
    tests left open. *)
Section Batch.

Variable a1 : M (Reply PapersOk).
Variable a2 : M (Reply ReposOk).
Variable a3 : M (Reply ProductsOk).
Variable a4 : M (Reply TweetsOk).
Variables ph tw : bool.
Variable cfg : ConfigDict.
Variable w : World.

Let w0 := snd (logger "Starting batch research fetch..." w).
Let r1 := a1 w0.
Let r2 := a2 (snd r1).
Let r3 := a3 (snd r2).
Let w3 := if ph then snd r3 else snd r2.
Let r4 := a4 w3.
Let w4 := if tw then snd r4 else w3.
Let vs :=
  [verdict "Papers" "papers" (fun ok => PaperItems (papers ok)) (fst r1);
   verdict "Repos" "repositories" (fun ok => RepoItems (repositories ok)) (fst r2)]
  ++ (if ph
      then [verdict "Products" "products"
              (fun ok => ProductItems (products ok)) (fst r3)]
      else [])
  ++ (if tw
      then [verdict "Tweets" "tweets"
              (fun ok => TweetItems (trending_tweets ok)) (fst r4)]
      else []).

Lemma batch_keys : NoDup (map fst (lefts vs)).
Proof.
  subst vs.
  repeat match goal with
         | |- context [verdict ?l ?k ?i ?o] =>
             let v := fresh "v" in
             let K := fresh "K" in
             pose proof (verdict_key l k i o) as K;
             set (v := verdict l k i o) in *; clearbody v
         end.
  destruct ph, tw;
    repeat match goal with
           | K : forall entry, ?v = inl entry -> _ |- _ =>
               destruct v as [[? ?]|?];
               [specialize (K _ eq_refl); simpl in K; subst | clear K]
           end;
    simpl; repeat constructor; simpl; intuition discriminate.
Qed.

Lemma batch_steps :
  (logger "Starting batch research fetch..." ;;;
   acc <- attempt "Papers" "papers" a1
            (fun ok => PaperItems (papers ok)) ([], []) ;;
   acc <- attempt "Repos" "repositories" a2
            (fun ok => RepoItems (repositories ok)) acc ;;
   acc <- (if ph then
             attempt "Products" "products" a3
               (fun ok => ProductItems (products ok)) acc
           else ret acc) ;;
   acc <- (if tw then
             attempt "Tweets" "tweets" a4
               (fun ok => TweetItems (trending_tweets ok)) acc
           else ret acc) ;;
   let results := fst acc in
   let errors := snd acc in
   logger ("Batch fetch complete: " ++ string_of_Z (len results)
           ++ " sources, " ++ string_of_Z (len errors) ++ " errors")%string ;;;
   ret (Batch {| batch_status := match errors with
                                 | [] => "success"
                                 | _ :: _ => "partial"
                                 end;
                 research_data := results;
                 errors := errors;
                 sources_fetched := len results;
                 batch_config := cfg |})) w
  = (Ret (Batch (batch_of vs cfg)), snd (logger (batch_log vs) w4)).
Proof.
  pose proof batch_keys as Hk.
  pose proof (file_fold vs [] []) as Hfold.
  cbn [map app] in Hfold. specialize (Hfold Hk). clear Hk.
  revert Hfold. subst vs w4 r4 w3 r3 r2 r1.
  rewrite (bind_run (logger _) _ w tt w0 eq_refl).
  clearbody w0.
  rewrite (bind_run _ _ w0 _ _ (attempt_run _ _ a1 _ _ w0)).
  rewrite (bind_run _ _ _ _ _ (attempt_run _ _ a2 _ _ _)).
  destruct ph, tw; cbn [fst snd app fold_left]; intros Hfold.
  - rewrite (bind_run _ _ _ _ _ (attempt_run _ _ a3 _ _ _)).
    rewrite (bind_run _ _ _ _ _ (attempt_run _ _ a4 _ _ _)).
    rewrite Hfold. reflexivity.
  - rewrite (bind_run _ _ _ _ _ (attempt_run _ _ a3 _ _ _)).
    rewrite (bind_run (ret _) _ _ _ _ eq_refl).
    rewrite Hfold. reflexivity.
  - rewrite (bind_run (ret _) _ _ _ _ eq_refl).
    rewrite (bind_run _ _ _ _ _ (attempt_run _ _ a4 _ _ _)).
    rewrite Hfold. reflexivity.
  - rewrite (bind_run (ret _) _ _ _ _ eq_refl).
    rewrite (bind_run (ret _) _ _ _ _ eq_refl).
    rewrite Hfold. reflexivity.
Qed.

(** With both optional sources configured and exactly one of the four
    failing. *)
Lemma batch_one_failure (run : Outcome BatchReply * World) :
  ph = true -> tw = true ->
  run = (Ret (Batch (batch_of vs cfg)), snd (logger (batch_log vs) w4)) ->
  exists b line,
    run = (Ret (Batch b), snd (logger line (snd (a4 (snd r3)))))
    /\ (forall m ok2 ok3 ok4,
           fst r1 = Ret (Error m) -> fst r2 = Ret (Success ok2) ->
           fst r3 = Ret (Success ok3) ->
           fst (a4 (snd r3)) = Ret (Success ok4) ->
           batch_status b = "partial" /\ sources_fetched b = 3
           /\ errors b = [("Papers: " ++ m)%string]
           /\ research_data b
              = [("repositories", RepoItems (repositories ok2));
                 ("products", ProductItems (products ok3));
                 ("tweets", TweetItems (trending_tweets ok4))])
    /\ (forall ok1 m ok3 ok4,
           fst r1 = Ret (Success ok1) -> fst r2 = Ret (Error m) ->
           fst r3 = Ret (Success ok3) ->
           fst (a4 (snd r3)) = Ret (Success ok4) ->
           batch_status b = "partial" /\ sources_fetched b = 3
           /\ errors b = [("Repos: " ++ m)%string]
           /\ research_data b
              = [("papers", PaperItems (papers ok1));
                 ("products", ProductItems (products ok3));
                 ("tweets", TweetItems (trending_tweets ok4))])
    /\ (forall ok1 ok2 m ok4,
           fst r1 = Ret (Success ok1) -> fst r2 = Ret (Success ok2) ->
           fst r3 = Ret (Error m) ->
           fst (a4 (snd r3)) = Ret (Success ok4) ->
           batch_status b = "partial" /\ sources_fetched b = 3
           /\ errors b = [("Products: " ++ m)%string]
           /\ research_data b
              = [("papers", PaperItems (papers ok1));
                 ("repositories", RepoItems (repositories ok2));
                 ("tweets", TweetItems (trending_tweets ok4))])
    /\ (forall ok1 ok2 ok3 m,
           fst r1 = Ret (Success ok1) -> fst r2 = Ret (Success ok2) ->
           fst r3 = Ret (Success ok3) ->
           fst (a4 (snd r3)) = Ret (Error m) ->
           batch_status b = "partial" /\ sources_fetched b = 3
           /\ errors b = [("Tweets: " ++ m)%string]
           /\ research_data b
              = [("papers", PaperItems (papers ok1));
                 ("repositories", RepoItems (repositories ok2));
                 ("products", ProductItems (products ok3))]).
Proof.
  subst vs w4 r4 w3. intros Hph Htw ->. rewrite Hph, Htw.
  eexists. eexists. split; [reflexivity|].
  cbn [app].
  repeat split; intros;
    repeat match goal with H : fst _ = _ |- _ => rewrite H; clear H end;
    reflexivity.
Qed.

End Batch.

(** What a run of [fetch_all_research] returns, in terms of the runs of
    its sources. *)
Lemma fetch_all_research_run (E : Env) (config : option ConfigDict) (w : World) :
  fetch_all_research E config w
  = (Ret (Batch (batch_of (fst (source_runs E config w))
                          (or_default config default_config))),
     snd (logger (batch_log (fst (source_runs E config w)))
                 (snd (source_runs E config w)))).
Proof.
  unfold fetch_all_research.
  apply safe_api_call_ret.
  unfold fetch_all_research_body, source_runs.
  cbv zeta. cbn [fst snd].
  exact (batch_steps _ _ _ _ _ _ _ w).
Qed.

Lemma batch_of_status (vs : list ((string * Items) + string)) (cfg : ConfigDict) :
  (batch_status (batch_of vs cfg) = "success" <-> errors (batch_of vs cfg) = [])
  /\ (errors (batch_of vs cfg) <> [] -> batch_status (batch_of vs cfg) = "partial").
Proof.
  unfold batch_of; simpl. destruct (rights vs) as [|line rest].
  - repeat split; congruence.
  - repeat split; intros; try reflexivity; discriminate.
Qed.

(** C2. Every call of [fetch_all_research] returns its batch dictionary,
    whose status is ["success"] exactly when its list of errors is empty,
    and ["partial"] otherwise. *)
Theorem status_success_iff_no_errors
        (E : Env) (config : option ConfigDict) (w : World) :
  exists b w',
    fetch_all_research E config w = (Ret (Batch b), w')
    /\ (batch_status b = "success" <-> errors b = [])
    /\ (errors b <> [] -> batch_status b = "partial").
Proof.
  rewrite fetch_all_research_run.
  eexists. eexists. split; [reflexivity|].
  apply batch_of_status.
Qed.

(** C3, as stated, fails: with no optional credential configured and the
    paper search and the code host both answering with no item,
    [sources_fetched] is 2 although no key of [research_data] holds a
    non-empty sequence of items. *)
Lemma sources_fetched_counts_empty_sources :
  ~ (forall (E : Env) (config : option ConfigDict) (w : World) b w',
        fetch_all_research E config w = (Ret (Batch b), w') ->
        sources_fetched b = len (filter nonempty_items (research_data b))).
Proof.
  intros H.
  specialize (H env_quiet None sample_world _ _
                (fetch_all_research_run env_quiet None sample_world)).
  vm_compute in H. discriminate H.
Qed.

(** C3, amended. [sources_fetched] is the number of keys of
    [research_data], and [research_data] has one key for every source that
    was called and returned a success, whether or not its sequence of items
    is empty. *)
Theorem sources_fetched_counts_successes
        (E : Env) (config : option ConfigDict) (w : World) :
  exists b w',
    fetch_all_research E config w = (Ret (Batch b), w')
    /\ sources_fetched b = len (research_data b)
    /\ research_data b = lefts (fst (source_runs E config w)).
Proof.
  rewrite fetch_all_research_run.
  eexists. eexists. split; [reflexivity|]. split; reflexivity.
Qed.

(** C1. With the four sources configured, [fetch_all_research] runs the
    four adapters one after the other, each from the world the previous
    one left, whatever the previous ones returned; and when exactly one of
    them returns an error dictionary and the three others a success, the
    batch has status ["partial"], [sources_fetched = 3], an [errors] list
    with the single entry that names the failed source, and the items of
    the three other sources in [research_data]. *)
Theorem one_failure_gives_partial
        (E : Env) (config : option ConfigDict) (w : World) :
  truthy (PRODUCT_HUNT_API_KEY E) = true ->
  truthy (TWITTER_BEARER_TOKEN E) = true ->
  let cfg := or_default config default_config in
  let w0 := snd (logger "Starting batch research fetch..." w) in
  let r1 := search_arxiv_papers E "artificial intelligence"
              (config_get cfg "max_papers" 10) (config_get cfg "days_back" 7) w0 in
  let r2 := fetch_github_trending E "python" "weekly" "artificial-intelligence"
              (snd r1) in
  let r3 := search_product_hunt E (config_get cfg "days_back" 7)
              (config_get cfg "max_products" 10) (snd r2) in
  let r4 := fetch_twitter_trends E None 100 (config_get cfg "days_back" 7)
              (snd r3) in
  exists b line,
    fetch_all_research E config w = (Ret (Batch b), snd (logger line (snd r4)))
    /\ (forall m ok2 ok3 ok4,
           fst r1 = Ret (Error m) -> fst r2 = Ret (Success ok2) ->
           fst r3 = Ret (Success ok3) -> fst r4 = Ret (Success ok4) ->
           batch_status b = "partial" /\ sources_fetched b = 3
           /\ errors b = [("Papers: " ++ m)%string]
           /\ research_data b
              = [("repositories", RepoItems (repositories ok2));
                 ("products", ProductItems (products ok3));
                 ("tweets", TweetItems (trending_tweets ok4))])
    /\ (forall ok1 m ok3 ok4,
           fst r1 = Ret (Success ok1) -> fst r2 = Ret (Error m) ->
           fst r3 = Ret (Success ok3) -> fst r4 = Ret (Success ok4) ->
           batch_status b = "partial" /\ sources_fetched b = 3
           /\ errors b = [("Repos: " ++ m)%string]
           /\ research_data b
              = [("papers", PaperItems (papers ok1));
                 ("products", ProductItems (products ok3));
                 ("tweets", TweetItems (trending_tweets ok4))])
    /\ (forall ok1 ok2 m ok4,
           fst r1 = Ret (Success ok1) -> fst r2 = Ret (Success ok2) ->
           fst r3 = Ret (Error m) -> fst r4 = Ret (Success ok4) ->
           batch_status b = "partial" /\ sources_fetched b = 3
           /\ errors b = [("Products: " ++ m)%string]
           /\ research_data b
              = [("papers", PaperItems (papers ok1));
                 ("repositories", RepoItems (repositories ok2));
                 ("tweets", TweetItems (trending_tweets ok4))])
    /\ (forall ok1 ok2 ok3 m,
           fst r1 = Ret (Success ok1) -> fst r2 = Ret (Success ok2) ->
           fst r3 = Ret (Success ok3) -> fst r4 = Ret (Error m) ->
           batch_status b = "partial" /\ sources_fetched b = 3
           /\ errors b = [("Tweets: " ++ m)%string]
           /\ research_data b
              = [("papers", PaperItems (papers ok1));
                 ("repositories", RepoItems (repositories ok2));
                 ("products", ProductItems (products ok3))]).
Proof.
  intros Hph Htw.
  exact (batch_one_failure _ _ _ _ _ _ _ w _ Hph Htw
           (fetch_all_research_run E config w)).
Qed.

(** ** Computations that send nothing *)

Lemma quiet_run {A} (m : M A) (w : World) o w' :
  quiet m -> m w = (o, w') -> network w' = network w.
Proof. intros Hq Hm. specialize (Hq w). rewrite Hm in Hq. exact Hq. Qed.

Lemma quiet_ret {A} (a : A) : quiet (ret a).
Proof. intros w. reflexivity. Qed.

Lemma quiet_raise {A} (e : Exn) : quiet (@raise A e).
Proof. intros w. reflexivity. Qed.

Lemma quiet_bind {A B} (m : M A) (k : A -> M B) :
  quiet m -> (forall a, quiet (k a)) -> quiet (bind m k).
Proof.
  intros Hm Hk w. unfold bind. specialize (Hm w).
  destruct (m w) as [[a|e] w1]; simpl in *.
  - rewrite (Hk a w1). exact Hm.
  - exact Hm.
Qed.

Lemma quiet_try_except {A} (m : M A) (h : Exn -> M A) :
  quiet m -> (forall e, quiet (h e)) -> quiet (try_except m h).
Proof.
  intros Hm Hh w. unfold try_except. specialize (Hm w).
  destruct (m w) as [[a|e] w1]; simpl in *.
  - exact Hm.
  - rewrite (Hh e w1). exact Hm.
Qed.

Lemma quiet_logger (line : string) : quiet (logger line).
Proof. intros w. reflexivity. Qed.

Lemma quiet_time_time : quiet time_time.
Proof. intros w. unfold time_time. simpl. apply tick_network. Qed.

Lemma quiet_time_sleep (secs : Q) : quiet (time_sleep secs).
Proof. intros w. unfold time_sleep. simpl. rewrite tick_network. reflexivity. Qed.

Lemma quiet_get_last_called (l : Limiter) : quiet (get_last_called l).
Proof. intros w. reflexivity. Qed.

Lemma quiet_set_last_called (l : Limiter) (t : Q) : quiet (set_last_called l t).
Proof. intros w. reflexivity. Qed.

Lemma quiet_lift_outcome {A} (o : Outcome A) : quiet (lift_outcome o).
Proof. intros w. reflexivity. Qed.

Lemma quiet_getitem {A} (k : string) (o : option A) : quiet (getitem k o).
Proof. destruct o; [apply quiet_ret | apply quiet_raise]. Qed.

Create HintDb quiet.
#[local] Hint Resolve quiet_ret quiet_raise quiet_logger quiet_time_time
  quiet_time_sleep quiet_get_last_called quiet_set_last_called
  quiet_lift_outcome quiet_getitem : quiet.

(** Peel the binds and the tests of a computation down to its primitive
    effects. *)
Ltac quiet_steps :=
  repeat first
    [ progress auto with quiet
    | apply quiet_bind; [|intro]
    | apply quiet_try_except; [|intro]
    | match goal with
      | |- quiet (if ?c then _ else _) => destruct c
      | |- quiet (match ?o with Some _ => _ | None => _ end) => destruct o
      | |- quiet (match ?o with inl _ => _ | inr _ => _ end) => destruct o
      end ].

Lemma quiet_for_each {A B} (f : A -> M B) (l : list A) :
  (forall a, quiet (f a)) -> quiet (for_each f l).
Proof.
  intros Hf. induction l as [|a l IH]; simpl; quiet_steps.
Qed.

Lemma quiet_acquire (C : Z) (l : Limiter) : quiet (acquire C l).
Proof. unfold acquire. quiet_steps. Qed.

Lemma quiet_datetime_now (E : Env) : quiet (datetime_now E).
Proof.
  intros w. unfold datetime_now.
  destruct (in_datetime_range _); simpl; apply tick_network.
Qed.

Lemma quiet_timedelta_days (days : Z) : quiet (timedelta_days days).
Proof. unfold timedelta_days. quiet_steps. Qed.

Lemma quiet_datetime_sub (dt td : Z) : quiet (datetime_sub dt td).
Proof. unfold datetime_sub. quiet_steps. Qed.

Lemma quiet_raise_for_status {P} (response : Response P) :
  quiet (raise_for_status response).
Proof. unfold raise_for_status. quiet_steps. Qed.

Lemma quiet_response_json {P} (response : Response P) :
  quiet (response_json response).
Proof. unfold response_json. quiet_steps. Qed.

Lemma quiet_repo_of (item : GithubItem) : quiet (repo_of item).
Proof. unfold repo_of. quiet_steps. Qed.

Lemma quiet_product_of (edge : PHEdge) : quiet (product_of edge).
Proof. unfold product_of. quiet_steps. Qed.

Lemma quiet_tweet_of users (tweet : RawTweet) : quiet (tweet_of users tweet).
Proof. unfold tweet_of. quiet_steps. Qed.

Lemma quiet_users_by_id (users : list RawUser) :
  forall acc, quiet (users_by_id users acc).
Proof.
  induction users as [|user users IH]; intros acc; simpl; quiet_steps.
Qed.

Lemma quiet_collect_tweets users (min_likes : Z) (data : list RawTweet) :
  forall tweets, quiet (collect_tweets users min_likes data tweets).
Proof.
  induction data as [|tweet data IH]; intros tweets; simpl.
  - quiet_steps.
  - destruct (enough_likes min_likes tweet); [|apply IH].
    apply quiet_bind; [apply quiet_tweet_of | intro; apply IH].
Qed.

#[local] Hint Resolve quiet_acquire quiet_datetime_now quiet_timedelta_days
  quiet_datetime_sub quiet_raise_for_status quiet_response_json
  quiet_repo_of quiet_product_of quiet_tweet_of quiet_users_by_id
  quiet_collect_tweets quiet_for_each : quiet.

(** ** One request per adapter *)

Lemma request_run {P} (api : Request -> Wire P) (req : Request) (w : World) :
  exists w1,
    network w1 = network w ++ [req]
    /\ request api req w
       = (match api req with inl e => Raise e | inr r => Ret r end, w1).
Proof.
  unfold request, bind, send. simpl.
  destruct (api req); (eexists; split; [|reflexivity]);
    rewrite tick_network; reflexivity.
Qed.

Lemma one_request_quiet {A} fails (m : M A) : quiet m -> one_request fails m.
Proof. intros Hq wa o w1 Hm. left. exact (quiet_run m wa o w1 Hq Hm). Qed.

Lemma one_request_bind {A B} fails (m : M A) (k : A -> M B) :
  quiet m -> (forall a, one_request fails (k a)) ->
  one_request fails (bind m k).
Proof.
  intros Hq Hk wa o w1 Hrun.
  destruct (bind_inv m k wa o w1 Hrun) as [(a & w2 & Hm & Hka)|(e & Hm & ->)].
  - rewrite <- (quiet_run m wa _ w2 Hq Hm). exact (Hk a w2 o w1 Hka).
  - left. exact (quiet_run m wa _ w1 Hq Hm).
Qed.

Lemma one_request_http {P R} (api : Request -> Wire P) (req : Request)
      (rest : P -> M R) :
  (forall data, quiet (rest data)) ->
  one_request (wire_failure api)
    (response <- request api req ;;
     raise_for_status response ;;;
     data <- response_json response ;;
     rest data).
Proof.
  intros Hq wa o w1 Hrun. right. exists req.
  destruct (request_run api req wa) as (w2 & Hn & Hr).
  unfold bind at 1 in Hrun. rewrite Hr in Hrun. clear Hr.
  unfold wire_failure. destruct (api req) as [e'|response].
  - inversion Hrun; subst. split; [exact Hn|]. intros e ->. reflexivity.
  - unfold bind at 1, raise_for_status in Hrun.
    destruct ((400 <=? status_code response) && (status_code response <? 600)).
    + inversion Hrun; subst. split; [exact Hn|]. intros e ->. reflexivity.
    + unfold ret at 1, bind at 1, response_json in Hrun.
      destruct (json_body response) as [e'|data].
      * inversion Hrun; subst. split; [exact Hn|].
        intros e He. inversion He. reflexivity.
      * rewrite (quiet_run (rest data) w2 o w1 (Hq data) Hrun).
        split; [exact Hn|]. intros e He. discriminate He.
Qed.

Lemma one_request_arxiv (E : Env) (query : string) (max_results days_back : Z) :
  one_request (arxiv_failure E)
              (search_arxiv_papers_body E query max_results days_back).
Proof.
  unfold search_arxiv_papers_body.
  apply one_request_bind; [auto with quiet|]. intros now.
  apply one_request_bind; [auto with quiet|]. intros delta.
  apply one_request_bind; [auto with quiet|]. intros date_threshold.
  cbv zeta. intros wa o w1 Hrun. right.
  exists (arxiv_request query max_results).
  unfold bind at 1, send in Hrun.
  set (w2 := tick _) in Hrun.
  assert (Hn : network w2 = network wa ++ [arxiv_request query max_results])
    by (unfold w2; rewrite tick_network; reflexivity).
  clearbody w2.
  unfold arxiv_failure.
  destruct (arxiv_api E (arxiv_request query max_results)) as [results tail].
  simpl fst in Hrun; simpl snd in Hrun.
  unfold bind at 1, lift_outcome in Hrun.
  destruct (collect_papers E date_threshold max_results results tail [])
    as [found|e'] eqn:Hc.
  - assert (Hq : network w1 = network w2).
    { refine (quiet_run _ w2 o w1 _ Hrun). quiet_steps. }
    rewrite Hq. split; [exact Hn|].
    intros e He. inversion He; subst. simpl in Hc. discriminate Hc.
  - inversion Hrun; subst. split; [exact Hn|].
    intros e He. inversion He; subst. simpl in Hc. inversion Hc. reflexivity.
Qed.

Lemma one_request_github (E : Env) (language timeframe topic : string) :
  one_request (wire_failure (github_api E))
              (fetch_github_trending_body E language timeframe topic).
Proof.
  unfold fetch_github_trending_body.
  apply one_request_bind; [auto with quiet|]. intros now.
  apply one_request_bind; [auto with quiet|]. intros delta.
  apply one_request_bind; [auto with quiet|]. intros since.
  cbv zeta. apply one_request_http. intros data. quiet_steps.
Qed.

Lemma one_request_product_hunt (E : Env) (days_back limit : Z) :
  one_request (wire_failure (product_hunt_api E))
              (search_product_hunt_body E days_back limit).
Proof.
  unfold search_product_hunt_body.
  destruct (negb (truthy (PRODUCT_HUNT_API_KEY E))).
  - apply one_request_quiet. auto with quiet.
  - apply one_request_http. intros data. quiet_steps.
Qed.

Lemma one_request_twitter (E : Env) hashtags (min_likes days_back : Z) :
  one_request (wire_failure (twitter_api E))
              (fetch_twitter_trends_body E hashtags min_likes days_back).
Proof.
  unfold fetch_twitter_trends_body.
  destruct (negb (truthy (TWITTER_BEARER_TOKEN E))).
  - apply one_request_quiet. auto with quiet.
  - apply one_request_http. intros data. quiet_steps.
Qed.

Lemma app_one_more {A} (l : list A) (x : A) : l <> l ++ [x].
Proof.
  intros H. apply (f_equal (@List.length A)) in H.
  rewrite length_app in H. simpl in H. lia.
Qed.

(** A rate-limited adapter behind the error boundary: it returns, and
    when the one request it sent failed with [e] it returns the error
    dictionary of [e]. *)
Lemma boundary_failure {S} (name : string) (C : Z) (l : Limiter)
      (body : M (Reply S)) fails (w : World) :
  C <> 0 -> one_request fails body ->
  (exists r w', safe_api_call name (rate_limit C l body) w = (Ret r, w'))
  /\ (forall r w' req e,
         safe_api_call name (rate_limit C l body) w = (Ret r, w') ->
         network w' = network w ++ [req] ->
         fails req e ->
         r = Error (failure_message e)).
Proof.
  intros HC Hone. split; [apply safe_api_call_total|].
  intros r w' req e Hrun Hnet Hfail.
  destruct (rate_limit_run C l body w HC) as (wa & _ & Hna & Hr).
  destruct (body wa) as [o w1] eqn:Hb.
  assert (Hw : network w' = network w1
               /\ (forall e', o = Raise e' -> r = Error (failure_message e'))).
  { destruct o as [r1|e1].
    - rewrite (safe_api_call_ret name _ w r1 w1 Hr) in Hrun.
      inversion Hrun; subst. split; [reflexivity|]. intros e' He'. discriminate.
    - destruct (safe_api_call_raise name _ w e1 w1 Hr) as (w2 & Hs & Hn2).
      rewrite Hs in Hrun. inversion Hrun; subst.
      split; [exact Hn2|]. intros e' He'. inversion He'. reflexivity. }
  destruct Hw as [Hw Hraise].
  destruct (Hone wa o w1 Hb) as [Hsame|(req0 & Hsent & Hreq)].
  - exfalso. apply (app_one_more (network w) req).
    rewrite <- Hnet, Hw, Hsame, Hna. reflexivity.
  - assert (req0 = req).
    { rewrite Hw, Hsent, Hna in Hnet.
      apply app_inv_head in Hnet. inversion Hnet. reflexivity. }
    subst req0. apply Hraise. apply Hreq. exact Hfail.
Qed.

(** ** The error boundary of the adapters *)

Lemma failure_message_timeout (e : Exn) :
  isinstance e RequestsTimeout = true -> failure_message e = "Request timeout".
Proof. unfold failure_message. intros ->. reflexivity. Qed.

(** C5, as stated, fails for [fetch_all_research]: when the transport of
    the paper search times out, the batch does not return
    [{"status": "error", "message": "Request timeout"}] but its own
    dictionary, with status ["partial"] and the time-out reported in
    [errors]. *)
Lemma batch_timeout_is_not_error_dict :
  let req := ArxivSearch "artificial intelligence" 20 "SubmittedDate" in
  arxiv_failure env_arxiv_down req timed_out
  /\ isinstance timed_out RequestsTimeout = true
  /\ (exists b w',
         fetch_all_research env_arxiv_down None sample_world = (Ret (Batch b), w')
         /\ In req (network w')
         /\ batch_status b = "partial"
         /\ errors b = ["Papers: Request timeout"])
  /\ fst (fetch_all_research env_arxiv_down None sample_world)
     <> Ret (BatchError "Request timeout").
Proof.
  cbv zeta. rewrite fetch_all_research_run.
  split; [reflexivity|]. split; [reflexivity|]. split.
  - eexists. eexists. split; [reflexivity|].
    vm_compute. repeat split. left. reflexivity.
  - discriminate.
Qed.

(** C5, amended. [safe_api_call] never lets an exception through: it
    returns what the wrapped function returns, or the error dictionary of
    the exception it raised, whose message is ["Request timeout"] for a
    [requests.Timeout]. Each of the four source adapters therefore always
    returns, and returns the error dictionary of the failure when the
    request it sent failed (transport exception, 4xx or 5xx status,
    undecodable payload). [fetch_all_research] always returns too, but what
    it returns is its batch dictionary, never an error dictionary: the
    failure of a source is reported in [errors]. *)
Theorem error_boundary (E : Env) (w : World) :
  (forall (R : Type) (T : ToolDict R) (name : string) (func : M R),
      exists r w',
        safe_api_call name func w = (Ret r, w')
        /\ (forall e w1, func w = (Raise e, w1) ->
                         r = error_dict (failure_message e)))
  /\ (forall e, isinstance e RequestsTimeout = true ->
                failure_message e = "Request timeout")
  /\ (forall query max_results days_back,
         (exists r w',
             search_arxiv_papers E query max_results days_back w = (Ret r, w'))
         /\ (forall r w' req e,
                search_arxiv_papers E query max_results days_back w = (Ret r, w') ->
                network w' = network w ++ [req] ->
                arxiv_failure E req e ->
                r = Error (failure_message e)))
  /\ (forall language timeframe topic,
         (exists r w',
             fetch_github_trending E language timeframe topic w = (Ret r, w'))
         /\ (forall r w' req e,
                fetch_github_trending E language timeframe topic w = (Ret r, w') ->
                network w' = network w ++ [req] ->
                wire_failure (github_api E) req e ->
                r = Error (failure_message e)))
  /\ (forall days_back limit,
         (exists r w', search_product_hunt E days_back limit w = (Ret r, w'))
         /\ (forall r w' req e,
                search_product_hunt E days_back limit w = (Ret r, w') ->
                network w' = network w ++ [req] ->
                wire_failure (product_hunt_api E) req e ->
                r = Error (failure_message e)))
  /\ (forall hashtags min_likes days_back,
         (exists r w',
             fetch_twitter_trends E hashtags min_likes days_back w = (Ret r, w'))
         /\ (forall r w' req e,
                fetch_twitter_trends E hashtags min_likes days_back w = (Ret r, w') ->
                network w' = network w ++ [req] ->
                wire_failure (twitter_api E) req e ->
                r = Error (failure_message e)))
  /\ (forall config,
         exists b w', fetch_all_research E config w = (Ret (Batch b), w')).
Proof.
  split; [|split; [|split; [|split; [|split; [|split]]]]].
  - intros R T name func.
    destruct (func w) as [[r|e] w1] eqn:Hf.
    + exists r, w1. split; [apply safe_api_call_ret; exact Hf|].
      intros e w2 He. discriminate He.
    + destruct (safe_api_call_raise name func w e w1 Hf) as (w' & Hs & _).
      exists (error_dict (failure_message e)), w'. split; [exact Hs|].
      intros e' w2 He. inversion He. reflexivity.
  - exact failure_message_timeout.
  - intros query max_results days_back.
    apply boundary_failure; [lia | apply one_request_arxiv].
  - intros language timeframe topic.
    apply boundary_failure; [lia | apply one_request_github].
  - intros days_back limit.
    apply boundary_failure; [lia | apply one_request_product_hunt].
  - intros hashtags min_likes days_back.
    apply boundary_failure; [lia | apply one_request_twitter].
  - intros config. rewrite fetch_all_research_run. eauto.
Qed.

Lemma error_boundary_witness :
  wire_failure (github_api env_github_down)
               (github_request env_github_down "python" "2023-11-14"
                               "artificial-intelligence") timed_out
  /\ fst (fetch_github_trending env_github_down "python" "weekly"
            "artificial-intelligence" sample_world)
     = Ret (Error "Request timeout").
Proof.
  split; [reflexivity|].
  destruct (error_boundary env_github_down sample_world)
    as (_ & Ht & _ & Hg & _).
  destruct (Hg "python" "weekly" "artificial-intelligence") as [_ Hfail].
  destruct (fetch_github_trending env_github_down "python" "weekly"
              "artificial-intelligence" sample_world) as [o w'] eqn:Hrun.
  assert (Hn : network w' = network sample_world
                 ++ [github_request env_github_down "python" "2023-11-14"
                                    "artificial-intelligence"]).
  { apply (f_equal (fun p => network (snd p))) in Hrun. simpl in Hrun.
    rewrite <- Hrun. vm_compute. reflexivity. }
  destruct o as [r|e].
  - simpl. f_equal.
    rewrite <- (Ht timed_out eq_refl).
    apply (Hfail r w' _ timed_out eq_refl Hn). reflexivity.
  - apply (f_equal fst) in Hrun. simpl in Hrun.
    vm_compute in Hrun. discriminate Hrun.
Defined.

(** ** Bodies that leave the limiters alone *)

Lemma keeps_ret {A} (l : Limiter) (a : A) : keeps_limiter l (ret a).
Proof. intros v o v' H. inversion H; subst. auto. Qed.

Lemma keeps_raise {A} (l : Limiter) (e : Exn) : keeps_limiter l (@raise A e).
Proof. intros v o v' H. inversion H; subst. auto. Qed.

Lemma keeps_bind {A B} (l : Limiter) (m : M A) (k : A -> M B) :
  keeps_limiter l m -> (forall a, keeps_limiter l (k a)) ->
  keeps_limiter l (bind m k).
Proof.
  intros Hm Hk v o v' Hrun.
  destruct (bind_inv m k v o v' Hrun) as [(a & v1 & Hma & Hka)|(e & Hme & _)].
  - destruct (Hm _ _ _ Hma) as [L1 S1]. destruct (Hk a _ _ _ Hka) as [L2 S2].
    split; [congruence|auto].
  - exact (Hm _ _ _ Hme).
Qed.

Lemma keeps_logger (l : Limiter) (line : string) : keeps_limiter l (logger line).
Proof. intros v o v' H. inversion H; subst. auto. Qed.

Lemma keeps_send (l : Limiter) (r : Request) : keeps_limiter l (send r).
Proof.
  intros v o v' H. unfold send in H. inversion H; subst.
  rewrite tick_last_called. split; [reflexivity|].
  intros Hs. apply tick_steady. exact Hs.
Qed.

Lemma keeps_datetime_now (E : Env) (l : Limiter) : keeps_limiter l (datetime_now E).
Proof.
  intros v o v' H. unfold datetime_now in H.
  destruct (in_datetime_range _); inversion H; subst;
    rewrite tick_last_called; (split; [reflexivity|apply tick_steady]).
Qed.

Lemma keeps_getitem {A} (l : Limiter) (k : string) (o : option A) :
  keeps_limiter l (getitem k o).
Proof. destruct o; [apply keeps_ret | apply keeps_raise]. Qed.

Create HintDb keeps.
#[local] Hint Resolve keeps_ret keeps_raise keeps_logger keeps_send
  keeps_datetime_now keeps_getitem : keeps.

Ltac keeps_steps :=
  repeat first
    [ progress auto with keeps
    | apply keeps_bind; [|intro]
    | match goal with
      | |- keeps_limiter _ (if ?c then _ else _) => destruct c
      | |- keeps_limiter _ (match ?o with Some _ => _ | None => _ end) => destruct o
      | |- keeps_limiter _ (match ?o with inl _ => _ | inr _ => _ end) => destruct o
      end ].

Lemma keeps_for_each {A B} (l : Limiter) (f : A -> M B) (items : list A) :
  (forall a, keeps_limiter l (f a)) -> keeps_limiter l (for_each f items).
Proof.
  intros Hf. induction items as [|a items IH]; simpl; keeps_steps.
Qed.

(** The body of [fetch_github_trending] never writes a limiter's cell. *)
Lemma keeps_fetch_github_trending_body
      (E : Env) (l : Limiter) (language timeframe topic : string) :
  keeps_limiter l (fetch_github_trending_body E language timeframe topic).
Proof.
  unfold fetch_github_trending_body, timedelta_days, datetime_sub, request,
    raise_for_status, response_json.
  keeps_steps.
  apply keeps_for_each. intros item. unfold repo_of. keeps_steps.
Qed.

(** ** Instances *)

Lemma busy_world_steady : steady busy_world.
Proof.
  unfold steady, busy_world; simpl.
  repeat (apply Forall_cons; [unfold Qle; simpl; lia|]). apply Forall_nil.
Defined.

Lemma acquire_spacing_witness :
  30 <> 0 /\ steady busy_world
  /\ (exists w',
         acquire 30 L_github busy_world = (Ret tt, w')
         /\ slept w' = [deficit 30 L_github busy_world]
         /\ (deficit 30 L_github busy_world == 9 # 10)%Q
         /\ (last_called busy_world L_github + 60 / inject_Z 30
             <= last_called w' L_github)%Q)
  /\ (forall o1 w1 o2 w2,
         let body := fetch_github_trending_body env_all_up "python" "weekly"
                       "artificial-intelligence" in
         rate_limit 30 L_github body busy_world = (o1, w1) ->
         rate_limit 30 L_github body w1 = (o2, w2) ->
         (last_called w1 L_github + 60 / inject_Z 30 <= last_called w2 L_github)%Q).
Proof.
  assert (H0 : 30 <> 0) by lia.
  destruct (acquire_spacing 30 L_github busy_world H0 busy_world_steady)
    as [(w' & Ha & Hs & _ & Hl) Htwice].
  split; [exact H0|]. split; [exact busy_world_steady|]. split.
  - exists w'. split; [exact Ha|]. split; [exact Hs|].
    split; [reflexivity|exact Hl].
  - intros o1 w1 o2 w2 body.
    apply Htwice. apply keeps_fetch_github_trending_body.
Defined.

Lemma missing_credential_no_request_witness :
  truthy (PRODUCT_HUNT_API_KEY env_quiet) = false
  /\ truthy (TWITTER_BEARER_TOKEN env_quiet) = false
  /\ (exists w',
         search_product_hunt env_quiet 7 10 sample_world
         = (Ret (Error "Product Hunt API key not configured. Set PRODUCT_HUNT_API_KEY environment variable."), w')
         /\ network w' = network sample_world)
  /\ (exists w',
         fetch_twitter_trends env_quiet None 100 7 sample_world
         = (Ret (Error "Twitter API token not configured. Set TWITTER_BEARER_TOKEN environment variable."), w')
         /\ network w' = network sample_world).
Proof.
  destruct (missing_credential_no_request env_quiet sample_world) as [Hp Ht].
  split; [reflexivity|]. split; [reflexivity|]. split.
  - exact (Hp eq_refl 7 10).
  - exact (Ht eq_refl None 100 7).
Defined.

Lemma one_failure_gives_partial_witness :
  truthy (PRODUCT_HUNT_API_KEY env_github_down) = true
  /\ truthy (TWITTER_BEARER_TOKEN env_github_down) = true
  /\ exists b w',
       fetch_all_research env_github_down None sample_world = (Ret (Batch b), w')
       /\ batch_status b = "partial"
       /\ sources_fetched b = 3
       /\ errors b = ["Repos: Request timeout"]
       /\ map fst (research_data b) = ["papers"; "products"; "tweets"].
Proof.
  split; [reflexivity|]. split; [reflexivity|].
  destruct (one_failure_gives_partial env_github_down None sample_world
              eq_refl eq_refl) as (b & line & Hrun & _ & H2 & _).
  exists b. eexists. split; [exact Hrun|].
  edestruct H2 as (Hs & Hn & He & Hd);
    [vm_compute; reflexivity ..|].
  rewrite Hs, Hn, He, Hd. repeat split.
Defined.

(** ** The per-source configuration *)

Lemma dict_get_set_other {V} (k k' : string) (v : V) (d : list (string * V)) :
  k <> k' -> dict_get k (dict_set k' v d) = dict_get k d.
Proof.
  intros Hk. induction d as [|[k0 v0] d IH]; simpl.
  - destruct (String.eqb_spec k k'); [contradiction|reflexivity].
  - destruct (String.eqb_spec k' k0) as [->|Hk0]; simpl.
    + destruct (String.eqb_spec k k0); [contradiction|reflexivity].
    + destruct (String.eqb_spec k k0); [reflexivity|exact IH].
Qed.

Lemma config_get_max_repos (config : ConfigDict) (v : Z) (k : string) (d : Z) :
  k <> "max_repos" ->
  config_get (dict_set "max_repos" v config) k d = config_get config k d.
Proof.
  intros Hk. unfold config_get. rewrite dict_get_set_other by exact Hk.
  reflexivity.
Qed.

(** No source is run with a parameter that depends on ["max_repos"]. *)
Lemma source_runs_max_repos (E : Env) (config : ConfigDict) (v : Z) (w : World) :
  source_runs E (Some (dict_set "max_repos" v config)) w
  = source_runs E (Some config) w.
Proof.
  unfold source_runs, or_default.
  rewrite !config_get_max_repos by discriminate.
  reflexivity.
Qed.

(** C4 fails on ["max_repos"]: whatever value the configuration gives it,
    [fetch_all_research] sends the same requests and returns the same
    [research_data] and [errors]; the request to the code host always asks
    for 10 repositories per page. With [{"max_repos": 3}] and a code host
    that offers four repositories, the batch returns the four. *)
Theorem max_repos_is_ignored :
  (forall (E : Env) (config : ConfigDict) (v : Z) (w : World),
      exists b b' w',
        fetch_all_research E (Some config) w = (Ret (Batch b), w')
        /\ fetch_all_research E (Some (dict_set "max_repos" v config)) w
           = (Ret (Batch b'), w')
        /\ research_data b' = research_data b
        /\ errors b' = errors b)
  /\ (forall (E : Env) (language date topic : string),
         In ("per_page", PInt 10)
            match github_request E language date topic with
            | HttpGet _ params _ _ => params
            | _ => []
            end)
  /\ (exists b w',
         fetch_all_research env_four_repos (Some [("max_repos", 3)]) sample_world
         = (Ret (Batch b), w')
         /\ config_get (batch_config b) "max_repos" 10 = 3
         /\ exists l, dict_get "repositories" (research_data b) = Some (RepoItems l)
                      /\ len l = 4).
Proof.
  split; [|split].
  - intros E config v w.
    rewrite !fetch_all_research_run, source_runs_max_repos.
    eexists. eexists. eexists. repeat split.
  - intros E language date topic. simpl. auto.
  - rewrite fetch_all_research_run.
    eexists. eexists. split; [reflexivity|].
    vm_compute. split; [reflexivity|]. eexists. split; reflexivity.
Qed.
(** ** Sorting *)

Section Sorting.

Context {A : Type}.
Variable key : A -> Z.

Lemma insert_desc_perm (x : A) (l : list A) :
  Permutation (x :: l) (insert_desc key x l).
Proof.
  induction l as [|y l IH]; simpl.
  - apply Permutation_refl.
  - destruct (key y <=? key x).
    + apply Permutation_refl.
    + apply perm_trans with (y :: x :: l).
      * apply perm_swap.
      * apply perm_skip. exact IH.
Qed.

Lemma sort_desc_perm (l : list A) : Permutation l (sort_desc key l).
Proof.
  induction l as [|x l IH]; simpl.
  - apply perm_nil.
  - apply perm_trans with (x :: sort_desc key l).
    + apply perm_skip. exact IH.
    + apply insert_desc_perm.
Qed.

Lemma insert_desc_sorted (x : A) (l : list A) :
  descending key l -> descending key (insert_desc key x l).
Proof.
  unfold descending. induction l as [|y l IH]; simpl; intros Hs.
  - constructor; constructor.
  - inversion Hs as [|y' l' Hl Hy]; subst.
    destruct (Z.leb_spec (key y) (key x)) as [Hle|Hgt].
    + constructor; [exact Hs|]. constructor; [exact Hle|].
      eapply Forall_impl; [|exact Hy]. simpl. intros b Hb. lia.
    + constructor; [apply IH; exact Hl|].
      apply (Permutation_Forall (insert_desc_perm x l)).
      constructor; [lia|exact Hy].
Qed.

Lemma sort_desc_sorted (l : list A) : descending key (sort_desc key l).
Proof.
  induction l as [|x l IH]; simpl.
  - constructor.
  - apply insert_desc_sorted. exact IH.
Qed.

Lemma sort_desc_length (l : list A) :
  List.length (sort_desc key l) = List.length l.
Proof. symmetry. apply Permutation_length. apply sort_desc_perm. Qed.

End Sorting.

(** ** Stateless computations *)

Lemma stateless_ret {A} (a : A) : stateless (ret a).
Proof. exists (Ret a). reflexivity. Qed.

Lemma stateless_raise {A} (e : Exn) : stateless (@raise A e).
Proof. exists (Raise e). reflexivity. Qed.

Lemma stateless_bind {A B} (m : M A) (k : A -> M B) :
  stateless m -> (forall a, stateless (k a)) -> stateless (bind m k).
Proof.
  intros [[a|e] Hm] Hk.
  - destruct (Hk a) as [o Ho]. exists o. intros w.
    unfold bind. rewrite Hm. apply Ho.
  - exists (Raise e). intros w. unfold bind. rewrite Hm. reflexivity.
Qed.

Lemma stateless_getitem {A} (k : string) (o : option A) : stateless (getitem k o).
Proof. destruct o; [apply stateless_ret | apply stateless_raise]. Qed.

Lemma stateless_run {A} (m : M A) (w : World) o w' :
  stateless m -> m w = (o, w') -> w' = w /\ forall v, m v = (o, v).
Proof.
  intros [o' Ho] Hm. rewrite Ho in Hm. inversion Hm; subst.
  split; [reflexivity|exact Ho].
Qed.

Lemma stateless_tweet_of users (tweet : RawTweet) : stateless (tweet_of users tweet).
Proof.
  unfold tweet_of.
  repeat (apply stateless_bind; [apply stateless_getitem | intro]).
  apply stateless_ret.
Qed.

(** ** Social posts *)

Lemma tweet_of_likes users (p : RawTweet) (t : Tweet) :
  normalises users p t -> tweet_likes t = likes_of p.
Proof.
  intros Hn. specialize (Hn sample_world). revert Hn.
  unfold tweet_of, likes_of, getitem, bind, ret, raise.
  destruct (rt_author_id p); [|discriminate].
  destruct (rt_text p); [|discriminate].
  destruct (rt_created_at p); [|discriminate].
  destruct (rt_id p); [|discriminate].
  intros H. inversion H. reflexivity.
Qed.

(** The loop keeps, in order, the normalised form of every post with
    enough likes, and nothing else. *)
Lemma collect_tweets_kept users (min_likes : Z) (data : list RawTweet) :
  forall tweets kept v v',
    collect_tweets users min_likes data tweets v = (Ret kept, v') ->
    exists new,
      kept = tweets ++ new
      /\ Forall2 (normalises users) (filter (enough_likes min_likes) data) new.
Proof.
  induction data as [|p data IH]; intros tweets kept v v' Hrun; simpl in *.
  - inversion Hrun; subst. exists []. rewrite app_nil_r. split; constructor.
  - destruct (enough_likes min_likes p).
    + apply bind_ret_inv in Hrun. destruct Hrun as (t & v1 & Ht & Hrest).
      destruct (stateless_run _ _ _ _ (stateless_tweet_of users p) Ht)
        as [-> Hall].
      destruct (IH _ _ _ _ Hrest) as (new & -> & Hnew).
      exists (t :: new). rewrite <- app_assoc. split; [reflexivity|].
      constructor; [exact Hall|exact Hnew].
    + exact (IH _ _ _ _ Hrun).
Qed.

(** What a successful call of [fetch_twitter_trends] went through. *)
Lemma fetch_twitter_trends_success
      (E : Env) hashtags (min_likes days_back : Z) (w : World) ok w' :
  fetch_twitter_trends E hashtags min_likes days_back w = (Ret (Success ok), w') ->
  exists response data users kept,
    twitter_api E (twitter_request E hashtags) = inr response
    /\ json_body response = inr data
    /\ Forall2 (normalises users)
               (filter (enough_likes min_likes) (or_default (td_data data) []))
               kept
    /\ tweets_count ok = len (sort_desc engagement kept)
    /\ trending_tweets ok = firstn 10 (sort_desc engagement kept).
Proof.
  intros Hrun. unfold fetch_twitter_trends in Hrun.
  apply safe_api_call_success in Hrun.
  destruct (rate_limit_run 15 L_twitter
              (fetch_twitter_trends_body E hashtags min_likes days_back) w
              ltac:(lia)) as (wa & _ & _ & Hr).
  rewrite Hr in Hrun. clear Hr. unfold fetch_twitter_trends_body in Hrun.
  destruct (negb (truthy (TWITTER_BEARER_TOKEN E))); [discriminate Hrun|].
  apply bind_ret_inv in Hrun. destruct Hrun as (response & w1 & Hreq & Hrun).
  destruct (request_run (twitter_api E) (twitter_request E hashtags) wa)
    as (w1' & _ & Hreq').
  rewrite Hreq' in Hreq. clear Hreq'.
  destruct (twitter_api E (twitter_request E hashtags)) as [e|response0] eqn:Hapi;
    [discriminate Hreq|].
  inversion Hreq; subst response0 w1'. clear Hreq.
  apply bind_ret_inv in Hrun. destruct Hrun as ([] & w2 & _ & Hrun).
  apply bind_ret_inv in Hrun. destruct Hrun as (data & w3 & Hjson & Hrun).
  unfold response_json in Hjson.
  destruct (json_body response) as [e|data0] eqn:Hbody; [discriminate Hjson|].
  inversion Hjson; subst data0 w3. clear Hjson.
  apply bind_ret_inv in Hrun. destruct Hrun as (users & w4 & _ & Hrun).
  apply bind_ret_inv in Hrun. destruct Hrun as (tweets & w5 & Hcollect & Hrun).
  destruct (collect_tweets_kept _ _ _ _ _ _ _ Hcollect) as (kept & -> & Hkept).
  cbv zeta in Hrun.
  apply bind_ret_inv in Hrun. destruct Hrun as ([] & w6 & _ & Hrun).
  inversion Hrun; subst. simpl.
  exists response, data, users, kept. repeat split; try assumption; reflexivity.
Qed.

Lemma enough_likes_spec (min_likes : Z) (p : RawTweet) :
  enough_likes min_likes p = true <-> min_likes <= likes_of p.
Proof. unfold enough_likes, likes_of. apply Z.leb_le. Qed.

Lemma kept_have_enough_likes users (min_likes : Z) (posts : list RawTweet) kept :
  Forall2 (normalises users) (filter (enough_likes min_likes) posts) kept ->
  Forall (fun t => min_likes <= tweet_likes t) kept.
Proof.
  intros H.
  assert (Hp : Forall (fun p => enough_likes min_likes p = true)
                      (filter (enough_likes min_likes) posts)).
  { apply Forall_forall. intros p Hin. apply filter_In in Hin. apply Hin. }
  induction H as [|p t ps ts Hpt _ IH]; constructor.
  - inversion Hp; subst.
    rewrite (tweet_of_likes users p t Hpt). apply enough_likes_spec. assumption.
  - apply IH. inversion Hp; assumption.
Qed.

Lemma Forall_firstn {A} (P : A -> Prop) (n : nat) (l : list A) :
  Forall P l -> Forall P (firstn n l).
Proof.
  revert l. induction n as [|n IH]; intros l H; simpl.
  - constructor.
  - destruct H; constructor; auto.
Qed.

(** C8. After a successful call of [fetch_twitter_trends], the posts kept
    are, one for one and in order, the normalised forms of the fetched
    posts whose like count is at least [min_likes]; [trending_tweets] is
    the first 10 of a rearrangement of the kept posts that is in descending
    order of [likes + 2 * retweets]. Every returned post has at least
    [min_likes] likes, and at most 10 are returned. *)
Theorem trending_filtered_sorted_top10
        (E : Env) hashtags (min_likes days_back : Z) (w : World) ok w' :
  fetch_twitter_trends E hashtags min_likes days_back w = (Ret (Success ok), w') ->
  exists response data users kept sorted,
    twitter_api E (twitter_request E hashtags) = inr response
    /\ json_body response = inr data
    /\ (forall p, enough_likes min_likes p = true <-> min_likes <= likes_of p)
    /\ Forall2 (normalises users)
               (filter (enough_likes min_likes) (or_default (td_data data) []))
               kept
    /\ Permutation kept sorted
    /\ descending engagement sorted
    /\ trending_tweets ok = firstn 10 sorted
    /\ Forall (fun t => min_likes <= tweet_likes t) (trending_tweets ok)
    /\ (List.length (trending_tweets ok) <= 10)%nat.
Proof.
  intros Hrun.
  destruct (fetch_twitter_trends_success _ _ _ _ _ _ _ Hrun)
    as (response & data & users & kept & Hapi & Hjson & Hkept & _ & Htop).
  exists response, data, users, kept, (sort_desc engagement kept).
  repeat split; try assumption.
  - apply enough_likes_spec.
  - apply enough_likes_spec.
  - apply sort_desc_perm.
  - apply sort_desc_sorted.
  - rewrite Htop. apply Forall_firstn.
    apply (Permutation_Forall (sort_desc_perm engagement kept)).
    exact (kept_have_enough_likes users min_likes _ kept Hkept).
  - rewrite Htop. apply firstn_le_length.
Qed.

Lemma trending_filtered_sorted_top10_witness :
  exists ok w',
    fetch_twitter_trends env_all_up None 100 7 sample_world = (Ret (Success ok), w')
    /\ Forall (fun t => 100 <= tweet_likes t) (trending_tweets ok)
    /\ map tweet_likes (trending_tweets ok) = [300; 150]
    /\ map engagement (trending_tweets ok) = [300; 152].
Proof.
  destruct (fetch_twitter_trends env_all_up None 100 7 sample_world)
    as [o w'] eqn:Hrun.
  pose proof (f_equal fst Hrun) as Ho. cbn [fst] in Ho.
  vm_compute in Ho. subst o.
  eexists. exists w'. split; [reflexivity|].
  destruct (trending_filtered_sorted_top10 _ _ _ _ _ _ _ Hrun)
    as (_ & _ & _ & _ & _ & _ & _ & _ & _ & _ & _ & _ & Hlikes & _).
  split; [exact Hlikes|]. split; reflexivity.
Defined.

(** C10. After a successful call of [fetch_twitter_trends], [count] is the
    number of fetched posts that passed the [min_likes] filter, not the
    number of posts returned: [trending_tweets] has [min(10, count)]
    entries, so that [count] exceeds the number of returned posts as soon
    as more than 10 posts pass the filter. *)
Theorem count_precedes_truncation
        (E : Env) hashtags (min_likes days_back : Z) (w : World) ok w' :
  fetch_twitter_trends E hashtags min_likes days_back w = (Ret (Success ok), w') ->
  exists response data,
    twitter_api E (twitter_request E hashtags) = inr response
    /\ json_body response = inr data
    /\ tweets_count ok
       = len (filter (enough_likes min_likes) (or_default (td_data data) []))
    /\ len (trending_tweets ok) = Z.min 10 (tweets_count ok)
    /\ (10 < tweets_count ok -> len (trending_tweets ok) < tweets_count ok).
Proof.
  intros Hrun.
  destruct (fetch_twitter_trends_success _ _ _ _ _ _ _ Hrun)
    as (response & data & users & kept & Hapi & Hjson & Hkept & Hcount & Htop).
  exists response, data. split; [exact Hapi|]. split; [exact Hjson|].
  assert (Hc : tweets_count ok
               = len (filter (enough_likes min_likes) (or_default (td_data data) []))).
  { rewrite Hcount. unfold len. rewrite sort_desc_length.
    rewrite (Forall2_length Hkept). reflexivity. }
  assert (Hl : len (trending_tweets ok) = Z.min 10 (tweets_count ok)).
  { rewrite Htop, Hcount. unfold len. rewrite length_firstn. lia. }
  split; [exact Hc|]. split; [exact Hl|]. lia.
Qed.

Lemma count_precedes_truncation_witness :
  exists ok w',
    fetch_twitter_trends env_twelve_posts None 100 7 sample_world
    = (Ret (Success ok), w')
    /\ tweets_count ok = 12
    /\ len (trending_tweets ok) = 10
    /\ len (trending_tweets ok) < tweets_count ok.
Proof.
  destruct (fetch_twitter_trends env_twelve_posts None 100 7 sample_world)
    as [o w'] eqn:Hrun.
  pose proof (f_equal fst Hrun) as Ho. cbn [fst] in Ho.
  vm_compute in Ho. subst o.
  eexists. exists w'. split; [reflexivity|].
  destruct (count_precedes_truncation _ _ _ _ _ _ _ Hrun)
    as (_ & _ & _ & _ & _ & _ & Hlt).
  split; [reflexivity|]. split; [reflexivity|]. apply Hlt. reflexivity.
Defined.
(** ** Papers *)

(** With a positive [max_results], the loop returns the first
    [max_results] candidates of the lookback window. *)
Lemma collect_papers_firstn (E : Env) (date_threshold max_results : Z)
      (results : list ArxivResult) (tail : option Exn) :
  1 <= max_results ->
  forall papers found,
    len papers < max_results ->
    collect_papers E date_threshold max_results results tail papers = Ret found ->
    found = firstn (Z.to_nat max_results)
              (papers ++ map (paper_of E)
                           (filter (fun r => date_threshold <=? ar_published r)
                                   results)).
Proof.
  intros Hmax. unfold len.
  induction results as [|r rest IH]; intros papers found Hlen Hrun; simpl in Hrun;
    simpl filter.
  - destruct tail; [discriminate|]. inversion Hrun; subst.
    rewrite app_nil_r. symmetry. apply firstn_all2. lia.
  - destruct (date_threshold <=? ar_published r).
    + assert (Hone : List.length (papers ++ [paper_of E r])
                     = S (List.length papers))
        by (rewrite length_app; simpl; lia).
      unfold len in Hrun.
      destruct (Z.leb_spec max_results
                  (Z.of_nat (List.length (papers ++ [paper_of E r]))))
        as [Hfull|Hmore].
      * inversion Hrun; subst found. simpl map.
        replace (papers ++ paper_of E r
                   :: map (paper_of E)
                        (filter (fun r0 => date_threshold <=? ar_published r0) rest))
          with ((papers ++ [paper_of E r])
                  ++ map (paper_of E)
                       (filter (fun r0 => date_threshold <=? ar_published r0) rest))
          by (rewrite <- app_assoc; reflexivity).
        rewrite firstn_app.
        replace (Z.to_nat max_results - List.length (papers ++ [paper_of E r]))%nat
          with 0%nat by lia.
        simpl firstn at 2. rewrite app_nil_r. symmetry. apply firstn_all2. lia.
      * rewrite (IH (papers ++ [paper_of E r]) found ltac:(lia) Hrun).
        rewrite <- app_assoc. reflexivity.
    + exact (IH _ _ Hlen Hrun).
Qed.

(** What a successful call of [search_arxiv_papers] went through. *)
Lemma search_arxiv_papers_success
      (E : Env) (query : string) (max_results days_back : Z) (w : World) ok w' :
  search_arxiv_papers E query max_results days_back w = (Ret (Success ok), w') ->
  exists now,
    collect_papers E (now - days_back * US_PER_DAY) max_results
                   (fst (arxiv_api E (arxiv_request query max_results)))
                   (snd (arxiv_api E (arxiv_request query max_results))) []
    = Ret (papers ok)
    /\ papers_count ok = len (papers ok)
    /\ network w' = network w ++ [arxiv_request query max_results].
Proof.
  intros Hrun. unfold search_arxiv_papers in Hrun.
  apply safe_api_call_success in Hrun.
  destruct (rate_limit_run 30 L_arxiv
              (search_arxiv_papers_body E query max_results days_back) w
              ltac:(lia)) as (wa & _ & Hna & Hr).
  rewrite Hr in Hrun. clear Hr. unfold search_arxiv_papers_body in Hrun.
  apply bind_ret_inv in Hrun. destruct Hrun as (now & w1 & Hnow & Hrun).
  apply (quiet_run _ _ _ _ (quiet_datetime_now E)) in Hnow.
  apply bind_ret_inv in Hrun. destruct Hrun as (delta & w2 & Hdelta & Hrun).
  assert (Hd : delta = days_back * US_PER_DAY /\ w2 = w1).
  { unfold timedelta_days in Hdelta.
    destruct (Z.abs days_back <=? 999999999); [|discriminate].
    inversion Hdelta. split; reflexivity. }
  destruct Hd as [-> ->]. clear Hdelta.
  apply bind_ret_inv in Hrun. destruct Hrun as (th & w3 & Hth & Hrun).
  assert (Ht : th = now - days_back * US_PER_DAY /\ w3 = w1).
  { unfold datetime_sub in Hth.
    destruct (in_datetime_range _); [|discriminate].
    inversion Hth. split; reflexivity. }
  destruct Ht as [-> ->]. clear Hth.
  cbv zeta in Hrun.
  apply bind_ret_inv in Hrun. destruct Hrun as ([] & w4 & Hsend & Hrun).
  assert (Hn4 : network w4 = network w1 ++ [arxiv_request query max_results]).
  { unfold send in Hsend. inversion Hsend. rewrite tick_network. reflexivity. }
  clear Hsend.
  apply bind_ret_inv in Hrun. destruct Hrun as (found & w5 & Hfound & Hrun).
  unfold lift_outcome in Hfound. inversion Hfound; subst w5. clear Hfound.
  apply bind_ret_inv in Hrun. destruct Hrun as ([] & w6 & Hlog & Hrun).
  unfold logger in Hlog. inversion Hlog; subst w6. clear Hlog.
  inversion Hrun; subst. simpl.
  exists now. repeat split; try assumption.
  rewrite Hn4, Hnow, Hna. reflexivity.
Qed.

(** With a positive [max_results], a successful call has asked the
    provider for [2 * max_results] candidates and returns the first
    [max_results] of the candidates published since the threshold. *)
Lemma papers_filtered_and_truncated
      (E : Env) (query : string) (max_results days_back : Z) (w : World) ok w' :
  1 <= max_results ->
  search_arxiv_papers E query max_results days_back w = (Ret (Success ok), w') ->
  exists date_threshold,
    network w' = network w ++ [ArxivSearch query (max_results * 2) "SubmittedDate"]
    /\ papers ok
       = firstn (Z.to_nat max_results)
           (map (paper_of E)
                (filter (fun r => date_threshold <=? ar_published r)
                        (fst (arxiv_api E (arxiv_request query max_results)))))
    /\ len (papers ok) <= max_results.
Proof.
  intros Hmax Hrun.
  destruct (search_arxiv_papers_success _ _ _ _ _ _ _ Hrun)
    as (now & Hloop & _ & Hnet).
  exists (now - days_back * US_PER_DAY). split; [exact Hnet|].
  pose proof (collect_papers_firstn E _ max_results _ _ Hmax [] _
                ltac:(unfold len; simpl; lia) Hloop) as Hp.
  simpl in Hp. split; [exact Hp|].
  rewrite Hp. unfold len. pose proof (firstn_le_length (Z.to_nat max_results)
    (map (paper_of E)
       (filter (fun r => now - days_back * US_PER_DAY <=? ar_published r)
          (fst (arxiv_api E (arxiv_request query max_results)))))). lia.
Qed.

(** 25 candidates, 4 of them in the lookback window, [max_results = 10]:
    4 papers. *)
Lemma papers_of_feed_25 :
  exists ok w',
    search_arxiv_papers env_feed_25 "artificial intelligence" 10 7 sample_world
    = (Ret (Success ok), w')
    /\ List.length feed_25 = 25%nat
    /\ papers_count ok = 4 /\ len (papers ok) = 4.
Proof.
  destruct (search_arxiv_papers env_feed_25 "artificial intelligence" 10 7
                                sample_world) as [o w'] eqn:Hrun.
  pose proof (f_equal fst Hrun) as Ho. cbn [fst] in Ho.
  vm_compute in Ho. subst o.
  eexists. exists w'. split; [reflexivity|]. repeat split.
Qed.

(** C9 fails at [max_results = 0]: the loop tests [len(papers) >=
    max_results] only after it has appended a paper, so that a call with
    [max_results = 0] on a feed that yields a recent candidate returns one
    paper, and a [count] of 1. *)
Theorem zero_max_results_returns_a_paper :
  exists ok w',
    search_arxiv_papers env_all_up "artificial intelligence" 0 7 sample_world
    = (Ret (Success ok), w')
    /\ network w' = [ArxivSearch "artificial intelligence" 0 "SubmittedDate"]
    /\ papers_count ok = 1
    /\ len (papers ok) = 1
    /\ ~ len (papers ok) <= 0.
Proof.
  destruct (search_arxiv_papers env_all_up "artificial intelligence" 0 7
                                sample_world) as [o w'] eqn:Hrun.
  pose proof (f_equal fst Hrun) as Ho. cbn [fst] in Ho.
  pose proof (f_equal (fun p => network (snd p)) Hrun) as Hn. cbn [snd] in Hn.
  vm_compute in Ho. vm_compute in Hn. subst o.
  eexists. exists w'. split; [reflexivity|]. split; [symmetry; exact Hn|].
  repeat split. simpl. unfold len. simpl. lia.
Qed.

(** * Further properties of the rate limiter *)

(** X1. A limiter configured with a budget of zero calls per minute never
    admits a call: the wrapper raises [ZeroDivisionError] before the
    decorated function runs, whatever that function is, leaving the
    limiter's cell, the sleep log and the network as they were; behind
    [safe_api_call] the caller gets the error dictionary of that
    exception. *)
Theorem zero_budget_admits_nothing {S} (name : string) (l : Limiter)
        (func : M (Reply S)) (w : World) :
  rate_limit 0 l func w = (Raise ZeroDivisionError, tick w)
  /\ exists w',
       safe_api_call name (rate_limit 0 l func) w
       = (Ret (Error "Unexpected error: float division by zero"), w')
       /\ network w' = network w
       /\ last_called w' = last_called w
       /\ slept w' = slept w.
Proof.
  assert (Hrun : rate_limit 0 l func w = (Raise ZeroDivisionError, tick w))
    by reflexivity.
  split; [exact Hrun|].
  unfold safe_api_call, try_except. rewrite Hrun.
  eexists. split; [reflexivity|]. simpl.
  rewrite tick_network, tick_last_called, tick_slept. repeat split.
Qed.

(** X2. On a clock that does not go back, with a positive budget [C] and
    a last admission that lies in the past, [acquire] on one limiter
    leaves the cell of every other limiter untouched, asks for at most
    [60/C] seconds of sleep in all, asks for none when [60/C] seconds have
    already passed, and sends nothing to the network. *)
Theorem acquire_is_local_and_bounded (C : Z) (l : Limiter) (w : World) :
  0 < C -> steady w -> (last_called w l <= clock w)%Q ->
  exists w',
    acquire C l w = (Ret tt, w')
    /\ (forall l', l' <> l -> last_called w' l' = last_called w l')
    /\ (total_slept w' - total_slept w <= 60 / inject_Z C)%Q
    /\ ((60 / inject_Z C <= clock (tick w) - last_called w l)%Q ->
        slept w' = slept w)
    /\ network w' = network w.
Proof.
  intros HC Hw Hpast.
  destruct (acquire_run C l w ltac:(lia) Hw)
    as (w' & Ha & Hs & _ & Hl & _ & _ & Hn & _).
  exists w'. split; [exact Ha|]. split; [exact Hl|].
  pose proof (tick_clock w Hw) as Ht.
  unfold total_slept. rewrite Hs. unfold deficit.
  set (spacing := (60 / inject_Z C)%Q).
  assert (Hpos : (0 <= spacing)%Q).
  { unfold spacing. apply Qle_shift_div_l.
    - change 0%Q with (inject_Z 0). rewrite <- Zlt_Qlt. exact HC.
    - rewrite Qmult_0_l. discriminate. }
  clearbody spacing.
  destruct (Qlt_le_dec 0 (spacing - (clock (tick w) - last_called w l)))
    as [Hlt|Hle].
  - split; [|split; [|exact Hn]].
    + rewrite fold_Qplus_app. lra.
    + intros Hgone. lra.
  - rewrite app_nil_r. split; [|split; [|exact Hn]].
    + lra.
    + intros _. reflexivity.
Qed.

Lemma acquire_is_local_and_bounded_witness :
  0 < 30 /\ steady busy_world
  /\ (last_called busy_world L_github <= clock busy_world)%Q
  /\ exists w',
       acquire 30 L_github busy_world = (Ret tt, w')
       /\ last_called w' L_twitter = last_called busy_world L_twitter
       /\ (total_slept w' - total_slept busy_world <= 60 / inject_Z 30)%Q.
Proof.
  assert (H0 : 0 < 30) by lia.
  assert (H1 : (last_called busy_world L_github <= clock busy_world)%Q)
    by (unfold Qle; simpl; lia).
  destruct (acquire_is_local_and_bounded 30 L_github busy_world H0
              busy_world_steady H1) as (w' & Ha & Hl & Hs & _).
  split; [exact H0|]. split; [exact busy_world_steady|]. split; [exact H1|].
  exists w'. split; [exact Ha|]. split; [|exact Hs].
  apply Hl. discriminate.
Defined.

(** * Further properties of the aggregator *)

Lemma lefts_rights_length {A B} (l : list (A + B)) :
  (List.length (lefts l) + List.length (rights l) = List.length l)%nat.
Proof. induction l as [|[a|b] l IH]; simpl; lia. Qed.

Section BatchMore.

Variable a1 : M (Reply PapersOk).
Variable a2 : M (Reply ReposOk).
Variable a3 : M (Reply ProductsOk).
Variable a4 : M (Reply TweetsOk).
Variables ph tw : bool.
Variable cfg : ConfigDict.
Variable w : World.

Let w0 := snd (logger "Starting batch research fetch..." w).
Let r1 := a1 w0.
Let r2 := a2 (snd r1).
Let r3 := a3 (snd r2).
Let w3 := if ph then snd r3 else snd r2.
Let r4 := a4 w3.
Let w4 := if tw then snd r4 else w3.
Let vs :=
  [verdict "Papers" "papers" (fun ok => PaperItems (papers ok)) (fst r1);
   verdict "Repos" "repositories" (fun ok => RepoItems (repositories ok)) (fst r2)]
  ++ (if ph
      then [verdict "Products" "products"
              (fun ok => ProductItems (products ok)) (fst r3)]
      else [])
  ++ (if tw
      then [verdict "Tweets" "tweets"
              (fun ok => TweetItems (trending_tweets ok)) (fst r4)]
      else []).

Lemma batch_counts (run : Outcome BatchReply * World) :
  run = (Ret (Batch (batch_of vs cfg)), snd (logger (batch_log vs) w4)) ->
  exists b w',
    run = (Ret (Batch b), w')
    /\ sources_fetched b + len (errors b)
       = 2 + (if ph then 1 else 0) + (if tw then 1 else 0)
    /\ 0 <= sources_fetched b.
Proof.
  intros ->. eexists. eexists. split; [reflexivity|].
  pose proof (lefts_rights_length vs) as Hl.
  assert (Hv : List.length vs
               = (2 + (if ph then 1 else 0) + (if tw then 1 else 0))%nat)
    by (subst vs; destruct ph, tw; reflexivity).
  clearbody vs.
  unfold batch_of, len; cbn [sources_fetched errors research_data].
  destruct ph, tw; lia.
Qed.

Lemma batch_skips (run : Outcome BatchReply * World) :
  ph = false -> tw = false ->
  run = (Ret (Batch (batch_of vs cfg)), snd (logger (batch_log vs) w4)) ->
  exists b line,
    run = (Ret (Batch b), snd (logger line (snd r2)))
    /\ research_data b
       = lefts [verdict "Papers" "papers"
                  (fun ok => PaperItems (papers ok)) (fst r1);
                verdict "Repos" "repositories"
                  (fun ok => RepoItems (repositories ok)) (fst r2)]
    /\ errors b
       = rights [verdict "Papers" "papers"
                   (fun ok => PaperItems (papers ok)) (fst r1);
                 verdict "Repos" "repositories"
                   (fun ok => RepoItems (repositories ok)) (fst r2)]
    /\ dict_get "products" (research_data b) = None
    /\ dict_get "tweets" (research_data b) = None.
Proof.
  subst vs w4 r4 w3. intros Hph Htw ->. rewrite Hph, Htw.
  eexists. eexists. split; [reflexivity|].
  cbn [app]. split; [reflexivity|]. split; [reflexivity|].
  unfold batch_of; cbn [research_data].
  destruct (fst r1) as [[ok1|m1]|e1]; destruct (fst r2) as [[ok2|m2]|e2];
    split; reflexivity.
Qed.

Hypothesis one1 : sends_at_most_one a1.
Hypothesis one2 : sends_at_most_one a2.
Hypothesis one3 : sends_at_most_one a3.
Hypothesis one4 : sends_at_most_one a4.

Lemma batch_requests (run : Outcome BatchReply * World) :
  run = (Ret (Batch (batch_of vs cfg)), snd (logger (batch_log vs) w4)) ->
  exists b w' sent,
    run = (Ret (Batch b), w')
    /\ network w' = network w ++ sent
    /\ Z.of_nat (List.length sent)
       <= 2 + (if ph then 1 else 0) + (if tw then 1 else 0).
Proof.
  intros ->.
  destruct (one1 w0) as (s1 & N1 & L1). fold r1 in N1.
  destruct (one2 (snd r1)) as (s2 & N2 & L2). fold r2 in N2.
  destruct (one3 (snd r2)) as (s3 & N3 & L3). fold r3 in N3.
  assert (H3 : exists s, network w3 = network w ++ s
                         /\ Z.of_nat (List.length s)
                            <= 2 + (if ph then 1 else 0)).
  { subst w3. destruct ph.
    - exists (s1 ++ s2 ++ s3). rewrite N3, N2, N1. subst w0. simpl.
      rewrite <- !app_assoc. split; [reflexivity|].
      rewrite !length_app. lia.
    - exists (s1 ++ s2). rewrite N2, N1. subst w0. simpl.
      rewrite <- !app_assoc. split; [reflexivity|].
      rewrite !length_app. lia. }
  destruct H3 as (s & N & L).
  destruct (one4 w3) as (s4 & N4 & L4). fold r4 in N4.
  eexists. eexists.
  exists (if tw then s ++ s4 else s).
  split; [reflexivity|]. simpl. subst w4. destruct tw.
  - rewrite N4, N, <- app_assoc. split; [reflexivity|].
    rewrite length_app. destruct ph; lia.
  - split; [exact N|]. destruct ph; lia.
Qed.

End BatchMore.

(** X3. Every source that [fetch_all_research] calls contributes exactly
    one thing, an entry of [research_data] or a line of [errors]:
    [sources_fetched] plus the number of errors is the number of configured
    sources (the two mandatory ones, plus one for each optional credential
    that is set). *)
Theorem every_source_is_accounted_for
        (E : Env) (config : option ConfigDict) (w : World) :
  exists b w',
    fetch_all_research E config w = (Ret (Batch b), w')
    /\ sources_fetched b + len (errors b) = configured_sources E
    /\ 0 <= sources_fetched b.
Proof.
  exact (batch_counts _ _ _ _ _ _ _ w _ (fetch_all_research_run E config w)).
Qed.

(** X4. With neither optional credential configured,
    [fetch_all_research] stops after the code host: the world it leaves is
    the one the second adapter left, plus a log line; [research_data] and
    [errors] hold what the paper search and the code host contributed and
    nothing about products or tweets, not even an error line. *)
Theorem unconfigured_sources_are_skipped
        (E : Env) (config : option ConfigDict) (w : World) :
  truthy (PRODUCT_HUNT_API_KEY E) = false ->
  truthy (TWITTER_BEARER_TOKEN E) = false ->
  let cfg := or_default config default_config in
  let w0 := snd (logger "Starting batch research fetch..." w) in
  let r1 := search_arxiv_papers E "artificial intelligence"
              (config_get cfg "max_papers" 10) (config_get cfg "days_back" 7) w0 in
  let r2 := fetch_github_trending E "python" "weekly" "artificial-intelligence"
              (snd r1) in
  exists b line,
    fetch_all_research E config w = (Ret (Batch b), snd (logger line (snd r2)))
    /\ research_data b
       = lefts [verdict "Papers" "papers"
                  (fun ok => PaperItems (papers ok)) (fst r1);
                verdict "Repos" "repositories"
                  (fun ok => RepoItems (repositories ok)) (fst r2)]
    /\ errors b
       = rights [verdict "Papers" "papers"
                   (fun ok => PaperItems (papers ok)) (fst r1);
                 verdict "Repos" "repositories"
                   (fun ok => RepoItems (repositories ok)) (fst r2)]
    /\ dict_get "products" (research_data b) = None
    /\ dict_get "tweets" (research_data b) = None.
Proof.
  intros Hph Htw.
  exact (batch_skips _ _ _ _ _ _ _ w _ Hph Htw
           (fetch_all_research_run E config w)).
Qed.

Lemma unconfigured_sources_are_skipped_witness :
  truthy (PRODUCT_HUNT_API_KEY env_quiet) = false
  /\ truthy (TWITTER_BEARER_TOKEN env_quiet) = false
  /\ exists b w',
       fetch_all_research env_quiet None sample_world = (Ret (Batch b), w')
       /\ dict_get "products" (research_data b) = None
       /\ dict_get "tweets" (research_data b) = None.
Proof.
  split; [reflexivity|]. split; [reflexivity|].
  destruct (unconfigured_sources_are_skipped env_quiet None sample_world
              eq_refl eq_refl) as (b & line & Hrun & _ & _ & Hp & Ht).
  exists b. eexists. split; [exact Hrun|]. split; assumption.
Defined.

Lemma wrapped_sends_at_most_one {S} (name : string) (C : Z) (l : Limiter)
      (body : M (Reply S)) fails :
  C <> 0 -> one_request fails body ->
  sends_at_most_one (safe_api_call name (rate_limit C l body)).
Proof.
  intros HC Hone v.
  destruct (rate_limit_run C l body v HC) as (wa & _ & Hna & Hr).
  destruct (body wa) as [o w1] eqn:Hb.
  assert (Hw : network (snd (safe_api_call name (rate_limit C l body) v))
               = network w1).
  { destruct o as [r|e].
    - rewrite (safe_api_call_ret name _ v r w1 Hr). reflexivity.
    - destruct (safe_api_call_raise name _ v e w1 Hr) as (w2 & -> & Hn2).
      exact Hn2. }
  rewrite Hw.
  destruct (Hone wa o w1 Hb) as [Hsame|(req & Hsent & _)].
  - exists []. rewrite Hsame, Hna, app_nil_r. split; [reflexivity|simpl; lia].
  - exists [req]. rewrite Hsent, Hna. split; [reflexivity|simpl; lia].
Qed.

(** X5. No source is ever asked twice: each of the four adapters sends at
    most one request per call, failed or not, and a call of
    [fetch_all_research] only appends to the list of requests sent, at most
    one request for each configured source. *)
Theorem no_source_is_retried (E : Env) :
  (forall query max_results days_back,
      sends_at_most_one (search_arxiv_papers E query max_results days_back))
  /\ (forall language timeframe topic,
         sends_at_most_one (fetch_github_trending E language timeframe topic))
  /\ (forall days_back limit,
         sends_at_most_one (search_product_hunt E days_back limit))
  /\ (forall hashtags min_likes days_back,
         sends_at_most_one (fetch_twitter_trends E hashtags min_likes days_back))
  /\ (forall config w,
         exists b w' sent,
           fetch_all_research E config w = (Ret (Batch b), w')
           /\ network w' = network w ++ sent
           /\ len sent <= configured_sources E).
Proof.
  assert (H1 : forall query max_results days_back,
             sends_at_most_one (search_arxiv_papers E query max_results days_back)).
  { intros. apply (wrapped_sends_at_most_one _ _ _ _ (arxiv_failure E));
      [lia | apply one_request_arxiv]. }
  assert (H2 : forall language timeframe topic,
             sends_at_most_one (fetch_github_trending E language timeframe topic)).
  { intros. apply (wrapped_sends_at_most_one _ _ _ _ (wire_failure (github_api E)));
      [lia | apply one_request_github]. }
  assert (H3 : forall days_back limit,
             sends_at_most_one (search_product_hunt E days_back limit)).
  { intros.
    apply (wrapped_sends_at_most_one _ _ _ _ (wire_failure (product_hunt_api E)));
      [lia | apply one_request_product_hunt]. }
  assert (H4 : forall hashtags min_likes days_back,
             sends_at_most_one (fetch_twitter_trends E hashtags min_likes days_back)).
  { intros.
    apply (wrapped_sends_at_most_one _ _ _ _ (wire_failure (twitter_api E)));
      [lia | apply one_request_twitter]. }
  repeat split; try assumption.
  intros config w.
  exact (batch_requests _ _ _ _ _ _ _ w (H1 _ _ _) (H2 _ _ _) (H3 _ _) (H4 _ _ _)
           _ (fetch_all_research_run E config w)).
Qed.





(** * Further properties of the paper search *)

Lemma str_prefix_length (n : nat) (s : string) :
  (String.length (str_prefix n s) <= n)%nat.
Proof.
  unfold str_prefix. revert s.
  induction n as [|n IH]; intros s; destruct s as [|c s]; simpl; try lia.
  specialize (IH s). lia.
Qed.

Lemma str_prefix_short (n : nat) (s : string) :
  (String.length s <= n)%nat -> str_prefix n s = s.
Proof.
  unfold str_prefix. revert s.
  induction n as [|n IH]; intros s Hs; destruct s as [|c s]; simpl in *;
    try reflexivity; try lia.
  rewrite IH by lia. reflexivity.
Qed.







Lemma papers_filtered_and_truncated_witness :
  1 <= 10
  /\ exists ok w',
       search_arxiv_papers env_feed_25 "artificial intelligence" 10 7 sample_world
       = (Ret (Success ok), w')
       /\ network w'
          = network sample_world
              ++ [ArxivSearch "artificial intelligence" (10 * 2) "SubmittedDate"]
       /\ len (papers ok) <= 10.
Proof.
  split; [lia|].
  destruct (search_arxiv_papers env_feed_25 "artificial intelligence" 10 7
                                sample_world) as [o w'] eqn:Hrun.
  pose proof (f_equal fst Hrun) as Ho. cbn [fst] in Ho.
  vm_compute in Ho. subst o.
  eexists. exists w'. split; [reflexivity|].
  assert (H1 : 1 <= 10) by lia.
  destruct (papers_filtered_and_truncated env_feed_25 "artificial intelligence"
              10 7 sample_world _ w' H1 Hrun)
    as (th & Hnet & _ & Hlen).
  split; [exact Hnet|exact Hlen].
Defined.

Lemma in_datetime_range_spec (t : Z) :
  in_datetime_range t = true <-> 0 <= t <= DATETIME_MAX.
Proof. unfold in_datetime_range. rewrite andb_true_iff, !Z.leb_le. tauto. Qed.

(** X9. A lookback of 3652059 days or more in either direction (more than
    the whole range of [datetime]) cannot be subtracted from the current
    date: [search_arxiv_papers] returns an error dictionary and sends
    nothing to the provider. *)
Theorem lookback_out_of_range_is_an_error
        (E : Env) (query : string) (max_results days_back : Z) (w : World) :
  3652059 <= Z.abs days_back ->
  exists m w',
    search_arxiv_papers E query max_results days_back w = (Ret (Error m), w')
    /\ network w' = network w.
Proof.
  intros Hbig. unfold search_arxiv_papers.
  destruct (rate_limit_run 30 L_arxiv
              (search_arxiv_papers_body E query max_results days_back) w
              ltac:(lia)) as (wa & _ & Hna & Hr).
  assert (Hbody : exists e w1,
             search_arxiv_papers_body E query max_results days_back wa
             = (Raise e, w1) /\ network w1 = network wa).
  { unfold search_arxiv_papers_body. unfold bind at 1.
    destruct (datetime_now E wa) as [[now|e] w1] eqn:Hnow.
    - assert (Hq : network w1 = network wa)
        by exact (quiet_run _ _ _ _ (quiet_datetime_now E) Hnow).
      assert (Hrange : 0 <= now <= DATETIME_MAX).
      { unfold datetime_now in Hnow.
        destruct (in_datetime_range _) eqn:Hin; inversion Hnow; subst.
        apply in_datetime_range_spec. exact Hin. }
      unfold bind at 1, timedelta_days.
      destruct (Z.abs days_back <=? 999999999).
      + unfold ret at 1, bind at 1, datetime_sub.
        destruct (in_datetime_range (now - days_back * US_PER_DAY)) eqn:Hin.
        * exfalso. apply in_datetime_range_spec in Hin.
          unfold DATETIME_MAX, US_PER_DAY in *. lia.
        * eexists. eexists. split; [reflexivity|exact Hq].
      + eexists. eexists. split; [reflexivity|exact Hq].
    - eexists. eexists. split; [reflexivity|].
      exact (quiet_run _ _ _ _ (quiet_datetime_now E) Hnow). }
  destruct Hbody as (e & w1 & Hb & Hn1).
  rewrite <- Hr in Hb.
  destruct (safe_api_call_raise "search_arxiv_papers" _ w e w1 Hb)
    as (w' & Hs & Hn').
  exists (failure_message e), w'. split; [exact Hs|].
  rewrite Hn', Hn1, Hna. reflexivity.
Qed.

Lemma lookback_out_of_range_is_an_error_witness :
  3652059 <= Z.abs 4000000
  /\ exists m w',
       search_arxiv_papers env_all_up "artificial intelligence" 10 4000000
                           sample_world
       = (Ret (Error m), w')
       /\ network w' = network sample_world.
Proof.
  split; [simpl; lia|].
  apply lookback_out_of_range_is_an_error. simpl. lia.
Defined.

(** * Further properties of the HTTP adapters *)

Lemma for_each_stateless {A B} (f : A -> M B) (l : list A) :
  (forall a, stateless (f a)) ->
  forall w bs w',
    for_each f l w = (Ret bs, w') ->
    w' = w /\ Forall2 (fun a b => forall v, f a v = (Ret b, v)) l bs.
Proof.
  intros Hf. induction l as [|a l IH]; intros w bs w' Hrun; simpl in Hrun.
  - inversion Hrun; subst. split; [reflexivity|constructor].
  - apply bind_ret_inv in Hrun. destruct Hrun as (b & w1 & Hb & Hrun).
    destruct (stateless_run _ _ _ _ (Hf a) Hb) as [-> Hall].
    apply bind_ret_inv in Hrun. destruct Hrun as (bs' & w2 & Hbs & Hrun).
    destruct (IH _ _ _ Hbs) as [-> Hrest].
    inversion Hrun; subst. split; [reflexivity|].
    constructor; assumption.
Qed.


Lemma stateless_product_of (edge : PHEdge) : stateless (product_of edge).
Proof.
  unfold product_of.
  repeat (apply stateless_bind; [apply stateless_getitem | intro]).
  apply stateless_ret.
Qed.


Lemma product_of_from (edge : PHEdge) (product : Product) :
  (forall v, product_of edge v = (Ret product, v)) -> product_from edge product.
Proof.
  intros H. specialize (H sample_world). revert H.
  unfold product_of, product_from, getitem, bind, ret, raise.
  destruct (pe_node edge) as [node|]; [|discriminate].
  destruct (pn_name node) eqn:H1; [|discriminate].
  destruct (pn_tagline node) eqn:H2; [|discriminate].
  destruct (pn_votesCount node) eqn:H3; [|discriminate].
  destruct (pn_url node) eqn:H4; [|discriminate].
  destruct (pn_createdAt node) eqn:H5; [|discriminate].
  intros H. inversion H. exists node. simpl. repeat split; assumption.
Qed.

Lemma Forall2_impl {A B} (R R' : A -> B -> Prop) (l : list A) (l' : list B) :
  (forall a b, R a b -> R' a b) -> Forall2 R l l' -> Forall2 R' l l'.
Proof. intros HR H. induction H; constructor; auto. Qed.

(** What a successful exchange with an HTTP provider went through. *)
Lemma http_success {P R} (api : Request -> Wire P) (req : Request)
      (rest : P -> M R) (w : World) r w' :
  (response <- request api req ;;
   raise_for_status response ;;;
   data <- response_json response ;;
   rest data) w = (Ret r, w') ->
  exists response data w1,
    api req = inr response
    /\ (400 <=? status_code response) && (status_code response <? 600) = false
    /\ json_body response = inr data
    /\ network w1 = network w ++ [req]
    /\ rest data w1 = (Ret r, w').
Proof.
  intros Hrun.
  destruct (request_run api req w) as (w1 & Hn & Hr).
  unfold bind at 1 in Hrun. rewrite Hr in Hrun. clear Hr.
  destruct (api req) as [e|response]; [discriminate Hrun|].
  unfold bind at 1, raise_for_status in Hrun.
  destruct ((400 <=? status_code response) && (status_code response <? 600))
    eqn:Hcode; [discriminate Hrun|].
  unfold ret at 1, bind at 1, response_json in Hrun.
  destruct (json_body response) as [e|data] eqn:Hjson; [discriminate Hrun|].
  exists response, data, w1. repeat split; try assumption; reflexivity.
Qed.



(** X11. A successful call of [search_product_hunt] had a key configured
    and sent exactly one request, the GraphQL query for the first [limit]
    posts (in which [days_back] plays no part); [products] has one entry
    per edge of the payload, in the provider's order, each the normalised
    form of its edge, with a description of at most 200 characters. *)
Theorem products_mirror_the_payload
        (E : Env) (days_back limit : Z) (w : World) ok w' :
  search_product_hunt E days_back limit w = (Ret (Success ok), w') ->
  exists response data,
    truthy (PRODUCT_HUNT_API_KEY E) = true
    /\ network w' = network w ++ [product_hunt_request E limit]
    /\ product_hunt_api E (product_hunt_request E limit) = inr response
    /\ (400 <=? status_code response) && (status_code response <? 600) = false
    /\ json_body response = inr data
    /\ Forall2 product_from (or_default (pd_edges data) []) (products ok)
    /\ Forall (fun p => (String.length (product_description p) <= 200)%nat)
              (products ok)
    /\ products_count ok = len (or_default (pd_edges data) []).
Proof.
  intros Hrun. unfold search_product_hunt in Hrun.
  apply safe_api_call_success in Hrun.
  destruct (rate_limit_run 20 L_product_hunt
              (search_product_hunt_body E days_back limit) w
              ltac:(lia)) as (wa & _ & Hna & Hr).
  rewrite Hr in Hrun. clear Hr. unfold search_product_hunt_body in Hrun.
  destruct (truthy (PRODUCT_HUNT_API_KEY E)); [|discriminate Hrun].
  cbn [negb] in Hrun.
  apply http_success in Hrun.
  destruct Hrun as (response & data & w1 & Hapi & Hcode & Hjson & Hn1 & Hrun).
  apply bind_ret_inv in Hrun. destruct Hrun as (found & w2 & Hfound & Hrun).
  destruct (for_each_stateless _ _ stateless_product_of _ _ _ Hfound)
    as [-> Hall].
  apply bind_ret_inv in Hrun. destruct Hrun as ([] & w3 & Hlog & Hrun).
  unfold logger in Hlog. inversion Hlog; subst w3. clear Hlog.
  inversion Hrun; subst. cbn [products products_count network].
  assert (Hfrom : Forall2 product_from (or_default (pd_edges data) []) found)
    by exact (Forall2_impl _ _ _ _ product_of_from Hall).
  exists response, data.
  split; [reflexivity|]. split; [rewrite Hn1, Hna; reflexivity|].
  split; [exact Hapi|]. split; [exact Hcode|]. split; [exact Hjson|].
  split; [exact Hfrom|]. split.
  - clear -Hfrom. induction Hfrom as [|edge p edges ps H _ IH];
      constructor; [|exact IH].
    destruct H as (node & _ & _ & _ & _ & _ & _ & ->). apply str_prefix_length.
  - unfold len. rewrite (Forall2_length Hfrom). reflexivity.
Qed.

Lemma products_mirror_the_payload_witness :
  exists ok w',
    search_product_hunt env_all_up 7 10 sample_world = (Ret (Success ok), w')
    /\ products_count ok = 1
    /\ Forall (fun p => (String.length (product_description p) <= 200)%nat)
              (products ok).
Proof.
  destruct (search_product_hunt env_all_up 7 10 sample_world)
    as [o w'] eqn:Hrun.
  pose proof (f_equal fst Hrun) as Ho. cbn [fst] in Ho.
  vm_compute in Ho. subst o.
  eexists. exists w'. split; [reflexivity|].
  destruct (products_mirror_the_payload _ _ _ _ _ _ Hrun)
    as (response & data & _ & _ & _ & _ & _ & _ & Hcap & _).
  split; [reflexivity|exact Hcap].
Defined.

(** * Further properties of the social-post search *)

Lemma tweet_of_from users (p : RawTweet) (t : Tweet) :
  normalises users p t -> tweet_from users p t.
Proof.
  intros H. specialize (H sample_world). revert H.
  unfold tweet_of, tweet_from, likes_of, getitem, bind, ret, raise.
  destruct (rt_author_id p) as [author_id|] eqn:H1; [|discriminate].
  destruct (rt_text p) as [text|] eqn:H2; [|discriminate].
  destruct (rt_created_at p) as [created|] eqn:H3; [|discriminate].
  destruct (rt_id p) as [id|] eqn:H4; [|discriminate].
  intros H. inversion H. exists author_id, text, id. simpl. repeat split.
Qed.

(** Sorting is stable: the elements with a given key come out in the
    order in which they went in. *)
Lemma insert_desc_stable {A} (key : A -> Z) (k : Z) (x : A) (l : list A) :
  filter (fun a => key a =? k) (insert_desc key x l)
  = filter (fun a => key a =? k) (x :: l).
Proof.
  induction l as [|y l IH]; [reflexivity|].
  cbn [insert_desc]. destruct (Z.leb_spec (key y) (key x)) as [Hle|Hgt].
  - reflexivity.
  - cbn [filter] in *. rewrite IH.
    destruct (Z.eqb_spec (key y) k) as [Hy|Hy];
      destruct (Z.eqb_spec (key x) k) as [Hx|Hx]; try reflexivity.
    lia.
Qed.

Lemma sort_desc_stable {A} (key : A -> Z) (k : Z) (l : list A) :
  filter (fun a => key a =? k) (sort_desc key l)
  = filter (fun a => key a =? k) l.
Proof.
  induction l as [|x l IH]; [reflexivity|].
  cbn [sort_desc]. rewrite insert_desc_stable. cbn [filter]. rewrite IH.
  reflexivity.
Qed.

(** What a successful call of [fetch_twitter_trends] went through, with
    the table of users and the request. *)
Lemma fetch_twitter_trends_run
      (E : Env) hashtags (min_likes days_back : Z) (w : World) ok w' :
  fetch_twitter_trends E hashtags min_likes days_back w = (Ret (Success ok), w') ->
  exists response data users kept,
    truthy (TWITTER_BEARER_TOKEN E) = true
    /\ network w' = network w ++ [twitter_request E hashtags]
    /\ twitter_api E (twitter_request E hashtags) = inr response
    /\ json_body response = inr data
    /\ user_table (or_default (td_users data) []) users
    /\ Forall2 (normalises users)
               (filter (enough_likes min_likes) (or_default (td_data data) []))
               kept
    /\ tweets_count ok = len (sort_desc engagement kept)
    /\ trending_tweets ok = firstn 10 (sort_desc engagement kept).
Proof.
  intros Hrun. unfold fetch_twitter_trends in Hrun.
  apply safe_api_call_success in Hrun.
  destruct (rate_limit_run 15 L_twitter
              (fetch_twitter_trends_body E hashtags min_likes days_back) w
              ltac:(lia)) as (wa & _ & Hna & Hr).
  rewrite Hr in Hrun. clear Hr. unfold fetch_twitter_trends_body in Hrun.
  destruct (truthy (TWITTER_BEARER_TOKEN E)); [|discriminate Hrun].
  cbn [negb] in Hrun.
  apply http_success in Hrun.
  destruct Hrun as (response & data & w1 & Hapi & _ & Hjson & Hn1 & Hrun).
  apply bind_ret_inv in Hrun. destruct Hrun as (users & w2 & Husers & Hrun).
  assert (Hst : forall l acc, stateless (users_by_id l acc)).
  { induction l as [|u l IH]; intros acc; simpl.
    - apply stateless_ret.
    - apply stateless_bind; [apply stateless_getitem | intro; apply IH]. }
  destruct (stateless_run _ _ _ _ (Hst _ _) Husers) as [-> Htable].
  apply bind_ret_inv in Hrun. destruct Hrun as (tweets & w3 & Hcollect & Hrun).
  assert (Hsc : forall l acc, stateless (collect_tweets users min_likes l acc)).
  { induction l as [|p l IH]; intros acc; simpl.
    - apply stateless_ret.
    - destruct (enough_likes min_likes p); [|apply IH].
      apply stateless_bind; [apply stateless_tweet_of | intro; apply IH]. }
  destruct (stateless_run _ _ _ _ (Hsc _ _) Hcollect) as [-> _].
  destruct (collect_tweets_kept _ _ _ _ _ _ _ Hcollect) as (kept & -> & Hkept).
  cbv zeta in Hrun.
  apply bind_ret_inv in Hrun. destruct Hrun as ([] & w4 & Hlog & Hrun).
  unfold logger in Hlog. inversion Hlog; subst w4. clear Hlog.
  inversion Hrun; subst. cbn [tweets_count trending_tweets network].
  exists response, data, users, kept.
  split; [reflexivity|]. split; [rewrite Hn1, Hna; reflexivity|].
  repeat split; try assumption; reflexivity.
Qed.

(** X12. A successful call of [fetch_twitter_trends] had a token
    configured and sent exactly one request (100 posts asked for, the five
    default hashtags when none is given); each kept post is the normalised
    form of a fetched post with enough likes: the four required fields were
    present, the text is cut to 280 characters, and the author is looked up
    by id in the users of the payload, with the placeholders ["@unknown"],
    ["Unknown"] and ["i"] when the id or the field is absent. *)
Theorem posts_are_normalised
        (E : Env) hashtags (min_likes days_back : Z) (w : World) ok w' :
  fetch_twitter_trends E hashtags min_likes days_back w = (Ret (Success ok), w') ->
  exists response data users kept,
    truthy (TWITTER_BEARER_TOKEN E) = true
    /\ network w' = network w ++ [twitter_request E hashtags]
    /\ twitter_api E (twitter_request E hashtags) = inr response
    /\ json_body response = inr data
    /\ user_table (or_default (td_users data) []) users
    /\ Forall2 (tweet_from users)
               (filter (enough_likes min_likes) (or_default (td_data data) []))
               kept
    /\ Permutation kept (sort_desc engagement kept)
    /\ trending_tweets ok = firstn 10 (sort_desc engagement kept)
    /\ Forall (fun t => (String.length (tweet_text t) <= 280)%nat)
              (trending_tweets ok).
Proof.
  intros Hrun.
  destruct (fetch_twitter_trends_run _ _ _ _ _ _ _ Hrun)
    as (response & data & users & kept & Htok & Hnet & Hapi & Hjson & Htable
        & Hkept & _ & Htop).
  assert (Hfrom : Forall2 (tweet_from users)
                    (filter (enough_likes min_likes) (or_default (td_data data) []))
                    kept)
    by exact (Forall2_impl _ _ _ _ (tweet_of_from users) Hkept).
  exists response, data, users, kept.
  repeat split; try assumption.
  - apply sort_desc_perm.
  - rewrite Htop. apply Forall_firstn.
    apply (Permutation_Forall (sort_desc_perm engagement kept)).
    clear -Hfrom. induction Hfrom as [|p t ps ts H _ IH]; constructor;
      [|exact IH].
    destruct H as (a & text & i & _ & _ & _ & _ & -> & _).
    apply str_prefix_length.
Qed.

Lemma posts_are_normalised_witness :
  exists ok w',
    fetch_twitter_trends env_all_up None 100 7 sample_world
    = (Ret (Success ok), w')
    /\ map tweet_author (trending_tweets ok) = ["@ada"; "@ada"]
    /\ Forall (fun t => (String.length (tweet_text t) <= 280)%nat)
              (trending_tweets ok).
Proof.
  destruct (fetch_twitter_trends env_all_up None 100 7 sample_world)
    as [o w'] eqn:Hrun.
  pose proof (f_equal fst Hrun) as Ho. cbn [fst] in Ho.
  vm_compute in Ho. subst o.
  eexists. exists w'. split; [reflexivity|].
  destruct (posts_are_normalised _ _ _ _ _ _ _ Hrun)
    as (response & data & users & kept & _ & _ & _ & _ & _ & _ & _ & _ & Hcap).
  split; [reflexivity|exact Hcap].
Defined.

(** X13. Posts with the same engagement score keep the order in which
    the provider returned them: for every score, the posts of that score
    appear in the sorted list in the order of the kept posts, which is the
    order of the payload. *)
Theorem ties_keep_fetch_order
        (E : Env) hashtags (min_likes days_back : Z) (w : World) ok w' :
  fetch_twitter_trends E hashtags min_likes days_back w = (Ret (Success ok), w') ->
  exists response data users kept,
    twitter_api E (twitter_request E hashtags) = inr response
    /\ json_body response = inr data
    /\ Forall2 (normalises users)
               (filter (enough_likes min_likes) (or_default (td_data data) []))
               kept
    /\ trending_tweets ok = firstn 10 (sort_desc engagement kept)
    /\ forall score,
         filter (fun t => engagement t =? score) (sort_desc engagement kept)
         = filter (fun t => engagement t =? score) kept.
Proof.
  intros Hrun.
  destruct (fetch_twitter_trends_run _ _ _ _ _ _ _ Hrun)
    as (response & data & users & kept & _ & _ & Hapi & Hjson & _
        & Hkept & _ & Htop).
  exists response, data, users, kept.
  repeat split; try assumption.
  intros score. apply sort_desc_stable.
Qed.

Lemma ties_keep_fetch_order_witness :
  exists ok w',
    fetch_twitter_trends env_twelve_posts None 100 7 sample_world
    = (Ret (Success ok), w')
    /\ map tweet_url
           (filter (fun t => engagement t =? 140) (trending_tweets ok))
       = ["https://twitter.com/ada/status/5"; "https://twitter.com/ada/status/6"]
    /\ exists kept,
         trending_tweets ok = firstn 10 (sort_desc engagement kept)
         /\ filter (fun t => engagement t =? 140) (sort_desc engagement kept)
            = filter (fun t => engagement t =? 140) kept.
Proof.
  destruct (fetch_twitter_trends env_twelve_posts None 100 7 sample_world)
    as [o w'] eqn:Hrun.
  pose proof (f_equal fst Hrun) as Ho. cbn [fst] in Ho.
  vm_compute in Ho. subst o.
  eexists. exists w'. split; [reflexivity|].
  destruct (ties_keep_fetch_order _ _ _ _ _ _ _ Hrun)
    as (response & data & users & kept & _ & _ & _ & Htop & Hties).
  split; [reflexivity|].
  exists kept. split; [exact Htop|apply Hties].
Defined.

Lemma dict_get_set_same {V} (k : string) (v : V) (d : list (string * V)) :
  dict_get k (dict_set k v d) = Some v.
Proof.
  induction d as [|[k0 v0] d IH]; simpl.
  - rewrite String.eqb_refl. reflexivity.
  - destruct (String.eqb_spec k k0) as [->|Hk]; simpl.
    + rewrite String.eqb_refl. reflexivity.
    + destruct (String.eqb_spec k k0); [contradiction|exact IH].
Qed.

Lemma find_app {A} (f : A -> bool) (l1 l2 : list A) :
  find f (l1 ++ l2) = match find f l1 with
                      | Some x => Some x
                      | None => find f l2
                      end.
Proof.
  induction l1 as [|a l1 IH]; simpl; [reflexivity|].
  destruct (f a); [reflexivity|exact IH].
Qed.

Lemma users_by_id_lookup (users : list RawUser) :
  forall acc table v v',
    users_by_id users acc v = (Ret table, v') ->
    Forall (fun u => ru_id u <> None) users
    /\ forall id,
         dict_get id table = match last_user_with id users with
                             | Some u => Some u
                             | None => dict_get id acc
                             end.
Proof.
  induction users as [|u users IH]; intros acc table v v' Hrun; simpl in Hrun.
  - inversion Hrun; subst. split; [constructor|]. intros id. reflexivity.
  - apply bind_ret_inv in Hrun. destruct Hrun as (i & v1 & Hi & Hrun).
    unfold getitem in Hi. destruct (ru_id u) as [i0|] eqn:Hid; [|discriminate].
    inversion Hi; subst i0 v1. clear Hi.
    destruct (IH _ _ _ _ Hrun) as [Hall Hget].
    split; [constructor; [rewrite Hid; discriminate|exact Hall]|].
    intros id. rewrite Hget. unfold last_user_with. simpl rev.
    rewrite find_app.
    destruct (find _ (rev users)) as [x|]; [reflexivity|].
    simpl. rewrite Hid.
    destruct (String.eqb_spec id i) as [->|Hne].
    + apply dict_get_set_same.
    + apply dict_get_set_other. exact Hne.
Qed.

(** X14. The table in which [fetch_twitter_trends] looks authors up is
    built only when every user of the payload carries an id, and a lookup
    by id then finds the last user of the payload with that id (a later
    user replaces an earlier one), or nothing when no user has it. *)
Theorem author_lookup_finds_last_user (users : list RawUser) table :
  user_table users table ->
  Forall (fun u => ru_id u <> None) users
  /\ forall id, dict_get id table = last_user_with id users.
Proof.
  intros Htable. specialize (Htable sample_world).
  destruct (users_by_id_lookup users [] table _ _ Htable) as [Hall Hget].
  split; [exact Hall|]. intros id. rewrite Hget.
  destruct (last_user_with id users); reflexivity.
Qed.

Lemma author_lookup_finds_last_user_witness :
  let users := [mkRawUser (Some "u1") (Some "ada") (Some "Ada");
                mkRawUser (Some "u2") (Some "bob") None;
                mkRawUser (Some "u1") (Some "eve") (Some "Eve")] in
  exists table,
    user_table users table
    /\ dict_get "u1" table = Some (mkRawUser (Some "u1") (Some "eve") (Some "Eve"))
    /\ dict_get "u3" table = None.
Proof.
  cbv zeta.
  eexists. assert (Ht : user_table
     [mkRawUser (Some "u1") (Some "ada") (Some "Ada");
      mkRawUser (Some "u2") (Some "bob") None;
      mkRawUser (Some "u1") (Some "eve") (Some "Eve")]
     [("u1", mkRawUser (Some "u1") (Some "eve") (Some "Eve"));
      ("u2", mkRawUser (Some "u2") (Some "bob") None)])
    by (intros v; reflexivity).
  split; [exact Ht|].
  destruct (author_lookup_finds_last_user _ _ Ht) as [_ Hget].
  split; rewrite Hget; reflexivity.
Defined.

(** * Properties of the editing tools *)

(** ** [organize_content_sections] *)

Lemma dict_get_none_keys {V} (k : string) (d : list (string * V)) :
  dict_get k d = None <-> ~ In k (keys d).
Proof.
  induction d as [|[k0 v0] d IH]; simpl.
  - tauto.
  - destruct (String.eqb_spec k k0) as [->|Hk].
    + split; [discriminate|]. intros H. exfalso. apply H. now left.
    + rewrite IH. split.
      * intros H [H1|H1]; [congruence|contradiction].
      * intros H H1. apply H. now right.
Qed.

Lemma dict_set_absent {V} (k : string) (v : V) (d : list (string * V)) :
  dict_get k d = None -> dict_set k v d = d ++ [(k, v)].
Proof.
  induction d as [|[k0 v0] d IH]; simpl; [reflexivity|].
  destruct (String.eqb_spec k k0) as [->|Hk]; [discriminate|].
  intros H. now rewrite IH.
Qed.

Lemma dict_set_present_length {V} (k : string) (v : V) (d : list (string * V)) :
  dict_get k d <> None -> List.length (dict_set k v d) = List.length d.
Proof.
  induction d as [|[k0 v0] d IH]; simpl; [congruence|].
  destruct (String.eqb_spec k k0) as [->|Hk]; simpl; [reflexivity|].
  intros H. now rewrite IH.
Qed.

Lemma keys_dict_set {V} (k : string) (v : V) (d : list (string * V)) (k' : string) :
  In k' (keys (dict_set k v d)) <-> k' = k \/ In k' (keys d).
Proof.
  induction d as [|[k0 v0] d IH]; simpl.
  - intuition congruence.
  - destruct (String.eqb_spec k k0) as [->|Hk]; simpl.
    + intuition congruence.
    + rewrite IH. intuition congruence.
Qed.

Lemma organize_loop_lookup raw priorities acc k :
  dict_get k (org_sections (organize_loop raw priorities acc)) =
  if existsb (String.eqb k) priorities
  then match dict_get k raw with
       | Some v => Some v
       | None => dict_get k (org_sections acc)
       end
  else dict_get k (org_sections acc).
Proof.
  revert acc. induction priorities as [|p rest IH]; intros acc; simpl.
  - reflexivity.
  - destruct (dict_get p raw) as [v|] eqn:Hp; rewrite IH; cbn [org_sections].
    + destruct (String.eqb_spec k p) as [->|Hk]; simpl.
      * rewrite Hp, dict_get_set_same.
        destruct (existsb (String.eqb p) rest); reflexivity.
      * rewrite (dict_get_set_other _ _ _ _ Hk). reflexivity.
    + destruct (String.eqb_spec k p) as [->|Hk]; simpl; [|reflexivity].
      rewrite Hp. destruct (existsb (String.eqb p) rest); reflexivity.
Qed.

Lemma picked_cons raw p rest :
  picked raw (p :: rest)
  = match dict_get p raw with Some v => [(p, v)] | None => [] end
    ++ picked raw rest.
Proof. reflexivity. Qed.

Lemma organize_loop_counts raw priorities acc :
  org_sections_count (organize_loop raw priorities acc)
  = org_sections_count acc + len (picked raw priorities)
  /\ org_total_items (organize_loop raw priorities acc)
     = org_total_items acc + items_in (picked raw priorities).
Proof.
  revert acc. induction priorities as [|p rest IH]; intros acc.
  - unfold len. simpl. split; lia.
  - rewrite picked_cons. cbn [organize_loop].
    destruct (dict_get p raw) as [v|] eqn:Hp.
    + destruct (IH {| org_sections := dict_set p v (org_sections acc);
                      org_total_items :=
                        (if is_list v
                         then org_total_items acc
                              + match v with VList l => len l | _ => 0 end
                         else org_total_items acc);
                      org_sections_count := org_sections_count acc + 1 |})
        as [Hc Ht].
      rewrite Hc, Ht. cbn [org_sections_count org_total_items].
      unfold len in *. simpl List.length. simpl items_in. split; [lia|].
      destruct v; simpl; unfold len; lia.
    + destruct (IH acc) as [Hc Ht]. rewrite Hc, Ht.
      split; reflexivity.
Qed.

Lemma organize_loop_ordered raw priorities acc :
  NoDup priorities ->
  (forall k, In k priorities -> dict_get k (org_sections acc) = None) ->
  org_sections (organize_loop raw priorities acc)
  = org_sections acc ++ picked raw priorities.
Proof.
  revert acc. induction priorities as [|p rest IH]; intros acc Hnd Hfresh.
  - simpl. now rewrite app_nil_r.
  - inversion Hnd as [|? ? Hp Hrest]; subst.
    rewrite picked_cons. cbn [organize_loop].
    destruct (dict_get p raw) as [v|] eqn:Hpv.
    + rewrite IH; [|exact Hrest|].
      * cbn [org_sections]. rewrite dict_set_absent by (apply Hfresh; now left).
        rewrite <- app_assoc. reflexivity.
      * intros k Hk. cbn [org_sections].
        rewrite dict_get_set_other by (intros ->; contradiction).
        apply Hfresh. now right.
    + rewrite IH; [reflexivity|exact Hrest|].
      intros k Hk. apply Hfresh. now right.
Qed.

Lemma picked_keys raw priorities k :
  In k (keys (picked raw priorities)) <-> In k priorities /\ dict_get k raw <> None.
Proof.
  induction priorities as [|p rest IH].
  - simpl. tauto.
  - rewrite picked_cons. unfold keys in *. rewrite map_app, in_app_iff, IH.
    destruct (dict_get p raw) as [v|] eqn:Hp; simpl.
    + split.
      * intros [[<-|[]]|[H1 H2]]; [split; [now left|congruence]|tauto].
      * intros [[<-|H1] H2]; [left; now left|right; tauto].
    + split.
      * intros [[]|[H1 H2]]. tauto.
      * intros [[<-|H1] H2]; [congruence|right; tauto].
Qed.

Lemma organize_loop_length raw priorities acc :
  (List.length (org_sections (organize_loop raw priorities acc))
   <= List.length (org_sections acc) + List.length (picked raw priorities))%nat
  /\ (List.length (org_sections (organize_loop raw priorities acc))
      = (List.length (org_sections acc) + List.length (picked raw priorities))%nat
      <-> NoDup (keys (picked raw priorities))
          /\ forall k, In k (keys (picked raw priorities))
                       -> ~ In k (keys (org_sections acc))).
Proof.
  revert acc. induction priorities as [|p rest IH]; intros acc.
  - simpl. split; [lia|]. split; [|lia].
    intros _. split; [constructor|intros k []].
  - rewrite picked_cons. cbn [organize_loop].
    destruct (dict_get p raw) as [v|] eqn:Hpv.
    + match goal with
      | |- context [organize_loop raw rest ?a] => set (acc' := a)
      end.
      destruct (IH acc') as [Hle Hiff]. subst acc'. cbn [org_sections] in *.
      cbn [app List.length keys map fst].
      destruct (dict_get p (org_sections acc)) as [v0|] eqn:Hin.
      * rewrite dict_set_present_length in Hle, Hiff by congruence.
        split; [lia|]. split; [lia|].
        intros [_ Hd]. exfalso. apply (Hd p); [now left|].
        destruct (in_dec string_dec p (keys (org_sections acc))) as [Hk|Hk];
          [exact Hk|].
        apply dict_get_none_keys in Hk. congruence.
      * pose proof Hin as Habs. apply dict_get_none_keys in Habs.
        rewrite (dict_set_absent p v _ Hin) in Hle, Hiff |- *.
        rewrite length_app in Hle, Hiff. simpl List.length in Hle, Hiff.
        split; [lia|].
        split.
        -- intros Heq.
           destruct Hiff as [Hiff _].
           destruct Hiff as [Hnd Hd]; [lia|].
           split.
           ++ constructor; [|exact Hnd].
              intros Hp. apply (Hd p Hp). unfold keys. rewrite map_app, in_app_iff.
              right. now left.
           ++ intros k [<-|Hk]; [exact Habs|].
              intros Hk'. apply (Hd k Hk). unfold keys. rewrite map_app, in_app_iff.
              now left.
        -- intros [Hnd Hd]. inversion Hnd as [|? ? Hp Hrest]; subst.
           destruct Hiff as [_ Hiff].
           assert (Hgoal : NoDup (keys (picked raw rest))
                           /\ (forall k, In k (keys (picked raw rest)) ->
                                ~ In k (keys (org_sections acc ++ [(p, v)])))).
           { split; [exact Hrest|].
             intros k Hk. unfold keys. rewrite map_app, in_app_iff.
             intros [Hk'|[<-|[]]].
             - apply (Hd k); [now right|exact Hk'].
             - contradiction. }
           specialize (Hiff Hgoal). lia.
    + cbn [app]. apply IH.
Qed.

Lemma existsb_eqb_in (k : string) (l : list string) :
  existsb (String.eqb k) l = true <-> In k l.
Proof.
  rewrite existsb_exists. split.
  - intros (x & Hx & Heq). apply String.eqb_eq in Heq. now subst.
  - intros H. exists k. split; [exact H|apply String.eqb_refl].
Qed.

Lemma organize_loop_ext raw raw' priorities acc :
  (forall k, In k priorities -> dict_get k raw = dict_get k raw') ->
  organize_loop raw priorities acc = organize_loop raw' priorities acc.
Proof.
  revert acc. induction priorities as [|p rest IH]; intros acc Hagree.
  - reflexivity.
  - cbn [organize_loop]. rewrite <- (Hagree p) by now left.
    destruct (dict_get p raw); apply IH; intros k Hk; apply Hagree; now right.
Qed.

Lemma organize_content_sections_run raw priorities w :
  organize_content_sections raw priorities w
  = (Ret (organize_loop raw (or_default priorities default_priorities)
                        (mkOrganized [] 0 0)),
     mkWorld (clock w) (drift w) (last_called w) (slept w) (network w)
             (logged w
              ++ [("Organized content into "
                   ++ string_of_Z
                        (org_sections_count
                           (organize_loop raw
                              (or_default priorities default_priorities)
                              (mkOrganized [] 0 0)))
                   ++ " sections")%string])).
Proof. reflexivity. Qed.

(** X15. [organize_content_sections] with priorities that are all different
    (the default ones are): the sections are exactly the prioritised keys
    that [raw_content] has, in priority order and with their values; every
    other key of [raw_content] is dropped; [sections_count] is the number of
    sections and [total_items] the number of items in the sections that are
    lists.  Nothing is sent. *)
Theorem sections_follow_the_priorities
        (raw_content : list (string * Value)) (priorities : option (list string))
        (w : World) :
  NoDup (or_default priorities default_priorities) ->
  exists organized w',
    organize_content_sections raw_content priorities w = (Ret organized, w')
    /\ org_sections organized
       = picked raw_content (or_default priorities default_priorities)
    /\ org_sections_count organized = len (org_sections organized)
    /\ org_total_items organized = items_in (org_sections organized)
    /\ network w' = network w.
Proof.
  intros Hnd. rewrite organize_content_sections_run.
  eexists. eexists. split; [reflexivity|].
  pose proof (organize_loop_ordered raw_content _ (mkOrganized [] 0 0) Hnd
                (fun _ _ => eq_refl)) as Hs.
  destruct (organize_loop_counts raw_content
              (or_default priorities default_priorities) (mkOrganized [] 0 0))
    as [Hc Ht].
  cbn [org_sections org_sections_count org_total_items app] in Hs, Hc, Ht.
  rewrite Hs, Hc, Ht. repeat split; reflexivity.
Qed.

Lemma sections_follow_the_priorities_witness :
  let raw_content :=
    [("tweets", VList [VStr "t1"]);
     ("notes", VStr "not a section");
     ("papers", VList [VStr "p1"; VStr "p2"]);
     ("big_story", VDict [("title", VStr "A story")])] in
  exists organized w',
    organize_content_sections raw_content None sample_world = (Ret organized, w')
    /\ org_sections organized
       = [("big_story", VDict [("title", VStr "A story")]);
          ("papers", VList [VStr "p1"; VStr "p2"]);
          ("tweets", VList [VStr "t1"])]
    /\ org_sections_count organized = 3
    /\ org_total_items organized = 3.
Proof.
  cbv zeta.
  assert (Hnd : NoDup (or_default None default_priorities)).
  { unfold or_default, default_priorities.
    repeat (constructor; [simpl; intuition discriminate|]). constructor. }
  destruct (sections_follow_the_priorities
              [("tweets", VList [VStr "t1"]);
               ("notes", VStr "not a section");
               ("papers", VList [VStr "p1"; VStr "p2"]);
               ("big_story", VDict [("title", VStr "A story")])]
              None sample_world Hnd)
    as (organized & w' & Hrun & Hs & Hc & Ht & _).
  exists organized, w'. split; [exact Hrun|].
  rewrite Hc, Ht, Hs. repeat split; reflexivity.
Defined.

(** X16. [organize_content_sections] for any priorities: a key is a section
    exactly when it is a priority that [raw_content] has, and it keeps its
    value.  A priority that is listed twice is stored once but counted
    twice: [sections_count] is at least the number of sections, and equal
    to it exactly when no key that is present is repeated. *)
Theorem sections_count_counts_repeats
        (raw_content : list (string * Value)) (priorities : option (list string))
        (w : World) :
  exists organized w',
    organize_content_sections raw_content priorities w = (Ret organized, w')
    /\ (forall k v,
           dict_get k (org_sections organized) = Some v
           <-> In k (or_default priorities default_priorities)
               /\ dict_get k raw_content = Some v)
    /\ len (org_sections organized) <= org_sections_count organized
    /\ (org_sections_count organized = len (org_sections organized)
        <-> NoDup (keys (picked raw_content
                           (or_default priorities default_priorities)))).
Proof.
  rewrite organize_content_sections_run.
  eexists. eexists. split; [reflexivity|].
  set (ps := or_default priorities default_priorities).
  destruct (organize_loop_counts raw_content ps (mkOrganized [] 0 0)) as [Hc _].
  destruct (organize_loop_length raw_content ps (mkOrganized [] 0 0))
    as [Hle Hiff].
  cbn [org_sections org_sections_count List.length Nat.add] in Hc, Hle, Hiff.
  split; [|split].
  - intros k v. rewrite organize_loop_lookup. cbn [org_sections dict_get].
    destruct (existsb (String.eqb k) ps) eqn:Hin.
    + apply existsb_eqb_in in Hin.
      destruct (dict_get k raw_content); split; intros H;
        try tauto; try discriminate; destruct H; discriminate.
    + split; [discriminate|]. intros [H _].
      apply existsb_eqb_in in H. congruence.
  - rewrite Hc. unfold len. lia.
  - rewrite Hc. unfold len. split.
    + intros H. apply Hiff. lia.
    + intros H. assert (Hd : forall k : string,
                           In k (keys (picked raw_content ps)) ->
                           ~ In k (@keys Value [])) by (intros k _ []).
      pose proof (proj2 Hiff (conj H Hd)). lia.
Qed.

(** X17. Organising what [organize_content_sections] returned, with the same
    priorities, returns the same sections and the same counts. *)
Theorem organizing_twice_changes_nothing
        (raw_content : list (string * Value)) (priorities : option (list string))
        (w : World) organized w' :
  organize_content_sections raw_content priorities w = (Ret organized, w') ->
  forall u, exists u',
    organize_content_sections (org_sections organized) priorities u
    = (Ret organized, u').
Proof.
  rewrite organize_content_sections_run. intros Hrun u.
  inversion Hrun as [[Ho Hw]]. clear Hrun Hw.
  rewrite organize_content_sections_run. eexists. f_equal. f_equal.
  set (ps := or_default priorities default_priorities).
  apply organize_loop_ext. intros k Hk.
  rewrite organize_loop_lookup. cbn [org_sections dict_get].
  apply existsb_eqb_in in Hk. rewrite Hk.
  destruct (dict_get k raw_content); reflexivity.
Qed.

Lemma organizing_twice_changes_nothing_witness :
  let raw_content :=
    [("tweets", VList [VStr "t1"]);
     ("notes", VStr "not a section");
     ("papers", VList [VStr "p1"; VStr "p2"])] in
  let priorities := Some ["papers"; "tweets"; "papers"] in
  exists organized w',
    organize_content_sections raw_content priorities sample_world
    = (Ret organized, w')
    /\ org_sections_count organized = 3
    /\ len (org_sections organized) = 2
    /\ exists u',
        organize_content_sections (org_sections organized) priorities sample_world
        = (Ret organized, u').
Proof.
  cbv zeta.
  destruct (organize_content_sections
              [("tweets", VList [VStr "t1"]);
               ("notes", VStr "not a section");
               ("papers", VList [VStr "p1"; VStr "p2"])]
              (Some ["papers"; "tweets"; "papers"]) sample_world)
    as [o w'] eqn:Hrun.
  pose proof (f_equal fst Hrun) as Ho. cbn [fst] in Ho. vm_compute in Ho.
  subst o. eexists. exists w'. split; [reflexivity|].
  split; [reflexivity|]. split; [reflexivity|].
  exact (organizing_twice_changes_nothing _ _ _ _ _ Hrun sample_world).
Defined.

(** ** [validate_newsletter_content] *)

Lemma validate_newsletter_content_run (draft_content : list (string * Value))
      (w : World) :
  if well_formed_draft draft_content
  then exists report w',
      validate_newsletter_content draft_content w = (Ret report, w')
      /\ network w' = network w
      /\ v_issues report
         = (if has_content draft_content then []
            else ["Big story content is missing"])
           ++ (if has_title draft_content then []
               else ["Big story title is missing"])
           ++ (if has_issue_number draft_content then []
               else ["Issue number is missing"])
      /\ v_warnings report
         = (if size (entry "top_papers" (VList []) (sections_of draft_content))
               <? 3
            then ["Less than 3 papers - consider adding more"] else [])
           ++ (if size (entry "github_repos" (VList [])
                              (sections_of draft_content)) <? 3
               then ["Less than 3 GitHub repos - consider adding more"] else [])
      /\ v_valid report
         = has_content draft_content && has_title draft_content
           && has_issue_number draft_content
      /\ v_status report = (if v_valid report then "success" else "warning")
      /\ v_sections_count report = size (sections_of draft_content)
  else exists e, validate_newsletter_content draft_content w = (Raise e, w).
Proof.
  unfold well_formed_draft, has_content, has_title, has_issue_number,
    big_story_of, validate_newsletter_content.
  fold (sections_of draft_content). fold (metadata_of draft_content).
  destruct (sections_of draft_content) as [| | | | |s];
    try (cbn; eexists; reflexivity).
  cbn [is_dict andb entry value_get].
  unfold bind at 1. cbn [ret].
  destruct (or_default (dict_get "top_papers" s) (VList [])) as [| | |tp|tp|tp];
    try (cbn; eexists; reflexivity);
    cbn [sized andb value_len ret bind size];
    (unfold bind at 1; cbn [ret value_len];
     unfold bind at 1; cbn [ret];
     destruct (or_default (dict_get "github_repos" s) (VList []))
       as [| | |gr|gr|gr];
     try (cbn; eexists; reflexivity);
     cbn [sized andb value_len ret bind size];
     (unfold bind at 1; cbn [ret value_len];
      unfold bind at 1; cbn [ret];
      destruct (or_default (dict_get "big_story" s) (VDict []))
        as [| | | | |bs];
      try (cbn; eexists; reflexivity);
      cbn [is_dict andb value_get entry];
      destruct (metadata_of draft_content) as [| | | | |md];
      try (cbn; eexists; reflexivity);
      cbn [is_dict andb value_get entry];
      unfold bind, ret, logger;
      destruct (value_truthy (or_default (dict_get "content" bs) VNone));
      destruct (value_truthy (or_default (dict_get "title" bs) VNone));
      destruct (value_truthy (or_default (dict_get "issue_number" md) VNone));
      cbn [negb app];
      (eexists; eexists; split; [reflexivity|];
       cbn [network v_issues v_warnings v_valid v_status v_sections_count
            andb app];
       repeat split;
       match goal with
       | |- context [?a <? 3] =>
           destruct (a <? 3);
           match goal with
           | |- context [?b <? 3] => destruct (b <? 3); reflexivity
           | _ => reflexivity
           end
       | _ => reflexivity
       end))).
Qed.

(** X18. [validate_newsletter_content] on a draft it can read: the draft is
    valid exactly when the big story has a content and a title and the
    metadata has an issue number, each of them truthy (so the issue number 0
    counts as missing); [valid], an empty [issues] list and the status
    ["success"] go together, and the warnings about fewer than three papers
    or repositories never make a draft invalid. *)
Theorem valid_means_three_fields_present
        (draft_content : list (string * Value)) (w : World) :
  well_formed_draft draft_content = true ->
  exists report w',
    validate_newsletter_content draft_content w = (Ret report, w')
    /\ (v_valid report = true
        <-> has_content draft_content = true
            /\ has_title draft_content = true
            /\ has_issue_number draft_content = true)
    /\ (v_valid report = true <-> v_issues report = [])
    /\ (v_status report = "success" <-> v_valid report = true)
    /\ (v_status report = "warning" <-> v_valid report = false)
    /\ incl (v_issues report)
            ["Big story content is missing"; "Big story title is missing";
             "Issue number is missing"]
    /\ v_sections_count report = size (sections_of draft_content).
Proof.
  intros Hwf. pose proof (validate_newsletter_content_run draft_content w) as H.
  rewrite Hwf in H.
  destruct H as (report & w' & Hrun & _ & Hi & _ & Hv & Hs & Hc).
  exists report, w'. split; [exact Hrun|].
  rewrite Hs, Hi, Hv, Hc.
  destruct (has_content draft_content), (has_title draft_content),
    (has_issue_number draft_content); cbn [andb app];
    repeat split; intros; try discriminate; try tauto; try reflexivity;
    try (intros x Hx; simpl in *; tauto);
    try (destruct H as (? & ? & ?); discriminate).
Qed.

Lemma valid_means_three_fields_present_witness :
  let draft_content :=
    [("metadata", VDict [("issue_number", VInt 0)]);
     ("sections",
      VDict [("big_story",
              VDict [("title", VStr "A story"); ("content", VStr "Text")]);
             ("top_papers", VList [VStr "p1"; VStr "p2"; VStr "p3"]);
             ("github_repos", VList [])])] in
  exists report w',
    validate_newsletter_content draft_content sample_world = (Ret report, w')
    /\ has_issue_number draft_content = false
    /\ v_valid report = false
    /\ v_status report = "warning".
Proof.
  cbv zeta.
  destruct (valid_means_three_fields_present
              [("metadata", VDict [("issue_number", VInt 0)]);
               ("sections",
                VDict [("big_story",
                        VDict [("title", VStr "A story");
                               ("content", VStr "Text")]);
                       ("top_papers", VList [VStr "p1"; VStr "p2"; VStr "p3"]);
                       ("github_repos", VList [])])]
              sample_world eq_refl)
    as (report & w' & Hrun & Hv & _ & _ & Hs & _).
  exists report, w'. split; [exact Hrun|]. split; [reflexivity|].
  assert (Hf : v_valid report = false).
  { destruct (v_valid report); [|reflexivity].
    destruct Hv as [Hv _]. destruct (Hv eq_refl) as (_ & _ & Hn).
    discriminate Hn. }
  split; [exact Hf|]. apply Hs. exact Hf.
Defined.

(** X19. [validate_newsletter_content] has no error boundary: it raises,
    instead of returning a dictionary, exactly on the drafts it cannot read
    (["sections"], its ["big_story"] or ["metadata"] is not a dictionary,
    or ["top_papers"] or ["github_repos"] has no length); nothing is logged
    then. *)
Theorem malformed_draft_makes_validation_raise
        (draft_content : list (string * Value)) (w : World) :
  ((exists e w', validate_newsletter_content draft_content w = (Raise e, w'))
   <-> well_formed_draft draft_content = false)
  /\ (forall e w', validate_newsletter_content draft_content w = (Raise e, w')
                   -> w' = w).
Proof.
  pose proof (validate_newsletter_content_run draft_content w) as H.
  destruct (well_formed_draft draft_content).
  - destruct H as (report & w1 & Hrun & _). split.
    + split; [|discriminate]. intros (e & w' & He). congruence.
    + intros e w' He. congruence.
  - destruct H as (e & He). split.
    + split; [reflexivity|]. intros _. eauto.
    + intros e' w' He'. congruence.
Qed.

(** ** [create_newsletter_draft] *)

Lemma datetime_now_cases (E : Env) (w : World) :
  (exists t, datetime_now E w = (Ret t, tick w))
  \/ datetime_now E w = (Raise (mkExn PyException "year is out of range"), tick w).
Proof.
  unfold datetime_now. cbv zeta.
  destruct (in_datetime_range _); [left; eauto|right; reflexivity].
Qed.

Lemma value_slice_run (n : nat) (v : Value) :
  if sliceable v
  then value_slice n v = ret (prefix_of n v)
  else exists e, value_slice n v = raise e.
Proof. destruct v; simpl; eauto. Qed.

Lemma sliceable_prefix_sized (n : nat) (v : Value) :
  sliceable v = true -> sized (prefix_of n v) = true.
Proof. destruct v; simpl; congruence. Qed.

Lemma last_logged_log_line (w : World) (line : string) :
  last_logged (log_line w line) = Some line.
Proof.
  unfold last_logged, log_line. cbn [logged]. rewrite rev_app_distr. reflexivity.
Qed.

(** The two ways a call of [create_newsletter_draft] ends. *)
Lemma create_newsletter_draft_run (E : Env) (F : DateFormats)
      (research_content : list (string * Value)) (issue_number : Z) (w : World) :
  (exists m w1,
      create_newsletter_draft E F research_content issue_number w
      = (Ret (Error m), log_line w1 ("Failed to create draft: " ++ m)%string)
      /\ network w1 = network w
      /\ (sliceable (research_list "papers" research_content)
          && sliceable (research_list "repositories" research_content)
          && sliceable (research_list "products" research_content)
          && sliceable (research_list "tweets" research_content) = true
          -> m = "year is out of range"))
  \/ (exists now now' w1,
         create_newsletter_draft E F research_content issue_number w
         = (Ret (Success
                   (VDict
                      [("metadata",
                        VDict [("issue_number", VInt issue_number);
                               ("date", VStr (strftime_long F now));
                               ("title", VStr ("CampusX AI Newsletter #"
                                               ++ string_of_Z issue_number)%string)]);
                       ("sections",
                        VDict [("big_story",
                                VDict [("title", VStr ""); ("content", VStr "");
                                       ("source", VStr "")]);
                               ("quick_updates", VList []);
                               ("top_papers",
                                prefix_of 5 (research_list "papers"
                                                           research_content));
                               ("github_repos",
                                prefix_of 5 (research_list "repositories"
                                                           research_content));
                               ("tutorials",
                                research_list "tutorials" research_content);
                               ("ai_products",
                                prefix_of 3 (research_list "products"
                                                           research_content));
                               ("tweets",
                                prefix_of 3 (research_list "tweets"
                                                           research_content));
                               ("closing_notes", VStr "")]);
                       ("status", VStr "draft");
                       ("created_at", VStr (isoformat F now'))])),
            log_line w1 ("Created newsletter draft #"
                         ++ string_of_Z issue_number)%string)
         /\ network w1 = network w
         /\ sliceable (research_list "papers" research_content) = true
         /\ sliceable (research_list "repositories" research_content) = true
         /\ sliceable (research_list "products" research_content) = true
         /\ sliceable (research_list "tweets" research_content) = true).
Proof.
  set (r := create_newsletter_draft E F research_content issue_number w).
  assert (Hr : r = create_newsletter_draft E F research_content issue_number w)
    by reflexivity.
  clearbody r.
  unfold create_newsletter_draft, try_except in Hr.
  fold (research_list "papers" research_content) in Hr.
  fold (research_list "repositories" research_content) in Hr.
  fold (research_list "products" research_content) in Hr.
  fold (research_list "tweets" research_content) in Hr.
  fold (research_list "tutorials" research_content) in Hr.
  unfold bind at 1 in Hr.
  destruct (datetime_now_cases E w) as [[now Hnow]|Hnow]; rewrite Hnow in Hr.
  2:{ left. exists "year is out of range", (tick w).
      split; [exact Hr|]. split; [apply tick_network|]. reflexivity. }
  pose proof (value_slice_run 5 (research_list "papers" research_content)) as H1.
  destruct (sliceable (research_list "papers" research_content)).
  2:{ destruct H1 as [e H1]. rewrite H1 in Hr. left. exists (exn_str e), (tick w).
      split; [exact Hr|]. split; [apply tick_network|]. discriminate. }
  rewrite H1 in Hr. unfold bind at 1 in Hr. cbn [ret] in Hr.
  pose proof (value_slice_run 5 (research_list "repositories" research_content))
    as H2.
  destruct (sliceable (research_list "repositories" research_content)).
  2:{ destruct H2 as [e H2]. rewrite H2 in Hr. left. exists (exn_str e), (tick w).
      split; [exact Hr|]. split; [apply tick_network|]. discriminate. }
  rewrite H2 in Hr. unfold bind at 1 in Hr. cbn [ret] in Hr.
  pose proof (value_slice_run 3 (research_list "products" research_content))
    as H3.
  destruct (sliceable (research_list "products" research_content)).
  2:{ destruct H3 as [e H3]. rewrite H3 in Hr. left. exists (exn_str e), (tick w).
      split; [exact Hr|]. split; [apply tick_network|]. discriminate. }
  rewrite H3 in Hr. unfold bind at 1 in Hr. cbn [ret] in Hr.
  pose proof (value_slice_run 3 (research_list "tweets" research_content))
    as H4.
  destruct (sliceable (research_list "tweets" research_content)).
  2:{ destruct H4 as [e H4]. rewrite H4 in Hr. left. exists (exn_str e), (tick w).
      split; [exact Hr|]. split; [apply tick_network|]. discriminate. }
  rewrite H4 in Hr. unfold bind at 1 in Hr. cbn [ret] in Hr.
  unfold bind at 1 in Hr.
  destruct (datetime_now_cases E (tick w)) as [[now' Hnow']|Hnow'];
    rewrite Hnow' in Hr.
  2:{ left. exists "year is out of range", (tick (tick w)).
      split; [exact Hr|]. split; [now rewrite !tick_network|]. reflexivity. }
  right. exists now, now', (tick (tick w)).
  split; [exact Hr|]. split; [now rewrite !tick_network|].
  repeat split; reflexivity.
Qed.

(** X20. [create_newsletter_draft] on research content whose ["papers"],
    ["repositories"], ["products"] and ["tweets"] are lists (a missing key
    counts as the empty list): it returns a draft with the first five
    papers, the first five repositories, the first three products and the
    first three tweets, all the tutorials, and an empty big story; the only
    other outcome is the error dictionary of a clock that [datetime] cannot
    represent.  Nothing is sent. *)
Theorem draft_takes_the_first_items
        (E : Env) (F : DateFormats) (research_content : list (string * Value))
        (issue_number : Z) (w : World) papers repositories products tweets :
  research_list "papers" research_content = VList papers ->
  research_list "repositories" research_content = VList repositories ->
  research_list "products" research_content = VList products ->
  research_list "tweets" research_content = VList tweets ->
  exists reply w',
    create_newsletter_draft E F research_content issue_number w = (Ret reply, w')
    /\ network w' = network w
    /\ (reply = Error "year is out of range"
        \/ exists draft,
            reply = Success draft
            /\ section_of draft "top_papers" = Some (VList (firstn 5 papers))
            /\ section_of draft "github_repos"
               = Some (VList (firstn 5 repositories))
            /\ section_of draft "ai_products" = Some (VList (firstn 3 products))
            /\ section_of draft "tweets" = Some (VList (firstn 3 tweets))
            /\ section_of draft "tutorials"
               = Some (research_list "tutorials" research_content)
            /\ section_of draft "big_story"
               = Some (VDict [("title", VStr ""); ("content", VStr "");
                              ("source", VStr "")])
            /\ section_of draft "quick_updates" = Some (VList [])
            /\ section_of draft "closing_notes" = Some (VStr "")).
Proof.
  intros Hp Hr Hd Ht.
  destruct (create_newsletter_draft_run E F research_content issue_number w)
    as [(m & w1 & Hrun & Hnet & Hm)
       |(now & now' & w1 & Hrun & Hnet & _)].
  - eexists. eexists. split; [exact Hrun|]. split; [exact Hnet|].
    left. rewrite Hm; [reflexivity|]. rewrite Hp, Hr, Hd, Ht. reflexivity.
  - eexists. eexists. split; [exact Hrun|]. split; [exact Hnet|].
    right. eexists. split; [reflexivity|].
    rewrite Hp, Hr, Hd, Ht. repeat split; reflexivity.
Qed.

Lemma draft_takes_the_first_items_witness :
  let research_content :=
    [("papers", VList [VStr "p1"; VStr "p2"; VStr "p3"; VStr "p4"; VStr "p5";
                       VStr "p6"]);
     ("tweets", VList [VStr "t1"; VStr "t2"; VStr "t3"; VStr "t4"]);
     ("tutorials", VList [VStr "a tutorial"])] in
  exists draft w',
    create_newsletter_draft env_all_up sample_formats research_content 7
                            sample_world
    = (Ret (Success draft), w')
    /\ section_of draft "top_papers"
       = Some (VList [VStr "p1"; VStr "p2"; VStr "p3"; VStr "p4"; VStr "p5"])
    /\ section_of draft "github_repos" = Some (VList [])
    /\ section_of draft "tweets" = Some (VList [VStr "t1"; VStr "t2"; VStr "t3"])
    /\ section_of draft "tutorials" = Some (VList [VStr "a tutorial"]).
Proof.
  cbv zeta.
  destruct (draft_takes_the_first_items env_all_up sample_formats
              [("papers", VList [VStr "p1"; VStr "p2"; VStr "p3"; VStr "p4";
                                 VStr "p5"; VStr "p6"]);
               ("tweets", VList [VStr "t1"; VStr "t2"; VStr "t3"; VStr "t4"]);
               ("tutorials", VList [VStr "a tutorial"])]
              7 sample_world _ _ _ _ eq_refl eq_refl eq_refl eq_refl)
    as (reply & w' & Hrun & _ & [Herr|(draft & Hok & Hp & Hr & _ & Ht & Hu & _)]).
  - exfalso. subst reply.
    pose proof (f_equal fst Hrun) as Ho. cbn [fst] in Ho. vm_compute in Ho.
    discriminate Ho.
  - subst reply. exists draft, w'. split; [exact Hrun|].
    repeat split; assumption.
Defined.

(** X21. [create_newsletter_draft] does not raise on research content it
    cannot slice: when one of ["papers"], ["repositories"], ["products"],
    ["tweets"] holds a value that is neither a list nor a string (a number,
    a dictionary, [None]), it returns the error dictionary with the
    exception's message and logs the failure; no draft is made. *)
Theorem unsliceable_research_is_an_error_reply
        (E : Env) (F : DateFormats) (research_content : list (string * Value))
        (issue_number : Z) (w : World) (k : string) :
  In k ["papers"; "repositories"; "products"; "tweets"] ->
  sliceable (research_list k research_content) = false ->
  exists m w',
    create_newsletter_draft E F research_content issue_number w
    = (Ret (Error m), w')
    /\ last_logged w' = Some ("Failed to create draft: " ++ m)%string
    /\ network w' = network w.
Proof.
  intros Hk Hbad.
  destruct (create_newsletter_draft_run E F research_content issue_number w)
    as [(m & w1 & Hrun & Hnet & _)
       |(now & now' & w1 & _ & _ & H1 & H2 & H3 & H4)].
  - exists m. eexists. split; [exact Hrun|].
    split; [apply last_logged_log_line|exact Hnet].
  - exfalso. simpl in Hk.
    destruct Hk as [<-|[<-|[<-|[<-|[]]]]]; congruence.
Qed.

Lemma unsliceable_research_is_an_error_reply_witness :
  exists w',
    create_newsletter_draft env_all_up sample_formats
                            [("papers", VList []); ("products", VInt 3)] 1
                            sample_world
    = (Ret (Error "'int' object is not subscriptable"), w')
    /\ last_logged w'
       = Some "Failed to create draft: 'int' object is not subscriptable".
Proof.
  destruct (unsliceable_research_is_an_error_reply env_all_up sample_formats
              [("papers", VList []); ("products", VInt 3)] 1 sample_world
              "products" (or_intror (or_intror (or_introl eq_refl))) eq_refl)
    as (m & w' & Hrun & Hlog & _).
  pose proof (f_equal fst Hrun) as Ho. cbn [fst] in Ho. vm_compute in Ho.
  inversion Ho as [Hm]. rewrite <- Hm in Hrun, Hlog.
  exists w'. split; [exact Hrun|exact Hlog].
Defined.

(** X22. A draft that [create_newsletter_draft] has just made never passes
    [validate_newsletter_content]: the validation returns (it never raises
    on such a draft) with status ["warning"], reports the missing content
    and title of the big story, reports the issue number exactly when it is
    0, and counts eight sections. *)
Theorem fresh_draft_is_never_valid
        (E : Env) (F : DateFormats) (research_content : list (string * Value))
        (issue_number : Z) (w : World) draft w' :
  create_newsletter_draft E F research_content issue_number w
  = (Ret (Success draft), w') ->
  forall u, exists draft_content report u',
    draft = VDict draft_content
    /\ validate_newsletter_content draft_content u = (Ret report, u')
    /\ v_valid report = false
    /\ v_status report = "warning"
    /\ v_issues report
       = ["Big story content is missing"; "Big story title is missing"]
         ++ (if issue_number =? 0 then ["Issue number is missing"] else [])
    /\ v_sections_count report = 8.
Proof.
  intros Hrun u.
  destruct (create_newsletter_draft_run E F research_content issue_number w)
    as [(m & w1 & Hrun' & _)
       |(now & now' & w1 & Hrun' & _ & H1 & H2 & _)].
  - rewrite Hrun in Hrun'. discriminate Hrun'.
  - rewrite Hrun in Hrun'. inversion Hrun' as [[Hd Hw]]. clear Hrun' Hw.
    eexists. 
    match goal with
    | |- exists report u', VDict ?d = VDict _ /\ _ =>
        pose proof (validate_newsletter_content_run d u) as Hv
    end.
    apply (sliceable_prefix_sized 5) in H1, H2.
    unfold well_formed_draft, has_content, has_title, has_issue_number,
      big_story_of, sections_of, metadata_of in Hv.
    cbn [dict_get String.eqb Ascii.eqb Bool.eqb or_default entry is_dict
         value_truthy size len List.length andb] in Hv.
    rewrite H1, H2 in Hv. cbn [andb] in Hv.
    destruct Hv as (report & u' & Hval & _ & Hi & _ & Hvalid & Hs & Hc).
    exists report, u'. split; [reflexivity|]. split; [exact Hval|].
    rewrite Hs, Hi, Hvalid, Hc. cbn [andb negb app].
    repeat split. destruct (issue_number =? 0); reflexivity.
Qed.

Lemma fresh_draft_is_never_valid_witness :
  exists draft_content w' report u',
    create_newsletter_draft env_all_up sample_formats
                            [("papers", VList [VStr "p1"; VStr "p2"; VStr "p3"])]
                            0 sample_world
    = (Ret (Success (VDict draft_content)), w')
    /\ validate_newsletter_content draft_content sample_world = (Ret report, u')
    /\ v_valid report = false
    /\ v_issues report
       = ["Big story content is missing"; "Big story title is missing";
          "Issue number is missing"].
Proof.
  destruct (create_newsletter_draft env_all_up sample_formats
              [("papers", VList [VStr "p1"; VStr "p2"; VStr "p3"])]
              0 sample_world) as [o w'] eqn:Hrun.
  pose proof (f_equal fst Hrun) as Ho. cbn [fst] in Ho. vm_compute in Ho.
  subst o.
  destruct (fresh_draft_is_never_valid _ _ _ _ _ _ _ Hrun sample_world)
    as (draft_content & report & u' & Hd & Hval & Hvalid & _ & Hi & _).
  inversion Hd as [Hd']. rewrite <- Hd' in Hval.
  eexists. exists w', report, u'.
  split; [reflexivity|]. split; [exact Hval|]. split; [exact Hvalid|exact Hi].
Defined.

(** ** From the batch to the draft *)

Section BatchShape.

Variable o1 : Outcome (Reply PapersOk).
Variable o2 : Outcome (Reply ReposOk).
Variable o3 : Outcome (Reply ProductsOk).
Variable o4 : Outcome (Reply TweetsOk).
Variables ph tw : bool.

Lemma batch_entries_typed :
  Forall typed_entry
    (lefts
       ([verdict "Papers" "papers" (fun ok => PaperItems (papers ok)) o1;
         verdict "Repos" "repositories"
                 (fun ok => RepoItems (repositories ok)) o2]
        ++ (if ph
            then [verdict "Products" "products"
                    (fun ok => ProductItems (products ok)) o3]
            else [])
        ++ (if tw
            then [verdict "Tweets" "tweets"
                    (fun ok => TweetItems (trending_tweets ok)) o4]
            else []))).
Proof.
  destruct o1 as [[?|?]|?], o2 as [[?|?]|?], o3 as [[?|?]|?], o4 as [[?|?]|?],
    ph, tw; simpl; repeat constructor.
Qed.

End BatchShape.

Lemma research_data_typed (E : Env) (config : option ConfigDict) (w : World) :
  Forall typed_entry (lefts (fst (source_runs E config w))).
Proof.
  unfold source_runs. cbv zeta. cbn [fst].
  exact (batch_entries_typed _ _ _ _ _ _).
Qed.

Lemma dict_get_research_value (k : string) (data : list (string * Items)) :
  dict_get k (research_value data) = option_map items_value (dict_get k data).
Proof.
  induction data as [|[k0 v0] data IH]; simpl; [reflexivity|].
  destruct (String.eqb k k0); [reflexivity|exact IH].
Qed.

Lemma typed_lookup (data : list (string * Items)) (k : string) (v : Items) :
  Forall typed_entry data -> dict_get k data = Some v -> typed_entry (k, v).
Proof.
  induction 1 as [|[k0 v0] data H0 _ IH]; simpl; [discriminate|].
  destruct (String.eqb_spec k k0) as [->|Hk]; [|exact IH].
  intros Hv. inversion Hv; subst. exact H0.
Qed.

Lemma research_lists_of_typed (data : list (string * Items)) :
  Forall typed_entry data ->
  research_list "papers" (research_value data)
  = VList (map paper_value (papers_in data))
  /\ research_list "repositories" (research_value data)
     = VList (map repo_value (repositories_in data))
  /\ research_list "products" (research_value data)
     = VList (map product_value (products_in data))
  /\ research_list "tweets" (research_value data)
     = VList (map tweet_value (tweets_in data))
  /\ research_list "tutorials" (research_value data) = VList [].
Proof.
  intros Ht.
  unfold research_list, papers_in, repositories_in, products_in, tweets_in.
  rewrite !dict_get_research_value.
  repeat split;
    match goal with
    | |- context [dict_get ?k data] =>
        pose proof (typed_lookup data k) as Hk;
        destruct (dict_get k data) as [v|]; [|reflexivity];
        specialize (Hk v Ht eq_refl); destruct v;
        try reflexivity; unfold typed_entry in Hk; simpl in Hk; discriminate
    end.
Qed.

Lemma research_data_batch_of (vs : list ((string * Items) + string))
      (cfg : ConfigDict) :
  research_data (batch_of vs cfg) = lefts vs.
Proof. reflexivity. Qed.

Lemma typed_data_makes_a_draft
      (E : Env) (F : DateFormats) (data : list (string * Items))
      (issue_number : Z) (u : World) :
  Forall typed_entry data ->
  exists reply u',
    create_newsletter_draft E F (research_value data) issue_number u
    = (Ret reply, u')
    /\ (reply = Error "year is out of range"
        \/ exists draft,
            reply = Success draft
            /\ section_of draft "top_papers"
               = Some (VList (map paper_value (firstn 5 (papers_in data))))
            /\ section_of draft "github_repos"
               = Some (VList (map repo_value (firstn 5 (repositories_in data))))
            /\ section_of draft "ai_products"
               = Some (VList (map product_value (firstn 3 (products_in data))))
            /\ section_of draft "tweets"
               = Some (VList (map tweet_value (firstn 3 (tweets_in data))))
            /\ section_of draft "tutorials" = Some (VList [])).
Proof.
  intros Htyped.
  destruct (research_lists_of_typed data Htyped) as (Hp & Hr & Hd & Ht & Hu).
  destruct (create_newsletter_draft_run E F (research_value data) issue_number u)
    as [(m & u1 & Hrun & _ & Hm)
       |(now & now' & u1 & Hrun & _)].
  - eexists. eexists. split; [exact Hrun|].
    left. rewrite Hm; [reflexivity|]. rewrite Hp, Hr, Hd, Ht. reflexivity.
  - eexists. eexists. split; [exact Hrun|].
    right. eexists. split; [reflexivity|].
    rewrite Hp, Hr, Hd, Ht, Hu. cbn [prefix_of]. rewrite <- !firstn_map.
    repeat split; reflexivity.
Qed.

(** X23. The research data of the batch that [fetch_all_research] returns
    always makes a draft (short of a clock that [datetime] cannot
    represent): [create_newsletter_draft] puts the first five papers, the
    first five repositories, the first three products and the first three
    tweets of the batch into it, in the batch's order, a source that failed
    or was skipped giving an empty section; the tutorials are always empty,
    as the batch has no such key. *)
Theorem batch_research_makes_a_draft
        (E : Env) (config : option ConfigDict) (w : World) :
  exists b w1,
    fetch_all_research E config w = (Ret (Batch b), w1)
    /\ forall (F : DateFormats) (issue_number : Z) (u : World),
      exists reply u',
        create_newsletter_draft E F (research_value (research_data b))
                                issue_number u = (Ret reply, u')
        /\ (reply = Error "year is out of range"
            \/ exists draft,
                reply = Success draft
                /\ section_of draft "top_papers"
                   = Some (VList (map paper_value
                                      (firstn 5 (papers_in (research_data b)))))
                /\ section_of draft "github_repos"
                   = Some (VList (map repo_value
                                      (firstn 5 (repositories_in
                                                   (research_data b)))))
                /\ section_of draft "ai_products"
                   = Some (VList (map product_value
                                      (firstn 3 (products_in (research_data b)))))
                /\ section_of draft "tweets"
                   = Some (VList (map tweet_value
                                      (firstn 3 (tweets_in (research_data b)))))
                /\ section_of draft "tutorials" = Some (VList [])).
Proof.
  rewrite fetch_all_research_run.
  eexists. eexists. split; [reflexivity|].
  intros F issue_number u. rewrite research_data_batch_of.
  exact (typed_data_makes_a_draft E F _ issue_number u
           (research_data_typed E config w)).
Qed.

(** * Properties of the startup check and of the Google tools *)

(** ** [validate_config] *)

Lemma missing_spec (settings : list (string * option string)) (k : string) :
  In k (missing settings)
  <-> exists v, In (k, v) settings /\ truthy v = false.
Proof.
  unfold missing. rewrite in_map_iff. split.
  - intros ([k' v] & Hk & Hin). simpl in Hk. subst k'.
    apply filter_In in Hin. destruct Hin as [Hin Hv]. simpl in Hv.
    exists v. split; [exact Hin|]. now destruct (truthy v).
  - intros (v & Hin & Hv). exists (k, v). split; [reflexivity|].
    apply filter_In. split; [exact Hin|]. simpl. now rewrite Hv.
Qed.

(** X24. [validate_config] returns [True] exactly when the three Google
    credentials are set and non-empty; the four optional settings never
    change the result.  When it returns [False] it has logged the names of
    exactly the missing credentials and did not log that the validation was
    complete.  It sends nothing. *)
Theorem only_google_credentials_are_required
        (G : GoogleConfig) (E : Env) (w : World) :
  exists ok w',
    validate_config G E w = (Ret ok, w')
    /\ ok = truthy (GOOGLE_CLIENT_ID G) && truthy (GOOGLE_CLIENT_SECRET G)
            && truthy (GOOGLE_REFRESH_TOKEN G)
    /\ network w' = network w
    /\ (ok = false ->
        logged w'
        = logged w
          ++ [("Missing REQUIRED configuration: "
               ++ join ", " (missing (required_settings G)))%string;
              "Google OAuth credentials are required for basic functionality"])
    /\ (ok = true ->
        last_logged w' = Some "Configuration validation complete")
    /\ (forall k, In k (missing (required_settings G))
                  <-> (k = "GOOGLE_CLIENT_ID" /\ truthy (GOOGLE_CLIENT_ID G) = false)
                      \/ (k = "GOOGLE_CLIENT_SECRET"
                          /\ truthy (GOOGLE_CLIENT_SECRET G) = false)
                      \/ (k = "GOOGLE_REFRESH_TOKEN"
                          /\ truthy (GOOGLE_REFRESH_TOKEN G) = false)).
Proof.
  assert (Hmiss : forall k, In k (missing (required_settings G))
                  <-> (k = "GOOGLE_CLIENT_ID" /\ truthy (GOOGLE_CLIENT_ID G) = false)
                      \/ (k = "GOOGLE_CLIENT_SECRET"
                          /\ truthy (GOOGLE_CLIENT_SECRET G) = false)
                      \/ (k = "GOOGLE_REFRESH_TOKEN"
                          /\ truthy (GOOGLE_REFRESH_TOKEN G) = false)).
  { intros k. rewrite missing_spec. unfold required_settings. simpl. split.
    - intros (v & [H|[H|[H|[]]]] & Hv); inversion H; subst; tauto.
    - intros [[-> H]|[[-> H]|[-> H]]]; eexists; (split; [|exact H]); tauto. }
  unfold validate_config. cbv zeta.
  destruct (missing (required_settings G)) as [|k0 rest] eqn:Hreq.
  - assert (Hall : truthy (GOOGLE_CLIENT_ID G) && truthy (GOOGLE_CLIENT_SECRET G)
                   && truthy (GOOGLE_REFRESH_TOKEN G) = true).
    { unfold missing, required_settings in Hreq. simpl in Hreq.
      destruct (truthy (GOOGLE_CLIENT_ID G)), (truthy (GOOGLE_CLIENT_SECRET G)),
        (truthy (GOOGLE_REFRESH_TOKEN G)); simpl in Hreq;
        try discriminate Hreq; reflexivity. }
    rewrite Hall.
    destruct (missing (optional_settings G E)) as [|k1 rest1];
      (eexists; eexists; split; [reflexivity|]);
      (split; [reflexivity|]); (split; [reflexivity|]);
      (split; [discriminate|]); (split; [|exact Hmiss]);
      intros _; unfold last_logged; cbn [logged];
      rewrite ?rev_app_distr; reflexivity.
  - assert (Hnot : truthy (GOOGLE_CLIENT_ID G) && truthy (GOOGLE_CLIENT_SECRET G)
                   && truthy (GOOGLE_REFRESH_TOKEN G) = false).
    { unfold missing, required_settings in Hreq. simpl in Hreq.
      destruct (truthy (GOOGLE_CLIENT_ID G)), (truthy (GOOGLE_CLIENT_SECRET G)),
        (truthy (GOOGLE_REFRESH_TOKEN G)); simpl in Hreq;
        try discriminate Hreq; reflexivity. }
    rewrite Hnot.
    eexists; eexists; split; [reflexivity|].
    (split; [reflexivity|]); (split; [reflexivity|]).
    split; [|split; [discriminate|exact Hmiss]].
    intros _. cbn [logged]. rewrite <- app_assoc. reflexivity.
Qed.

(** ** The Google tools *)

Lemma safe_api_call_unexpected {R} `{ToolDict R} (name : string) (func : M R)
      (w : World) (m : string) (w1 : World) :
  func w = (Raise (mkExn PyException m), w1) ->
  safe_api_call name func w
  = (Ret (error_dict ("Unexpected error: " ++ m)%string),
     log_line w1 (name ++ ": Unexpected error - " ++ m)%string).
Proof.
  unfold safe_api_call, try_except. intros ->. reflexivity.
Qed.

Lemma get_google_service_missing (Gs : Google) (service_name version : string)
      (w : World) :
  credentials_present (google_config Gs) = false ->
  get_google_service Gs service_name version w
  = (Raise (ValueError no_credentials),
     log_line w ("Failed to create Google service: " ++ no_credentials)%string).
Proof.
  unfold get_google_service, credentials_present, try_except.
  intros ->. reflexivity.
Qed.

Lemma get_google_service_ret (Gs : Google) (service_name version : string)
      (w : World) u w1 :
  get_google_service Gs service_name version w = (Ret u, w1) ->
  w1 = tick w
  /\ credentials_present (google_config Gs) = true
  /\ build_service Gs service_name version = None.
Proof.
  unfold get_google_service, credentials_present, try_except.
  destruct (truthy (GOOGLE_CLIENT_ID (google_config Gs))
            && truthy (GOOGLE_CLIENT_SECRET (google_config Gs))
            && truthy (GOOGLE_REFRESH_TOKEN (google_config Gs))); cbn [negb].
  - unfold external. destruct (build_service Gs service_name version).
    + discriminate.
    + intros H. inversion H. repeat split.
  - discriminate.
Qed.

Lemma external_ret {A} (answer : Exn + A) (w : World) a w1 :
  external answer w = (Ret a, w1) -> answer = inr a /\ w1 = tick w.
Proof.
  unfold external. destruct answer; intros H; inversion H. split; reflexivity.
Qed.

Lemma for_each_inv {A B} (f : A -> M B) (l : list A) (w : World) bs w' :
  for_each f l w = (Ret bs, w') ->
  Forall2 (fun a b => exists v v', f a v = (Ret b, v')) l bs.
Proof.
  revert w bs. induction l as [|a l IH]; intros w bs Hrun; simpl in Hrun.
  - inversion Hrun; subst. constructor.
  - apply bind_ret_inv in Hrun. destruct Hrun as (b & w1 & Hb & Hrun).
    apply bind_ret_inv in Hrun. destruct Hrun as (bs' & w2 & Hbs & Hrun).
    inversion Hrun; subst. constructor; [eauto|exact (IH _ _ Hbs)].
Qed.

Lemma stateless_newsletter_of (file : DriveFile) : stateless (newsletter_of file).
Proof.
  unfold newsletter_of.
  repeat (apply stateless_bind; [apply stateless_getitem | intro]).
  apply stateless_ret.
Qed.

Lemma newsletter_of_from (file : DriveFile) (n : Newsletter) :
  (forall v, newsletter_of file v = (Ret n, v)) -> newsletter_from file n.
Proof.
  intros H. specialize (H sample_world). revert H.
  unfold newsletter_of, newsletter_from, getitem, bind, ret, raise.
  destruct (df_id file); [|discriminate].
  destruct (df_name file); [|discriminate].
  destruct (df_createdTime file); [|discriminate].
  intros H. inversion H. simpl. repeat split.
Qed.

Lemma email_of_from (Gs : Google) (msg : MessageRef) (em : Email) v v' :
  email_of Gs msg v = (Ret em, v') -> email_from Gs msg em.
Proof.
  unfold email_of, email_from. intros H.
  apply bind_ret_inv in H. destruct H as (id & w1 & Hid & H).
  unfold getitem in Hid. destruct (mr_id msg) as [id'|]; [|discriminate].
  inversion Hid; subst.
  apply bind_ret_inv in H. destruct H as (message & w2 & Hget & H).
  apply external_ret in Hget. destruct Hget as [Hget _].
  apply bind_ret_inv in H. destruct H as (payload & w3 & _ & H).
  apply bind_ret_inv in H. destruct H as (headers & w4 & _ & H).
  apply bind_ret_inv in H. destruct H as (subject & w5 & _ & H).
  inversion H; subst. exists id, message. repeat split; assumption.
Qed.

(** X25. Without a folder the Drive tools do nothing: when [folder_id] is
    the empty string, or is omitted while [NEWSLETTER_FOLDER_ID] is unset
    or empty, [fetch_past_newsletters] and [save_to_drive] return the
    "No folder ID provided" error dictionary and leave the world as it was
    (no service is built, no call is made, nothing is logged).  An explicit
    empty [folder_id] does not fall back to the configured folder. *)
Theorem no_folder_no_drive_call
        (Gs : Google) (folder_id : option string) (w : World) :
  folder_id = Some ""
  \/ (folder_id = None
      /\ truthy (NEWSLETTER_FOLDER_ID (google_config Gs)) = false) ->
  (forall count,
      fetch_past_newsletters Gs folder_id count w
      = (Ret (Error "No folder ID provided. Set NEWSLETTER_FOLDER_ID environment variable."),
         w))
  /\ (forall content filename,
         save_to_drive Gs content filename folder_id w
         = (Ret (Error "No folder ID provided. Set NEWSLETTER_FOLDER_ID environment variable."),
            w)).
Proof.
  intros Hno.
  assert (Hf : truthy (folder_or_configured Gs folder_id) = false).
  { destruct Hno as [->|[-> H]]; [reflexivity|exact H]. }
  split; intros; apply safe_api_call_ret.
  - unfold fetch_past_newsletters_body. cbv zeta. rewrite Hf. reflexivity.
  - unfold save_to_drive_body. cbv zeta. rewrite Hf. reflexivity.
Qed.

Lemma no_folder_no_drive_call_witness :
  fetch_past_newsletters (sample_google with_credentials) (Some "") 5 sample_world
  = (Ret (Error "No folder ID provided. Set NEWSLETTER_FOLDER_ID environment variable."),
     sample_world)
  /\ NEWSLETTER_FOLDER_ID (google_config (sample_google with_credentials))
     = Some "folder-1".
Proof.
  split; [|reflexivity].
  exact (proj1 (no_folder_no_drive_call (sample_google with_credentials)
                  (Some "") sample_world (or_introl eq_refl)) 5).
Defined.

(** X26. When one of the three Google credentials is unset or empty,
    [get_google_service] logs the failure and raises before anything is
    built, and the three Google tools (the Drive ones given a folder) return
    the error dictionary "Unexpected error: Missing required Google OAuth
    credentials": the world differs only by the two log lines, so no call
    was made and no time passed. *)
Theorem missing_credentials_stop_google_tools
        (Gs : Google) (E : Env) (F : DateFormats) (w : World) :
  credentials_present (google_config Gs) = false ->
  let failed :=
    log_line w ("Failed to create Google service: " ++ no_credentials)%string in
  (forall service_name version,
      get_google_service Gs service_name version w
      = (Raise (ValueError no_credentials), failed))
  /\ (forall folder_id count,
         truthy (folder_or_configured Gs folder_id) = true ->
         fetch_past_newsletters Gs folder_id count w
         = (Ret (Error ("Unexpected error: " ++ no_credentials)%string),
            log_line failed ("fetch_past_newsletters: Unexpected error - "
                             ++ no_credentials)%string))
  /\ (forall days_back keywords,
         scan_gmail_feedback Gs E F days_back keywords w
         = (Ret (Error ("Unexpected error: " ++ no_credentials)%string),
            log_line failed ("scan_gmail_feedback: Unexpected error - "
                             ++ no_credentials)%string))
  /\ (forall content filename folder_id,
         truthy (folder_or_configured Gs folder_id) = true ->
         save_to_drive Gs content filename folder_id w
         = (Ret (Error ("Unexpected error: " ++ no_credentials)%string),
            log_line failed ("save_to_drive: Unexpected error - "
                             ++ no_credentials)%string)).
Proof.
  intros Hc failed. subst failed.
  split; [intros; apply get_google_service_missing; exact Hc|].
  split; [|split].
  - intros folder_id count Hf.
    unfold fetch_past_newsletters.
    rewrite (safe_api_call_unexpected "fetch_past_newsletters" _ w no_credentials
               (log_line w ("Failed to create Google service: "
                            ++ no_credentials)%string));
      [reflexivity|].
    unfold fetch_past_newsletters_body. cbv zeta. rewrite Hf. cbn [negb].
    unfold bind at 1. rewrite (get_google_service_missing _ _ _ _ Hc).
    reflexivity.
  - intros days_back keywords.
    unfold scan_gmail_feedback.
    rewrite (safe_api_call_unexpected "scan_gmail_feedback" _ w no_credentials
               (log_line w ("Failed to create Google service: "
                            ++ no_credentials)%string));
      [reflexivity|].
    unfold scan_gmail_feedback_body.
    unfold bind at 1. rewrite (get_google_service_missing _ _ _ _ Hc).
    reflexivity.
  - intros content filename folder_id Hf.
    unfold save_to_drive.
    rewrite (safe_api_call_unexpected "save_to_drive" _ w no_credentials
               (log_line w ("Failed to create Google service: "
                            ++ no_credentials)%string));
      [reflexivity|].
    unfold save_to_drive_body. cbv zeta. rewrite Hf. cbn [negb].
    unfold bind at 1. rewrite (get_google_service_missing _ _ _ _ Hc).
    reflexivity.
Qed.

Lemma missing_credentials_stop_google_tools_witness :
  credentials_present without_secret = false
  /\ save_to_drive (sample_google without_secret) "<html></html>" "issue-13.html"
                   None sample_world
     = (Ret (Error "Unexpected error: Missing required Google OAuth credentials"),
        log_line
          (log_line sample_world
             "Failed to create Google service: Missing required Google OAuth credentials")
          "save_to_drive: Unexpected error - Missing required Google OAuth credentials").
Proof.
  split; [reflexivity|].
  exact (proj2 (proj2 (proj2
           (missing_credentials_stop_google_tools (sample_google without_secret)
              env_all_up sample_formats sample_world eq_refl)))
           "<html></html>" "issue-13.html" None eq_refl).
Defined.

(** X27. When [fetch_past_newsletters] succeeds, a folder was given or
    configured, the credentials were present, and the reply mirrors the
    listing that Drive gave for that folder: one entry per listed file, in
    the listing's order, with the file's id, name and creation time and the
    link "https://drive.google.com/file/d/<id>/view"; [count] is the
    number of entries, which is the number of files listed, whatever the
    [count] that was asked. *)
Theorem past_newsletters_mirror_the_listing
        (Gs : Google) (folder_id : option string) (count : Z) (w : World) ok w' :
  fetch_past_newsletters Gs folder_id count w = (Ret (Success ok), w') ->
  exists folder listing,
    folder_or_configured Gs folder_id = Some folder
    /\ folder <> ""
    /\ credentials_present (google_config Gs) = true
    /\ drive_files_list Gs (past_newsletters_call folder count) = inr listing
    /\ Forall2 newsletter_from (or_default (dl_files listing) []) (newsletters ok)
    /\ past_count ok = len (or_default (dl_files listing) [])
    /\ last_logged w'
       = Some ("Fetched " ++ string_of_Z (past_count ok)
               ++ " past newsletters")%string.
Proof.
  intros H. apply safe_api_call_success in H.
  unfold fetch_past_newsletters_body in H. cbv zeta in H.
  destruct (folder_or_configured Gs folder_id) as [folder|] eqn:Hf;
    [|discriminate H].
  destruct (truthy (Some folder)) eqn:Ht; cbn [negb] in H; [|discriminate H].
  cbn [or_default] in H.
  apply bind_ret_inv in H. destruct H as (u & w1 & Hg & H).
  apply get_google_service_ret in Hg. destruct Hg as (_ & Hc & _).
  apply bind_ret_inv in H. destruct H as (listing & w2 & Hl & H).
  apply external_ret in Hl. destruct Hl as [Hl _].
  apply bind_ret_inv in H. destruct H as (ns & w3 & Hn & H).
  destruct (for_each_stateless _ _ stateless_newsletter_of _ _ _ Hn)
    as [-> Hall].
  apply bind_ret_inv in H. destruct H as (u' & w4 & Hlog & H).
  inversion Hlog; subst. inversion H; subst. clear H Hlog.
  exists folder, listing. split; [reflexivity|].
  split; [intros ->; discriminate Ht|].
  split; [exact Hc|]. split; [exact Hl|].
  assert (Hfrom : Forall2 newsletter_from (or_default (dl_files listing) []) ns).
  { eapply Forall2_impl; [|exact Hall].
    intros file n Hrun. apply newsletter_of_from. exact Hrun. }
  split; [exact Hfrom|]. cbn [past_count newsletters].
  split.
  - unfold len. now rewrite (Forall2_length Hfrom).
  - unfold last_logged. cbn [logged]. rewrite rev_app_distr. reflexivity.
Qed.

Lemma past_newsletters_mirror_the_listing_witness :
  exists ok w',
    fetch_past_newsletters (sample_google with_credentials) None 2 sample_world
    = (Ret (Success ok), w')
    /\ past_count ok = 3
    /\ map nl_drive_link (newsletters ok)
       = ["https://drive.google.com/file/d/f1/view";
          "https://drive.google.com/file/d/f2/view";
          "https://drive.google.com/file/d/f3/view"].
Proof.
  destruct (fetch_past_newsletters (sample_google with_credentials) None 2
                                   sample_world) as [o w'] eqn:Hrun.
  pose proof (f_equal fst Hrun) as Ho. cbn [fst] in Ho. vm_compute in Ho.
  subst o. eexists. exists w'. split; [reflexivity|].
  destruct (past_newsletters_mirror_the_listing _ _ _ _ _ _ Hrun)
    as (folder & listing & _ & _ & _ & _ & _ & Hcount & _).
  split; [|reflexivity]. reflexivity.
Defined.

(** X28. When [scan_gmail_feedback] succeeds, [total_responses] counts every
    message the search returned, while [emails] has the details of the
    first ten only: its length is the smaller of 10 and [total_responses],
    and each entry carries the snippet and date of the message fetched for
    that id (the empty string when the message has none).  The search asks
    for messages after the day [days_back] days before now, with the
    keywords, if any, joined by " OR ". *)
Theorem feedback_details_stop_at_ten
        (Gs : Google) (E : Env) (F : DateFormats) (days_back : Z)
        (keywords : option (list string)) (w : World) ok w' :
  scan_gmail_feedback Gs E F days_back keywords w = (Ret (Success ok), w') ->
  exists now listing,
    datetime_now E (tick w) = (Ret now, tick (tick w))
    /\ gmail_messages_list Gs
         (GmailMessagesList "me"
            (feedback_query (strftime_slash F (now - days_back * US_PER_DAY))
                            keywords) 50)
       = inr listing
    /\ total_responses ok = len (or_default (gl_messages listing) [])
    /\ Forall2 (email_from Gs) (firstn 10 (or_default (gl_messages listing) []))
               (emails ok)
    /\ len (emails ok) = Z.min 10 (total_responses ok).
Proof.
  intros H. apply safe_api_call_success in H.
  unfold scan_gmail_feedback_body in H.
  apply bind_ret_inv in H. destruct H as (u & w1 & Hg & H).
  apply get_google_service_ret in Hg. destruct Hg as (-> & _ & _).
  apply bind_ret_inv in H. destruct H as (now & w2 & Hnow & H).
  assert (Hw2 : w2 = tick (tick w)).
  { destruct (datetime_now_cases E (tick w)) as [[t Ht]|Ht];
      rewrite Ht in Hnow; inversion Hnow; reflexivity. }
  subst w2.
  apply bind_ret_inv in H. destruct H as (delta & w3 & Hd & H).
  unfold timedelta_days in Hd.
  destruct (Z.abs days_back <=? 999999999); [|discriminate Hd].
  inversion Hd; subst. clear Hd.
  apply bind_ret_inv in H. destruct H as (threshold & w4 & Hs & H).
  unfold datetime_sub in Hs.
  destruct (in_datetime_range (now - days_back * US_PER_DAY));
    [|discriminate Hs].
  inversion Hs; subst. clear Hs.
  apply bind_ret_inv in H. destruct H as (listing & w5 & Hl & H).
  apply external_ret in Hl. destruct Hl as [Hl _].
  apply bind_ret_inv in H. destruct H as (es & w6 & He & H).
  apply for_each_inv in He.
  apply bind_ret_inv in H. destruct H as (u' & w7 & Hlog & H).
  inversion H; subst. clear H Hlog.
  exists now, listing. split; [exact Hnow|]. split; [exact Hl|].
  cbn [total_responses emails]. split; [reflexivity|].
  assert (Hfrom : Forall2 (email_from Gs)
                          (firstn 10 (or_default (gl_messages listing) [])) es).
  { eapply Forall2_impl; [|exact He].
    intros msg em (v & v' & Hrun). exact (email_of_from _ _ _ _ _ Hrun). }
  split; [exact Hfrom|].
  unfold len. rewrite <- (Forall2_length Hfrom), length_firstn. lia.
Qed.

Lemma feedback_details_stop_at_ten_witness :
  exists ok w',
    scan_gmail_feedback (sample_google with_credentials) env_all_up sample_formats
                        7 (Some ["bug"; "idea"]) sample_world
    = (Ret (Success ok), w')
    /\ total_responses ok = 12
    /\ len (emails ok) = 10
    /\ feedback_query "2023/11/07" (Some ["bug"; "idea"])
       = "after:2023/11/07 subject:(newsletter OR feedback OR reply) (bug OR idea)".
Proof.
  destruct (scan_gmail_feedback (sample_google with_credentials) env_all_up
                                sample_formats 7 (Some ["bug"; "idea"])
                                sample_world) as [o w'] eqn:Hrun.
  pose proof (f_equal fst Hrun) as Ho. cbn [fst] in Ho. vm_compute in Ho.
  subst o. eexists. exists w'. split; [reflexivity|].
  destruct (feedback_details_stop_at_ten _ _ _ _ _ _ _ _ Hrun)
    as (now & listing & _ & _ & _ & _ & Hlen).
  split; [reflexivity|]. split; [|reflexivity].
  rewrite Hlen. reflexivity.
Defined.

Lemma get_google_service_built (Gs : Google) (service_name version : string)
      (w : World) :
  credentials_present (google_config Gs) = true ->
  build_service Gs service_name version = None ->
  get_google_service Gs service_name version w = (Ret tt, tick w).
Proof.
  unfold get_google_service, credentials_present, try_except, external.
  intros -> ->. reflexivity.
Qed.

(** X8. [save_to_drive], once the service is built and Drive has created
    the file: the line "Saved newsletter to Drive: <filename>" is logged
    whatever Drive answered; the reply carries the id and the link of
    Drive's answer and the filename, and when the answer lacks the id or
    the link the reply is the error dictionary naming the missing key,
    although the file was created and logged as saved. *)
Theorem saved_reply_depends_on_the_answer
        (Gs : Google) (content filename : string) (folder_id : option string)
        (w : World) (folder : string) (file : CreatedFile) :
  credentials_present (google_config Gs) = true ->
  build_service Gs "drive" "v3" = None ->
  folder_or_configured Gs folder_id = Some folder ->
  folder <> "" ->
  drive_files_create Gs (save_to_drive_call content filename folder) = inr file ->
  exists reply w',
    save_to_drive Gs content filename folder_id w = (Ret reply, w')
    /\ In ("Saved newsletter to Drive: " ++ filename)%string (logged w')
    /\ reply = match cf_id file, cf_webViewLink file with
               | Some id, Some url =>
                   Success {| saved_file_id := id;
                              saved_url := url;
                              saved_filename := filename |}
               | None, _ => Error "Unexpected error: 'id'"
               | Some _, None => Error "Unexpected error: 'webViewLink'"
               end.
Proof.
  intros Hc Hb Hf Hne Hcreate.
  assert (Ht : truthy (folder_or_configured Gs folder_id) = true).
  { rewrite Hf. destruct folder; [contradiction|reflexivity]. }
  assert (Hbody : save_to_drive_body Gs content filename folder_id w
                  = (logger ("Saved newsletter to Drive: " ++ filename)%string ;;;
                     id <- getitem "id" (cf_id file) ;;
                     url <- getitem "webViewLink" (cf_webViewLink file) ;;
                     ret (Success {| saved_file_id := id;
                                     saved_url := url;
                                     saved_filename := filename |}))
                      (tick (tick w))).
  { unfold save_to_drive_body. cbv zeta. rewrite Ht. cbn [negb].
    unfold bind at 1. rewrite (get_google_service_built _ _ _ _ Hc Hb).
    rewrite Hf. cbn [or_default]. unfold bind at 1. rewrite Hcreate.
    reflexivity. }
  unfold save_to_drive.
  destruct (cf_id file) as [id|]; [destruct (cf_webViewLink file) as [url|]|].
  - eexists. eexists. split; [|split; [|reflexivity]].
    + apply safe_api_call_ret. rewrite Hbody. reflexivity.
    + cbn [logged]. apply in_or_app. right. now left.
  - eexists. eexists. split; [|split; [|reflexivity]].
    + rewrite (safe_api_call_unexpected "save_to_drive" _ w "'webViewLink'"
                 (log_line (tick (tick w))
                           ("Saved newsletter to Drive: " ++ filename)%string));
        [reflexivity|].
      rewrite Hbody. reflexivity.
    + unfold log_line. cbn [logged]. apply in_or_app. left.
      apply in_or_app. right. now left.
  - eexists. eexists. split; [|split; [|reflexivity]].
    + rewrite (safe_api_call_unexpected "save_to_drive" _ w "'id'"
                 (log_line (tick (tick w))
                           ("Saved newsletter to Drive: " ++ filename)%string));
        [reflexivity|].
      rewrite Hbody. reflexivity.
    + unfold log_line. cbn [logged]. apply in_or_app. left.
      apply in_or_app. right. now left.
Qed.

Lemma saved_reply_depends_on_the_answer_witness :
  let Gs :=
    mkGoogle with_credentials (fun _ _ => None)
             (fun _ => inr (mkDriveListing None))
             (fun _ => inr (mkCreatedFile (Some "f9") None))
             (fun _ => inr (mkGmailListing None))
             (fun _ => inr sample_message) in
  exists w',
    save_to_drive Gs "<html></html>" "issue-13.html" None sample_world
    = (Ret (Error "Unexpected error: 'webViewLink'"), w')
    /\ In "Saved newsletter to Drive: issue-13.html" (logged w').
Proof.
  cbv zeta.
  assert (Hne : "folder-1" <> "") by discriminate.
  destruct (saved_reply_depends_on_the_answer
              (mkGoogle with_credentials (fun _ _ => None)
                        (fun _ => inr (mkDriveListing None))
                        (fun _ => inr (mkCreatedFile (Some "f9") None))
                        (fun _ => inr (mkGmailListing None))
                        (fun _ => inr sample_message))
              "<html></html>" "issue-13.html" None sample_world "folder-1"
              (mkCreatedFile (Some "f9") None)
              eq_refl eq_refl eq_refl Hne eq_refl)
    as (reply & w' & Hrun & Hlog & Hreply).
  cbn [cf_id cf_webViewLink] in Hreply. subst reply.
  exists w'. split; [exact Hrun|exact Hlog].
Defined.
